(** * reneel-utils: edgelist formatting, run orchestration and partition loading

    A shallow embedding of the Python sources
      - [src/format_edgelist.py]  (module [FormatEdgelist]),
      - [src/run_reneel.py]       (module [RunReneel]),
      - [reneelutil/data.py]      (module [Data]),
    together with the properties the specification states about them.

    Python values are modelled as follows: [int] is [Z], [str] is [string]
    (a sequence of code points below 256), [dict] is a [gmap] when only
    lookups matter and an association list when the iteration order does,
    exceptions are an explicit [result] type, and the [logging] calls write
    to an explicit list of log records. *)

From Stdlib Require Import ZArith Ascii String DecimalString DecimalZ.
From Stdlib Require Floats Uint63.
From stdpp Require Import gmap strings list fin_maps sorting.

Local Open Scope Z_scope.

(** ** Exceptions *)

Inductive exn :=
  | ValueError | IndexError | KeyError | NameError
  | AttributeError | ZeroDivisionError | FileNotFoundError | AssertionError.

Inductive result (A : Type) :=
  | Ok (a : A)
  | Raise (e : exn).
Arguments Ok {A} a.
Arguments Raise {A} e.

Global Instance exn_eq_dec : EqDecision exn.
Proof. solve_decision. Defined.

Global Instance result_ret : MRet result := @Ok.
Global Instance result_bind : MBind result := λ A B f m,
  match m with
  | Ok a => f a
  | Raise e => Raise e
  end.

Definition is_Ok {A} (r : result A) : Prop :=
  match r with Ok _ => True | Raise _ => False end.

(** ** The [str] methods and built-ins used by the sources *)

Module PyStr.

(** [str.isspace] on one code point below 256: tab, line feed, vertical
    tab, form feed, carriage return, the four separators 28..31, space,
    next-line (133) and no-break space (160). *)
Definition is_space (c : ascii) : bool :=
  match c with
  | "009" | "010" | "011" | "012" | "013"
  | "028" | "029" | "030" | "031" | " " | "133" | "160" => true
  | _ => false
  end%char.

Definition is_digit (c : ascii) : bool :=
  match c with
  | "0" | "1" | "2" | "3" | "4" | "5" | "6" | "7" | "8" | "9" => true
  | _ => false
  end%char.

Fixpoint all_chars (p : ascii → bool) (s : string) : bool :=
  match s with
  | EmptyString => true
  | String c r => p c && all_chars p r
  end.

Definition no_space (s : string) : bool := all_chars (λ c, negb (is_space c)) s.

(** [s.lstrip()], [s.rstrip()] and [s.strip()] *)
Fixpoint lstrip (s : string) : string :=
  match s with
  | EmptyString => EmptyString
  | String c r => if is_space c then lstrip r else s
  end.

Fixpoint rstrip (s : string) : string :=
  match s with
  | EmptyString => EmptyString
  | String c r =>
      match rstrip r with
      | EmptyString => if is_space c then EmptyString else String c EmptyString
      | r' => String c r'
      end
  end.

Definition strip (s : string) : string := rstrip (lstrip s).

(** [s.split()]: split at runs of white space, no empty fields. *)
Definition flush (word : string) : list string :=
  match word with
  | EmptyString => []
  | _ => [word]
  end.

Fixpoint split_ws_go (word : string) (s : string) : list string :=
  match s with
  | EmptyString => flush word
  | String c r =>
      if is_space c then flush word ++ split_ws_go EmptyString r
      else split_ws_go (word +:+ String c EmptyString) r
  end.

Definition split_ws (s : string) : list string := split_ws_go EmptyString s.

(** [s.split(sep, maxsplit)] for a non-empty separator: [skip] counts the
    characters of a separator occurrence still to be dropped, [budget] is
    the number of splits left ([None]: unbounded, Python's [-1]). *)
Definition spend (budget : option nat) : option nat :=
  match budget with
  | Some (S n) => Some n
  | b => b
  end.

Fixpoint split_sep_go (sep : string) (budget : option nat) (skip : nat)
    (field : string) (s : string) : list string :=
  match s with
  | EmptyString => [field]
  | String c r =>
      match skip with
      | S k => split_sep_go sep budget k field r
      | O =>
          if bool_decide (budget ≠ Some O) && String.prefix sep s
          then field :: split_sep_go sep (spend budget)
                          (String.length sep - 1)%nat EmptyString r
          else split_sep_go sep budget O (field +:+ String c EmptyString) r
      end
  end.

Definition split_sep (sep : string) (maxsplit : option nat) (s : string)
    : list string :=
  split_sep_go sep maxsplit O EmptyString s.

(** [s.split(sep=sep, maxsplit)]; an empty separator raises [ValueError]. *)
Definition split (sep : option string) (maxsplit : option nat) (s : string)
    : result (list string) :=
  match sep with
  | None => Ok (split_ws s)
  | Some EmptyString => Raise ValueError
  | Some d => Ok (split_sep d maxsplit s)
  end.

(** [int(s)] in base 10: surrounding white space is ignored, one sign is
    allowed, single underscores may separate digits. *)
Fixpoint digits_go (after_digit : bool) (s : string) : option string :=
  match s with
  | EmptyString => if after_digit then Some EmptyString else None
  | String c r =>
      if is_digit c then String c <$> digits_go true r
      else if bool_decide (c = "_"%char)
           then (if after_digit then digits_go false r else None)
           else None
  end.

Definition nat_literal (s : string) : option Z :=
  ds ← digits_go false s;
  d ← NilEmpty.uint_of_string ds;
  Some (Z.of_uint d).

Definition int (s : string) : result Z :=
  let t := strip s in
  let '(neg, body) :=
    match t with
    | String "-" r => (true, r)
    | String "+" r => (false, r)
    | _ => (false, t)
    end in
  match nat_literal body with
  | Some n => Ok (if neg : bool then - n else n)
  | None => Raise ValueError
  end.

(** [str(n)] for an [int] *)
Definition str (n : Z) : string := NilZero.string_of_int (Z.to_int n).

(** [f.readlines()] of a text file opened with universal newlines: the
    line ends [\r\n] and [\r] are read as [\n], every line keeps its
    end. *)
Fixpoint readlines_go (line : string) (s : string) : list string :=
  match s with
  | EmptyString => flush line
  | String c r =>
      if bool_decide (c = "010"%char)
      then (line +:+ String "010" EmptyString) :: readlines_go EmptyString r
      else if bool_decide (c = "013"%char)
      then match r with
           | String "010" r' =>
               (line +:+ String "010" EmptyString) :: readlines_go EmptyString r'
           | _ => (line +:+ String "010" EmptyString) :: readlines_go EmptyString r
           end
      else readlines_go (line +:+ String c EmptyString) r
  end.

Definition readlines (content : string) : list string :=
  readlines_go EmptyString content.

(** Neither [\n] nor [\r] *)
Definition no_line_end (c : ascii) : bool :=
  bool_decide (c ≠ "010"%char ∧ c ≠ "013"%char).

(** [l[i]] on a list, negative indices counting from the end *)
Definition index {A} (l : list A) (i : Z) : result A :=
  let n := Z.of_nat (length l) in
  let j := if decide (i < 0) then n + i else i in
  if decide (0 ≤ j < n)
  then match l !! Z.to_nat j with
       | Some x => Ok x
       | None => Raise IndexError
       end
  else Raise IndexError.

(** [l[start:]] *)
Definition slice_from {A} (l : list A) (start : Z) : list A :=
  let n := Z.of_nat (length l) in
  let j := if decide (start < 0) then Z.max (n + start) 0 else start in
  drop (Z.to_nat j) l.

(** [PurePosixPath(p).name]: the last component, where empty and [.]
    components are dropped, and [PurePosixPath(p).stem]. *)
Definition path_name (p : string) : string :=
  List.last (List.filter (λ c, negb (bool_decide (c = "" ∨ c = ".")))
               (split_sep "/" None p)) "".

Fixpoint rfind_dot (pos : nat) (s : string) : option nat :=
  match s with
  | EmptyString => None
  | String c r =>
      match rfind_dot (S pos) r with
      | Some i => Some i
      | None => if bool_decide (c = "."%char) then Some pos else None
      end
  end.

Definition stem_of_name (name : string) : string :=
  match rfind_dot O name with
  | Some i =>
      if decide (0 < i ∧ i < String.length name - 1)%nat
      then String.substring 0 i name
      else name
  | None => name
  end.

Definition stem (p : string) : string := stem_of_name (path_name p).

(** [PurePosixPath(p).suffix], on the name *)
Definition suffix_of_name (name : string) : string :=
  match rfind_dot O name with
  | Some i =>
      if decide (0 < i ∧ i < String.length name - 1)%nat
      then String.substring i (String.length name - i) name
      else ""
  | None => ""
  end.

(** [Path(dir, name)] for a relative [name]; paths are taken in normal
    form: no [.] components, no doubled or trailing slashes. *)
Definition path_join (dir name : string) : string :=
  if decide (dir = "") then name else dir +:+ "/" +:+ name.

(** [p.with_stem(stem)]: the name of [p] is replaced by [stem] and the
    suffix of the old name. *)
Definition with_stem (p : string) (new_stem : string) : string :=
  String.substring 0 (String.length p - String.length (path_name p)) p
    +:+ new_stem +:+ suffix_of_name (path_name p).

(** [s.startswith(t)] and [s.endswith(t)] *)
Definition startswith (s t : string) : bool := String.prefix t s.

Fixpoint endswith (s t : string) : bool :=
  bool_decide (s = t)
  || match s with
     | EmptyString => false
     | String _ r => endswith r t
     end.

(** [s.replace(old, "")]: the occurrences of [old] are dropped, from the
    left and without overlap; an empty [old] leaves [s] as it is.  [skip]
    counts the characters of an occurrence still to be dropped. *)
Fixpoint remove_go (old : string) (skip : nat) (s : string) : string :=
  match s with
  | EmptyString => EmptyString
  | String c r =>
      match skip with
      | S k => remove_go old k r
      | O =>
          if negb (bool_decide (old = EmptyString)) && String.prefix old s
          then remove_go old (String.length old - 1)%nat r
          else String c (remove_go old O r)
      end
  end.

Definition remove (old s : string) : string := remove_go old O s.

(** A text file made of the given lines, each ended by [\n] *)
Fixpoint lines_text (ls : list string) : string :=
  match ls with
  | [] => EmptyString
  | l :: rest => l +:+ String "010" (lines_text rest)
  end.

End PyStr.

(** ** Outcomes of a call: normal return, [exit(code)], uncaught exception *)

Inductive outcome (A : Type) :=
  | Returned (a : A)
  | Exited (code : Z)
  | Uncaught (e : exn).
Arguments Returned {A} a.
Arguments Exited {A} code.
Arguments Uncaught {A} e.

(** ** Built-ins on lists and dicts *)

Module Py.

Fixpoint enumerate {A} (start : Z) (l : list A) : list (Z * A) :=
  match l with
  | [] => []
  | x :: r => (start, x) :: enumerate (start + 1) r
  end.

(** A dict display or comprehension: a later item replaces an earlier one
    with the same key. *)
Definition dict_of {K A} `{Countable K} (items : list (K * A)) : gmap K A :=
  fold_left (λ d kv, <[kv.1 := kv.2]> d) items ∅.

(** Unpacking [a, b = l] and [a, b, c = l]: [ValueError] unless the number of
    values fits. *)
Definition unpack2 {A} (l : list A) : result (A * A) :=
  match l with
  | [a; b] => Ok (a, b)
  | _ => Raise ValueError
  end.

Definition unpack3 {A} (l : list A) : result (A * A * A) :=
  match l with
  | [a; b; c] => Ok (a, b, c)
  | _ => Raise ValueError
  end.

(** A list comprehension whose element expression may raise *)
Fixpoint for_each {A B} (f : A → result B) (l : list A) : result (list B) :=
  match l with
  | [] => Ok []
  | x :: r => y ← f x; ys ← for_each f r; mret (y :: ys)
  end.

Definition assert (b : bool) : result unit :=
  if b then Ok () else Raise AssertionError.

End Py.

(** ** The [pandas] operations the loaders call

    A frame is its index (node ids, taken to be unique), its column labels
    and its cells; a cell without a value ([None]) is a missing entry
    ([NaN]).  Labels are strings, numbers ([chi]) or pairs [(chi, seed)]. *)

Module Pandas.

Section frames.
Context {F : Type} `{EqDecision F}.
(** [f"{x}"] for a number used as a label *)
Variable fmt : F → string.

Inductive label :=
  | Lstr (s : string)
  | Lnum (x : F)
  | Lpair (x : F) (seed : Z).

#[global] Instance label_eq_dec : EqDecision label.
Proof. solve_decision. Defined.

Definition label_fmt (c : label) : string :=
  match c with
  | Lstr s => s
  | Lnum x => fmt x
  | Lpair x seed => "(" +:+ fmt x +:+ ", " +:+ PyStr.str seed +:+ ")"
  end.

Record DataFrame := {
  index : list Z;
  columns : list label;
  cell : Z → label → option Z
}.

(** A frame with one column, from its rows [(node id, value)] *)
Definition frame_of_column (c : label) (rows : list (Z * Z)) : DataFrame :=
  {| index := rows.*1;
     columns := [c];
     cell r c' := if decide (c' = c) then Py.dict_of rows !! r else None |}.

Definition union_index (a b : list Z) : list Z :=
  merge_sort Z.le (remove_dups (a ++ b)).

(** [left.merge(right, left_index=True, right_index=True, how="outer",
    suffixes=[lsuffix, rsuffix])]: a label present on both sides is renamed
    to [f"{label}{suffix}"] on each side. *)
Definition overlap (left right : DataFrame) : list label :=
  List.filter (λ c, bool_decide (c ∈ columns right)) (columns left).

Definition rename (ov : list label) (suffix : string) (c : label) : label :=
  if decide (c ∈ ov) then Lstr (label_fmt c +:+ suffix) else c.

Definition side_cell (ov : list label) (suffix : string) (d : DataFrame)
    (r : Z) (c : label) : option (option Z) :=
  match List.find (λ c0, bool_decide (rename ov suffix c0 = c)) (columns d) with
  | Some c0 => Some (if decide (r ∈ index d) then cell d r c0 else None)
  | None => None
  end.

Definition merge_outer (left right : DataFrame) (lsuffix rsuffix : string)
    : DataFrame :=
  let ov := overlap left right in
  {| index := union_index (index left) (index right);
     columns := (rename ov lsuffix <$> columns left)
                  ++ (rename ov rsuffix <$> columns right);
     cell r c :=
       match side_cell ov lsuffix left r c with
       | Some v => v
       | None => default None (side_cell ov rsuffix right r c)
       end |}.

(** [d[col] = d[col].fillna(v).astype(int)]; [d[col]] raises [KeyError] when
    there is no such column. *)
Definition fillna_column (d : DataFrame) (col : label) (v : Z) : result DataFrame :=
  if decide (col ∈ columns d)
  then Ok {| index := index d;
             columns := columns d;
             cell r c :=
               if decide (c = col ∧ r ∈ index d)
               then Some (default v (cell d r c))
               else cell d r c |}
  else Raise KeyError.

(** [pd.concat(parts, axis=1)]: outer join on the index; no objects to
    concatenate is a [ValueError]. *)
Definition concat_columns (parts : list DataFrame) : result DataFrame :=
  match parts with
  | [] => Raise ValueError
  | _ =>
      Ok {| index := foldr union_index [] (index <$> parts);
            columns := mjoin (columns <$> parts);
            cell r c :=
              match List.find (λ d, bool_decide (c ∈ columns d)) parts with
              | Some d => if decide (r ∈ index d) then cell d r c else None
              | None => None
              end |}
  end.

End frames.

Arguments label F : clear implicits.
Arguments DataFrame F : clear implicits.

End Pandas.

(** * [src/format_edgelist.py] *)

Module FormatEdgelist.

(** [AddDict.__missing__] gives [0] and stores nothing; [d[k] += w] then
    stores [d[k] + w].  [Counter] behaves the same way. *)
Definition get0 `{Countable K} (d : gmap K Z) (k : K) : Z := default 0 (d !! k).
Definition add_to `{Countable K} (k : K) (w : Z) (d : gmap K Z) : gmap K Z :=
  <[k := get0 d k + w]> d.

Section edgelist.
Context {V : Type} `{Countable V}.
(** [a < b] on node identifiers, which [max] and [min] use *)
Variable node_lt : V → V → bool.
Variable convert : string → result V.
Variable weight_convert : string → result Z.

(** [max(u, v)] keeps [u] unless [v > u]; [min(u, v)] keeps [u] unless
    [v < u]. *)
Definition py_max (u v : V) : V := if node_lt u v then v else u.
Definition py_min (u v : V) : V := if node_lt v u then v else u.

Record graph := Graph {
  nodes : gmap V Z;
  degrees : gmap V Z;
  edges : gmap (V * V) Z
}.

Definition empty_graph : graph := Graph ∅ ∅ ∅.

Inductive log_record :=
  | Info_reading (skip : Z) (sep : option string)
  | Critical_split (lineno : Z) (sep : option string) (line : string) (ex : exn)
  | Debug_self_loop (u v : V) (lineno : Z)
  | Info_read_in (n_nodes n_edges : nat).

Variable sep : option string.
Variable skip : Z.
Variable directed : bool.
Variables u_col v_col w_col : Z.

(** The body of the [try]: split the line and pick the three columns. *)
Definition fields (line : string) : result (string * string * string) :=
  ls ← PyStr.split sep None line;
  u ← PyStr.index ls u_col;
  v ← PyStr.index ls v_col;
  w ← PyStr.index ls w_col;
  mret (u, v, w).

(** The conversions, which are outside the [try]. *)
Definition converted (f : string * string * string) : result (V * V * Z) :=
  u ← convert (PyStr.strip f.1.1);
  v ← convert (PyStr.strip f.1.2);
  w ← weight_convert (PyStr.strip f.2);
  mret (u, v, w).

Definition canonical (u v : V) : V * V :=
  if directed then (u, v) else (py_max u v, py_min u v).

Definition add_edge (g : graph) (u v : V) (w : Z) : graph :=
  let nodes1 := add_to u w (nodes g) in
  let nodes2 := add_to v w nodes1 in
  let degrees1 := add_to u 1 (degrees g) in
  let degrees2 := add_to v 1 degrees1 in
  Graph nodes2 degrees2 (add_to (u, v) w (edges g)).

(** The body of the loop for one line: either the loop goes on with the
    log and the graph, or the call ends. *)
Inductive step :=
  | Continue (log : list log_record) (g : graph)
  | Stop (log : list log_record) (o : outcome graph).

Definition read_line (lineno : Z) (line : string)
    (log : list log_record) (g : graph) : step :=
  if decide (PyStr.strip line = "") then Continue log g
  else
    match fields line with
    | Raise ex =>
        Stop (log ++ [Critical_split (lineno + skip) sep line ex]) (Exited 1)
    | Ok f =>
        match converted f with
        | Raise ex => Stop log (Uncaught ex)
        | Ok (u, v, w) =>
            let '(u, v) := canonical u v in
            if decide (u ≠ v)
            then Continue log (add_edge g u v w)
            else Continue (log ++ [Debug_self_loop u v (lineno + skip)]) g
        end
    end.

(** The loop over [enumerate(lines, start=1)] *)
Fixpoint read_lines (lineno : Z) (lines : list string)
    (log : list log_record) (g : graph) : list log_record * outcome graph :=
  match lines with
  | [] => (log, Returned g)
  | line :: rest =>
      match read_line lineno line log g with
      | Continue log' g' => read_lines (lineno + 1) rest log' g'
      | Stop log' o => (log', o)
      end
  end.

Definition read_graph (content : string) : list log_record * outcome graph :=
  read_lines 1 (PyStr.slice_from (PyStr.readlines content) skip)
    [Info_reading skip sep] empty_graph.

(** [sorted(nodes)]: the keys in ascending order; [a] may stand before
    [b] when [b < a] does not hold. *)
Definition node_le (a b : V) : Prop := ¬ node_lt b a.

#[global] Instance node_le_dec : RelDecision node_le.
Proof. intros a b. unfold node_le. apply _. Defined.

Definition sorted (l : list V) : list V := merge_sort node_le l.

(** [mapper = {v: i for i, v in enumerate(sorted(nodes), start=1)}] *)
Definition renumbering (nds : gmap V Z) : gmap V Z :=
  Py.dict_of ((λ iv, (iv.2, iv.1)) <$> Py.enumerate 1 (sorted (map_to_list nds).*1)).

(** The part of the loop body of [format_for_reneel] that reads one file
    and renumbers it; the result holds the graph and its [mapper]. *)
Definition format_for_reneel (content : string)
    : list log_record * outcome (graph * gmap V Z) :=
  match read_graph content with
  | (log, Returned g) =>
      (log ++ [Info_read_in (size (nodes g)) (size (edges g))],
       Returned (g, renumbering (nodes g)))
  | (log, Exited c) => (log, Exited c)
  | (log, Uncaught e) => (log, Uncaught e)
  end.

End edgelist.

Arguments graph V {_ _}.
Arguments log_record V : clear implicits.
Arguments step V {_ _}.
Arguments Graph {V _ _} nodes degrees edges.
Arguments nodes {V _ _} g.
Arguments degrees {V _ _} g.
Arguments edges {V _ _} g.

(** *** Key files *)

Section key_files.
Context {K : Type}.
(** [f"{k}"] for an original node id, and the [cvt] given to [read_key] *)
Variable show : K → string.
Variable cvt : string → result K.

(** [write_key]: one line [original_id formatted_id] per item of the
    dict, in its order; the result is the content of the file. *)
Fixpoint write_key (mapper : list (K * Z)) : string :=
  match mapper with
  | [] => ""
  | (k, v) :: rest =>
      show k +:+ " " +:+ PyStr.str v +:+ String "010" "" +:+ write_key rest
  end.

(** [write_simple_key]: the nodes, one per line, already sorted *)
Fixpoint write_simple_key (sorted_nodes : list K) : string :=
  match sorted_nodes with
  | [] => ""
  | k :: rest => show k +:+ String "010" "" +:+ write_simple_key rest
  end.

(** One item of the comprehension of [read_key]; Python evaluates the
    key [int(l.split()[1].strip())] before the value. *)
Definition read_key_item (l : string) : result (Z * K) :=
  new_id_field ← PyStr.index (PyStr.split_ws l) 1;
  new_id ← PyStr.int (PyStr.strip new_id_field);
  original_field ← PyStr.index (PyStr.split_ws l) 0;
  original ← cvt (PyStr.strip original_field);
  mret (new_id, original).

Fixpoint read_key_lines (lines : list string) (unmapper : gmap Z K)
    : result (gmap Z K) :=
  match lines with
  | [] => Ok unmapper
  | l :: rest =>
      if decide (PyStr.strip l = "") then read_key_lines rest unmapper
      else
        item ← read_key_item l;
        read_key_lines rest (<[item.1 := item.2]> unmapper)
  end.

Definition read_key (content : string) : result (gmap Z K) :=
  read_key_lines (PyStr.readlines content) ∅.

End key_files.

(** *** [load_partition] *)

Section load_partition.
Context {F : Type} `{EqDecision F}.
Variable fmt : F → string.

(** The loop [df.loc[i][chi] = int(l.strip())] over
    [enumerate(part.readlines(), start=1)]: the right-hand side is evaluated
    first, then [df.loc[i]] raises [KeyError] for a row the key does not
    have. *)
Fixpoint read_partition_lines (unmapper : gmap Z Z) (i : Z)
    (lines : list string) (assigned : gmap Z Z) : result (gmap Z Z) :=
  match lines with
  | [] => Ok assigned
  | l :: rest =>
      c ← PyStr.int (PyStr.strip l);
      match unmapper !! i with
      | None => Raise KeyError
      | Some _ => read_partition_lines unmapper (i + 1) rest (<[i := c]> assigned)
      end
  end.

(** The frame [df] that [load_partition] builds from the contents of the
    key file and of the partition file: indexed by original node id, one
    column [chi]. *)
Definition partition_frame (key_content partition_content : string)
    (chi : Pandas.label F) : result (Pandas.DataFrame F) :=
  unmapper ← read_key PyStr.int key_content;
  assigned ← read_partition_lines unmapper 1 (PyStr.readlines partition_content) ∅;
  let rows := (λ io, (io.2, default 0 (assigned !! io.1))) <$> map_to_list unmapper in
  mret (Pandas.frame_of_column chi rows).

(** The column [col] whose missing entries are filled: [f"{chi}_{file_stem}"]
    if the merged frame has it, else [f"{chi}"]. *)
Definition filled_column (file_stem : string) (chi : Pandas.label F)
    (merged : Pandas.DataFrame F) : Pandas.label F :=
  let col := Pandas.Lstr (Pandas.label_fmt fmt chi +:+ "_" +:+ file_stem) in
  if decide (col ∈ Pandas.columns merged) then col
  else Pandas.Lstr (Pandas.label_fmt fmt chi).

(** [load_partition], given the contents of the two files it has located;
    [chi] is the label of the new column. *)
Definition load_partition (key_content partition_content : string)
    (file_stem : string) (chi : Pandas.label F)
    (existing_df : option (Pandas.DataFrame F)) : result (Pandas.DataFrame F) :=
  df ← partition_frame key_content partition_content chi;
  match existing_df with
  | Some existing =>
      let merged := Pandas.merge_outer fmt existing df "" ("_" +:+ file_stem) in
      Pandas.fillna_column merged (filled_column file_stem chi merged) 0
  | None => Ok df
  end.

End load_partition.

(** *** The output files of [format_for_reneel] *)

Section outputs.
Context {V : Type} `{Countable V}.
Variable node_lt : V → V → bool.

(** [mapper[x]]: [KeyError] for a key the dict does not have *)
Definition subscript (mapper : gmap V Z) (x : V) : result Z :=
  match mapper !! x with
  | Some i => Ok i
  | None => Raise KeyError
  end.

(** [write_edges], given [edges.items()] in the order of the dict: one line
    [mapper[u] mapper[v] w] per item; the result is the content of the
    file. *)
Fixpoint write_edges (items : list (V * V * Z)) (mapper : gmap V Z)
    : result string :=
  match items with
  | [] => Ok ""
  | e :: rest =>
      i ← subscript mapper e.1.1;
      j ← subscript mapper e.1.2;
      text ← write_edges rest mapper;
      mret (PyStr.str i +:+ " " +:+ PyStr.str j +:+ " " +:+ PyStr.str e.2
              +:+ String "010" text)
  end.

(** [write_info]: the number of nodes and the number of edges *)
Definition write_info (nds : gmap V Z) (eds : gmap (V * V) Z) : string :=
  PyStr.str (Z.of_nat (size nds)) +:+ " " +:+ PyStr.str (Z.of_nat (size eds))
    +:+ String "010" "".

(** [write_degree]: for each node in sorted order, [degrees[v] nodes[v]] *)
Definition degree_line (nds degs : gmap V Z) (v : V) : string :=
  PyStr.str (get0 degs v) +:+ " " +:+ PyStr.str (get0 nds v).

Definition write_degree (nds degs : gmap V Z) : string :=
  PyStr.lines_text (degree_line nds degs <$> sorted node_lt (map_to_list nds).*1).

End outputs.

(** *** Prefixes and suffixes of the file names *)

Definition add_underscore_to_prefix (pre : string) : string :=
  if bool_decide (0 < String.length pre)%nat && negb (PyStr.endswith pre "_")
  then pre +:+ "_" else pre.

Definition add_underscore_to_suffix (suf : string) : string :=
  if bool_decide (0 < String.length suf)%nat && negb (PyStr.startswith suf "_")
  then "_" +:+ suf else suf.

(** The start of [format_for_reneel]: a reserved prefix ends the script,
    else the names of the four output files of one source file are built.
    [source_path] is resolved, so that [Path(source_path.parent,
    source_path.name)] is [source_path] itself. *)
Definition reserved_prefixes : list string :=
  ["clean_"; "key_"; "degree_"; "info_"; "original_"].

Record output_names := {
  output_file : string;
  key_file : string;
  info_file : string;
  degree_file : string
}.

Definition origin_name (inprefix insuffix source_path : string) : string :=
  PyStr.remove (add_underscore_to_suffix insuffix)
    (PyStr.remove (add_underscore_to_prefix inprefix) (PyStr.stem source_path)).

Definition name_outputs (inprefix insuffix prefix suffix : string)
    (outputdir : option string) (source_path : string) : outcome output_names :=
  if bool_decide (add_underscore_to_prefix prefix ∈ reserved_prefixes)
  then Exited 1
  else
    let origin := origin_name inprefix insuffix source_path in
    let tail := origin +:+ add_underscore_to_suffix suffix in
    let target :=
      match outputdir with
      | None => source_path
      | Some dir => PyStr.path_join dir (PyStr.path_name source_path)
      end in
    Returned {| output_file := PyStr.with_stem target ("clean_" +:+ tail);
                key_file := PyStr.with_stem target ("key_" +:+ tail);
                info_file := PyStr.with_stem target ("info_" +:+ tail);
                degree_file := PyStr.with_stem target ("degree_" +:+ tail) |}.

End FormatEdgelist.


(** * [src/run_reneel.py] *)

Module RunReneel.

Record CompletedProcess := { args : list string; returncode : Z }.

Section run_reneel.
(** [chi] is a float; the script only formats it. *)
Context {F : Type}.
Variable fmt : F → string.

Record ReneelRun := {
  edgelist_file : string;
  seed : Z;
  chi : F;
  rg_ensemble_size : Z;
  reneel_ensemble_size : Z;
  rg_parameter : Z;
  partition_file : option string;
  results_file : option string;
  associated_files : list string;
  wall_time : option Z;
  completed_process : option CompletedProcess
}.

(** What a call does to the outside, in order: log records, file system
    operations and the sub-process. *)
Inductive event :=
  | Warning_rg_ensemble (effective expected n_cpu : Z)
  | Warning_reneel_ensemble (effective expected n_cpu : Z)
  | Warning_returncode (code : Z)
  | Info_iteration (run_number : Z)
  | Debug_creating_directory (dir : string)
  | Debug_created_temporary (dir : string)
  | Debug_cmd (cmd : list string)
  | Debug_copying (src dst : string)
  | Makedirs (dir : string)
  | Copy (src dst : string)
  | Chdir (dir : string)
  | Append (file : string)
  | Run (cmd : list string)
  | Cleanup (dir : string)
  | Print_logfile (run : nat).

(** The interpreter state: the trace, the objects of class [ReneelRun] by
    reference, the module-level name [reneelrun] (unbound until the script
    assigns it), and the number of temporary directories made. *)
Record state := {
  trace : list event;
  heap : gmap nat ReneelRun;
  global_reneelrun : option nat;
  tmp_count : nat
}.

Definition M (A : Type) : Type := state → state * result A.

#[global] Instance M_ret : MRet M := λ A a st, (st, Ok a).
#[global] Instance M_bind : MBind M := λ A B f m st,
  match m st with
  | (st', Ok a) => f a st'
  | (st', Raise e) => (st', Raise e)
  end.

Definition raise {A} (e : exn) : M A := λ st, (st, Raise e).
Definition lift {A} (r : result A) : M A := λ st, (st, r).
Definition add_events (st : state) (events : list event) : state :=
  {| trace := trace st ++ events; heap := heap st;
     global_reneelrun := global_reneelrun st; tmp_count := tmp_count st |}.
Definition emit (e : event) : M unit := λ st, (add_events st [e], Ok ()).
Definition when (b : bool) (m : M unit) : M unit := if b then m else mret ().

Fixpoint each {A} (f : A → M unit) (l : list A) : M unit :=
  match l with
  | [] => mret ()
  | x :: r => _ ← f x; each f r
  end.

(** Reading an object through a reference, and assigning its attributes *)
Definition get_obj (l : nat) : M ReneelRun := λ st,
  match heap st !! l with
  | Some r => (st, Ok r)
  | None => (st, Raise AttributeError)
  end.

Definition update_obj (l : nat) (f : ReneelRun → ReneelRun) : M unit := λ st,
  ({| trace := trace st; heap := alter f l (heap st);
      global_reneelrun := global_reneelrun st; tmp_count := tmp_count st |}, Ok ()).

Definition alloc (r : ReneelRun) : M nat := λ st,
  let l := fresh (dom (heap st)) in
  ({| trace := trace st; heap := <[l := r]> (heap st);
      global_reneelrun := global_reneelrun st; tmp_count := tmp_count st |}, Ok l).

(** The name [reneelrun] inside a function is looked up among the module's
    globals: [NameError] when the script has not bound it. *)
Definition lookup_global_reneelrun : M nat := λ st,
  match global_reneelrun st with
  | Some l => (st, Ok l)
  | None => (st, Raise NameError)
  end.

Definition bind_global_reneelrun (l : nat) : M unit := λ st,
  ({| trace := trace st; heap := heap st;
      global_reneelrun := Some l; tmp_count := tmp_count st |}, Ok ()).

(** The outside world: which directories exist, which copies succeed, what
    the executable returns, how temporary directories are named, which
    files exist. *)
Variable is_dir : string → bool.
Variable exists_file : string → bool.
Variable copy_ok : string → string → bool.
Variable subprocess_run : list string → result Z.
Variable tmp_name : nat → string.

(** [shutil.copy(src, dst)] *)
Definition copy (src dst : string) : M unit :=
  _ ← emit (Copy src dst);
  if copy_ok src dst then mret () else raise FileNotFoundError.

Definition count_temporary (st : state) : state :=
  {| trace := trace st; heap := heap st;
     global_reneelrun := global_reneelrun st; tmp_count := S (tmp_count st) |}.

(** [with TemporaryDirectory(dir=current_dir) as tmpdir: body]: the
    directory is removed when the block is left, also by an exception. *)
Definition with_temporary_directory {A} (current_dir : string)
    (body : string → M A) : M A := λ st,
  let tmpdir := PyStr.path_join current_dir (tmp_name (tmp_count st)) in
  let '(st2, r) := body tmpdir (count_temporary st) in
  (add_events st2 [Cleanup tmpdir], r).

(** [max(size // n_cpu, 1)] *)
Definition ensemble_per_cpu (size n_cpu : Z) : result Z :=
  if decide (n_cpu = 0) then Raise ZeroDivisionError
  else Ok (Z.max (size `div` n_cpu) 1).

(** The attribute assignments of [run_reneel_and_collect_output] *)
Definition set_completed_process (cp : CompletedProcess) (o : ReneelRun) : ReneelRun :=
  {| edgelist_file := edgelist_file o; seed := seed o; chi := chi o;
     rg_ensemble_size := rg_ensemble_size o;
     reneel_ensemble_size := reneel_ensemble_size o;
     rg_parameter := rg_parameter o; partition_file := partition_file o;
     results_file := results_file o;
     associated_files := associated_files o; wall_time := Some 0;
     completed_process := Some cp |}.

Definition set_output_files (output_dir : string) (keep_results : bool)
    (partition results : string) (o : ReneelRun) : ReneelRun :=
  {| edgelist_file := edgelist_file o; seed := seed o; chi := chi o;
     rg_ensemble_size := rg_ensemble_size o;
     reneel_ensemble_size := reneel_ensemble_size o;
     rg_parameter := rg_parameter o;
     partition_file := Some (PyStr.path_join output_dir (PyStr.path_name partition));
     results_file :=
       if keep_results
       then Some (PyStr.path_join output_dir (PyStr.path_name results))
       else results_file o;
     associated_files := associated_files o; wall_time := wall_time o;
     completed_process := completed_process o |}.

(** The local names of [run_reneel_and_collect_output] that depend on the
    temporary directory: [tmp_suffix], [_input_file], [partition_file],
    [output_partition_file], [results_file], [output_results_file], [cmd] *)
Definition tmp_suffix (tmpdir : string) (r : ReneelRun) : string :=
  PyStr.str (seed r) +:+ "-" +:+ fmt (chi r) +:+ "-" +:+ PyStr.path_name tmpdir.

Definition input_file (tmpdir : string) (r : ReneelRun) : string :=
  PyStr.path_join tmpdir (PyStr.path_name (edgelist_file r)).

Definition partition_path (tmpdir : string) (r : ReneelRun) : string :=
  PyStr.with_stem (input_file tmpdir r)
    ("partition_" +:+ PyStr.stem (input_file tmpdir r)).

Definition output_partition_path (output_dir tmpdir : string) (r : ReneelRun)
    : string :=
  PyStr.path_join output_dir
    (PyStr.path_name
       (PyStr.with_stem (partition_path tmpdir r)
          (PyStr.stem (partition_path tmpdir r) +:+ "_" +:+ tmp_suffix tmpdir r))).

Definition results_path (tmpdir : string) (r : ReneelRun) : string :=
  PyStr.with_stem (input_file tmpdir r)
    ("results_" +:+ PyStr.stem (input_file tmpdir r)).

Definition output_results_path (output_dir tmpdir : string) (r : ReneelRun)
    : string :=
  PyStr.path_join output_dir
    (PyStr.path_name
       (PyStr.with_stem (results_path tmpdir r)
          (PyStr.stem (results_path tmpdir r) +:+ "_" +:+ tmp_suffix tmpdir r))).

Definition command (path_to_executable : string) (test_mode : bool)
    (r : ReneelRun) (rg_ensemble_per_cpu reneel_ensemble_per_cpu : Z)
    (tmpdir : string) : list string :=
  let cmd :=
    [path_to_executable; PyStr.str (rg_parameter r);
     PyStr.str rg_ensemble_per_cpu; PyStr.str reneel_ensemble_per_cpu;
     PyStr.str (seed r); fmt (chi r); PyStr.path_name (input_file tmpdir r)] in
  if test_mode then "echo" :: cmd else cmd.

(** The body of the [with] block of [run_reneel_and_collect_output], in two
    parts.  First the input files are copied to the temporary directory and
    the executable is run there; the result is its return code. *)
Definition stage_and_run (path_to_executable : string) (r : ReneelRun)
    (test_mode : bool) (rg_ensemble_per_cpu reneel_ensemble_per_cpu : Z)
    (tmpdir : string) : M Z :=
  _ ← emit (Debug_created_temporary tmpdir);
  _ ← copy (edgelist_file r) tmpdir;
  _ ← each (λ file, copy file tmpdir) (associated_files r);
  _ ← emit (Chdir tmpdir);
  let cmd := command path_to_executable test_mode r rg_ensemble_per_cpu
               reneel_ensemble_per_cpu tmpdir in
  _ ← emit (Debug_cmd cmd);
  _ ← when test_mode
        (_ ← emit (Append (partition_path tmpdir r));
         emit (Append (results_path tmpdir r)));
  _ ← emit (Run cmd);
  lift (subprocess_run cmd).

(** Then the completed process is stored in the run, its return code is
    looked at, and the output files are copied back. *)
Definition collect_output (current_dir output_dir : string) (reneel_run : nat)
    (r : ReneelRun) (keep_results : bool) (cmd : list string) (code : Z)
    (tmpdir : string) : M (string * string) :=
  _ ← update_obj reneel_run
        (set_completed_process {| args := cmd; returncode := code |});
  (* the name used here is [reneelrun], not the parameter [reneel_run] *)
  g ← lookup_global_reneelrun;
  o ← get_obj g;
  cp ← lift (match completed_process o with
             | Some cp => Ok cp
             | None => Raise AttributeError
             end);
  _ ← when (bool_decide (returncode cp ≠ 0)) (emit (Warning_returncode (returncode cp)));
  _ ← emit (Debug_copying (partition_path tmpdir r)
              (output_partition_path output_dir tmpdir r));
  _ ← copy (partition_path tmpdir r) (output_partition_path output_dir tmpdir r);
  _ ← when keep_results
        (_ ← emit (Debug_copying (results_path tmpdir r)
                     (output_results_path output_dir tmpdir r));
         copy (results_path tmpdir r) (output_results_path output_dir tmpdir r));
  _ ← emit (Chdir current_dir);
  mret (partition_path tmpdir r, results_path tmpdir r).

Definition in_temporary_directory (current_dir : string)
    (path_to_executable output_dir : string) (reneel_run : nat) (r : ReneelRun)
    (keep_results test_mode : bool)
    (rg_ensemble_per_cpu reneel_ensemble_per_cpu : Z) (tmpdir : string)
    : M (string * string) :=
  code ← stage_and_run path_to_executable r test_mode rg_ensemble_per_cpu
            reneel_ensemble_per_cpu tmpdir;
  collect_output current_dir output_dir reneel_run r keep_results
    (command path_to_executable test_mode r rg_ensemble_per_cpu
       reneel_ensemble_per_cpu tmpdir) code tmpdir.

(** [run_reneel_and_collect_output]; [current_dir] is [os.getcwd()]. *)
Definition run_reneel_and_collect_output (current_dir : string)
    (path_to_executable output_dir : string) (reneel_run : nat)
    (keep_results test_mode : bool) (n_cpu : Z) : M unit :=
  r ← get_obj reneel_run;
  rg_ensemble_per_cpu ← lift (ensemble_per_cpu (rg_ensemble_size r) n_cpu);
  _ ← when (bool_decide (rg_ensemble_per_cpu * n_cpu ≠ rg_ensemble_size r))
        (emit (Warning_rg_ensemble (rg_ensemble_per_cpu * n_cpu)
                 (rg_ensemble_size r) n_cpu));
  reneel_ensemble_per_cpu ← lift (ensemble_per_cpu (reneel_ensemble_size r) n_cpu);
  _ ← when (bool_decide (reneel_ensemble_per_cpu * n_cpu ≠ reneel_ensemble_size r))
        (emit (Warning_reneel_ensemble (reneel_ensemble_per_cpu * n_cpu)
                 (reneel_ensemble_size r) n_cpu));
  _ ← when (negb (is_dir output_dir))
        (_ ← emit (Debug_creating_directory output_dir); emit (Makedirs output_dir));
  files ← with_temporary_directory current_dir
             (in_temporary_directory current_dir path_to_executable output_dir
                reneel_run r keep_results test_mode rg_ensemble_per_cpu
                reneel_ensemble_per_cpu);
  _ ← update_obj reneel_run (set_output_files output_dir keep_results files.1 files.2);
  mret ().

(** [ReneelRun(...)] with its [__post_init__]: the edgelist and its three
    companion files must exist. *)
Fixpoint find_associated (edgelist : string) (prefixes : list string)
    (found : list string) : result (list string) :=
  match prefixes with
  | [] => Ok found
  | prefix :: rest =>
      let file := PyStr.with_stem edgelist (prefix +:+ PyStr.stem edgelist) in
      if exists_file file then find_associated edgelist rest (found ++ [file])
      else Raise FileNotFoundError
  end.

Definition new_ReneelRun (file : string) (seed0 : Z) (chi0 : F)
    (rg_size reneel_size rg_param : Z) : result ReneelRun :=
  if exists_file file
  then
    assoc ← find_associated file ["clean_"; "degree_"; "info_"] [];
    mret {| edgelist_file := file; seed := seed0; chi := chi0;
            rg_ensemble_size := rg_size; reneel_ensemble_size := reneel_size;
            rg_parameter := rg_param; partition_file := None;
            results_file := None; associated_files := assoc;
            wall_time := None; completed_process := None |}
  else Raise FileNotFoundError.

(** The command line of the script *)
Record arguments := {
  arg_file : list string;
  arg_outputdir : string;
  arg_chi : list F;
  arg_nruns : nat;
  arg_seed : option (list Z);
  arg_nproc : Z;
  arg_reneelpath : string;
  arg_keepresults : bool;
  arg_rg_ensemble_size : Z;
  arg_reneel_ensemble_size : Z;
  arg_rg_parameter : Z;
  arg_test : bool
}.

(** [seed_generator]: the [k]-th seed it yields, if any; [randbits k] is
    the [k]-th draw of [randbits(32)]. *)
Variable randbits : nat → Z.

Definition seed_generator (seeds : option (list Z)) (k : nat) : option Z :=
  match seeds with
  | None => Some (randbits k)
  | Some l => l !! (k `mod` length l)%nat
  end.

(** [product(args.chi, args.file, range(args.nruns))] *)
Definition product (a : arguments) : list (F * string * Z) :=
  c ← arg_chi a;
  f ← arg_file a;
  n ← seq 0 (arg_nruns a);
  [(c, f, Z.of_nat n)].

(** One iteration of the loop of the script: the new object is bound to the
    global name [reneelrun] and then passed to the function. *)
Definition main_iteration (current_dir : string) (a : arguments) (k : nat)
    (it : F * string * Z) (seed0 : Z) : M unit :=
  _ ← emit (Info_iteration it.2);
  r ← lift (new_ReneelRun it.1.2 seed0 it.1.1 (arg_rg_ensemble_size a)
              (arg_reneel_ensemble_size a) (arg_rg_parameter a));
  l ← alloc r;
  _ ← bind_global_reneelrun l;
  _ ← run_reneel_and_collect_output current_dir (arg_reneelpath a)
        (arg_outputdir a) l (arg_keepresults a) (arg_test a) (arg_nproc a);
  emit (Print_logfile k).

(** The loop over [zip(product(...), seed_generator(...))] *)
Fixpoint main_loop (current_dir : string) (a : arguments) (k : nat)
    (its : list (F * string * Z)) : M unit :=
  match its with
  | [] => mret ()
  | it :: rest =>
      match seed_generator (arg_seed a) k with
      | None => mret ()
      | Some s =>
          _ ← main_iteration current_dir a k it s;
          main_loop current_dir a (S k) rest
      end
  end.

Definition main (current_dir : string) (a : arguments) : M unit :=
  main_loop current_dir a O (product a).

Definition initial_state : state :=
  {| trace := []; heap := ∅; global_reneelrun := None; tmp_count := O |}.

End run_reneel.

Arguments ReneelRun F : clear implicits.
Arguments state F : clear implicits.
Arguments M F A : clear implicits.
Arguments arguments F : clear implicits.

End RunReneel.


(** * [reneelutil/data.py] *)

Module Data.

Section data.
Context {F : Type} `{EqDecision F}.
(** [float(s)] returns a float or raises [ValueError]; [==] and [<=] on
    floats; [f"{x}"]. *)
Variable float_of : string → option F.
Variable float_eqb : F → F → bool.
Variable float_leb : F → F → bool.
Variable fmt : F → string.

Definition float (s : string) : result F :=
  match float_of s with
  | Some x => Ok x
  | None => Raise ValueError
  end.

(** [Path(path).stem.split("_", maxsplit=2)] *)
Definition _get_filename_parts (path : string) : list string :=
  PyStr.split_sep "_" (Some 2%nat) (PyStr.stem path).

(** One row of the table of [get_available_clustering] *)
Record clustering := {
  name : string;
  chi : F;
  seed : Z;
  id : string;
  file : string
}.

(** The inner [try]: split the suffix and convert seed and chi. *)
Definition seed_chi_id (suffix : string) : result (Z * F * string) :=
  parts ← Py.unpack3 (PyStr.split_sep "-" (Some 2%nat) suffix);
  seed0 ← PyStr.int parts.1.1;
  chi0 ← float parts.1.2;
  mret (seed0, chi0, parts.2).

(** The loop over the listed files that start with [partition]: both
    [try] blocks handle [ValueError] by going on to the next file, any other
    exception leaves the function. *)
Fixpoint collect_available (clustering_dir : string) (files : list string)
    (available : list clustering) : result (list clustering) :=
  match files with
  | [] => Ok available
  | f :: rest =>
      match Py.unpack3 (_get_filename_parts f) with
      | Raise ValueError => collect_available clustering_dir rest available
      | Raise e => Raise e
      | Ok (prefix, name0, suffix) =>
          match seed_chi_id suffix with
          | Raise ValueError => collect_available clustering_dir rest available
          | Raise e => Raise e
          | Ok (seed0, chi0, tmp) =>
              collect_available clustering_dir rest
                (available ++ [{| name := name0; chi := chi0; seed := seed0;
                                  id := tmp;
                                  file := PyStr.path_join clustering_dir f |}])
          end
      end
  end.

(** [sort_values(["name", "chi"])] *)
Definition row_le (a b : clustering) : Prop :=
  String.ltb (name a) (name b) ∨ (name a = name b ∧ float_leb (chi a) (chi b)).

#[global] Instance row_le_dec : RelDecision row_le.
Proof. intros a b. unfold row_le. apply _. Defined.

(** [get_available_clustering], given [os.listdir(clustering_dir)] *)
Definition get_available_clustering (clustering_dir : string)
    (listing : list string) : result (list clustering) :=
  available ← collect_available clustering_dir
                 (List.filter (String.prefix "partition") listing) [];
  mret (merge_sort row_le available).

(** [open(path, "r")] and [readlines], on a file system given by its
    contents *)
Definition open_lines (fs : gmap string string) (path : string)
    : result (list string) :=
  match fs !! path with
  | Some content => Ok (PyStr.readlines content)
  | None => Raise FileNotFoundError
  end.

(** [load_partition] *)
Definition load_partition (fs : gmap string string)
    (key_file partition_file : string) (include_seed : bool)
    : result (Pandas.DataFrame F) :=
  key ← Py.unpack2 (_get_filename_parts key_file);
  part ← Py.unpack3 (_get_filename_parts partition_file);
  _ ← Py.assert (bool_decide (key.1 = "key"));
  _ ← Py.assert (bool_decide (part.1.1 = "partition"));
  _ ← Py.assert (bool_decide (key.2 = part.1.2));
  info ← Py.unpack3 (PyStr.split_sep "-" (Some 2%nat) part.2);
  seed0 ← PyStr.int info.1.1;
  chi0 ← float info.1.2;
  kf ← open_lines fs key_file;
  pf ← open_lines fs partition_file;
  rows ← Py.for_each (λ kc,
            k ← PyStr.int (PyStr.strip kc.1);
            c ← PyStr.int (PyStr.strip kc.2);
            mret (k, c)) (zip kf pf);
  (* [set_index(0)] on a frame without rows has no column [0] *)
  if decide (rows = []) then Raise KeyError
  else mret (Pandas.frame_of_column
               (if include_seed then Pandas.Lpair chi0 seed0 else Pandas.Lnum chi0)
               rows).

(** The argument [selected_runs], as a dict *)
Record run_selection := { run_chi : F; run_seeds : list Z }.
Record selection := { selected_name : string; runs : list run_selection }.

(** The rows [available.query(...)] keeps for one run *)
Definition matches (available : list clustering) (name0 : string)
    (run : run_selection) : list clustering :=
  List.filter (λ row, bool_decide (name row = name0)
                        && float_eqb (chi row) (run_chi run)
                        && bool_decide (seed row ∈ run_seeds run)) available.

(** [load_selected_runs], given the listing of [clustering_dir] *)
Definition load_selected_runs (fs : gmap string string) (listing : list string)
    (selected_runs : selection)
    (preprocessed_dir clustering_dir ext : string) : result (Pandas.DataFrame F) :=
  available ← get_available_clustering clustering_dir listing;
  let key_file :=
    PyStr.path_join preprocessed_dir
      ("key_" +:+ selected_name selected_runs +:+ "." +:+ ext) in
  parts ← Py.for_each (λ run,
             Py.for_each (λ row,
                 load_partition fs key_file (file row)
                   (bool_decide (1 < length (run_seeds run))%nat))
               (matches available (selected_name selected_runs) run))
             (runs selected_runs);
  Pandas.concat_columns (mjoin parts).

End data.

End Data.


(** * Notions used to state the properties *)

Module EdgelistSpec.
Import FormatEdgelist.

(** [sum(d.values())] *)
Definition total `{Countable K} (d : gmap K Z) : Z :=
  map_fold (λ _ w acc, w + acc) 0 d.

Definition sum_list (l : list Z) : Z := foldr Z.add 0 l.

(** The order on node identifiers is a strict total order, as [<] is on
    [int] and on [str]. *)
Record strict_total {V : Type} (lt : V → V → bool) : Prop := {
  lt_irrefl : ∀ a, lt a a = false;
  lt_trans : ∀ a b c, lt a b = true → lt b c = true → lt a c = true;
  lt_total : ∀ a b, lt a b = false → lt b a = false → a = b
}.

Section spec.
Context {V : Type} `{Countable V}.
Variable node_lt : V → V → bool.
Variable convert : string → result V.
Variable weight_convert : string → result Z.
Variable sep : option string.
Variables u_col v_col w_col : Z.

(** The triple [(u, v, w)] a line stands for once split and converted *)
Definition line_triple (line : string) : result (V * V * Z) :=
  fields sep u_col v_col w_col line ≫= converted convert weight_convert.

(** A line is blank, or splits and converts. *)
Definition blank (line : string) : Prop := PyStr.strip line = "".
Definition well_formed (line : string) : Prop :=
  blank line ∨ is_Ok (line_triple line).

(** The triples of the non-blank lines that split and convert *)
Definition triples (lines : list string) : list (V * V * Z) :=
  omap (λ line, if decide (blank line) then None
                else match line_triple line with
                     | Ok t => Some t
                     | Raise _ => None
                     end) lines.

(** The weights of the triples whose endpoints, put in the order
    [(max, min)], are the pair [(a, b)] and are not a self-loop *)
Definition undirected_weights (a b : V) (ts : list (V * V * Z)) : list Z :=
  (filter (λ t, (py_max node_lt t.1.1 t.1.2, py_min node_lt t.1.1 t.1.2) = (a, b)
                ∧ a ≠ b) ts).*2.

(** The endpoints of the lines that are not self-loops *)
Definition is_endpoint (directed : bool) (x : V) (ts : list (V * V * Z)) : Prop :=
  ∃ t, t ∈ ts ∧ (canonical node_lt directed t.1.1 t.1.2).1
                  ≠ (canonical node_lt directed t.1.1 t.1.2).2
       ∧ (x = t.1.1 ∨ x = t.1.2).

(** The edges the triples stand for: endpoints put in canonical order,
    self-loops dropped; and the graph after adding them one by one. *)
Definition accepted (directed : bool) (ts : list (V * V * Z)) : list (V * V * Z) :=
  omap (λ t, let c := canonical node_lt directed t.1.1 t.1.2 in
             if decide (c.1 ≠ c.2) then Some (c, t.2) else None) ts.

Definition add_edges (g : graph V) (es : list (V * V * Z)) : graph V :=
  fold_left (λ g e, add_edge g e.1.1 e.1.2 e.2) es g.

(** The call ends by [exit(1)] right after a critical record that holds
    the line. *)
Definition aborts_with_diagnostic (r : list (log_record V) * outcome (graph V))
    (line : string) : Prop :=
  ∃ log lineno sp ex, r = (log ++ [Critical_split lineno sp line ex], Exited 1).

(** No record of level [critical] in a log *)
Definition no_critical (log : list (log_record V)) : Prop :=
  ∀ lineno sp line ex, Critical_split lineno sp line ex ∉ log.

End spec.

(** The example of the specification: the lines [1 2 3], [2 1 4], [1 1 5],
    read with the defaults (white space, [int], undirected) *)
Definition example_file : string :=
  "1 2 3" +:+ String "010" ("2 1 4" +:+ String "010" ("1 1 5" +:+ String "010" "")).

Definition example_log : list (log_record Z) :=
  [Info_reading 0 None; Debug_self_loop 1 1 3].

Definition example_graph : graph Z :=
  Graph {[ 1 := 7; 2 := 7 ]} {[ 1 := 2; 2 := 2 ]} {[ (2, 1) := 7 ]}.

(** Two files with a malformed second line: one with a column missing,
    one with a node that is no number. *)
Definition short_line : string := "1 2" +:+ String "010" "".
Definition bad_number_line : string := "1 x 3" +:+ String "010" "".
Definition short_line_file : string := "1 2 3" +:+ String "010" short_line.
Definition bad_number_file : string := "1 2 3" +:+ String "010" bad_number_line.

Definition example_mapper : gmap Z Z := {[ 1 := 1; 2 := 2 ]}.

Definition example_format_for_reneel
    : string → list (log_record Z) * outcome (graph Z * gmap Z Z) :=
  format_for_reneel Z.ltb PyStr.int PyStr.int None 0 false 0 1 2.

Definition example_read_graph : string → list (log_record Z) * outcome (graph Z) :=
  read_graph Z.ltb PyStr.int PyStr.int None 0 false 0 1 2.

End EdgelistSpec.

Module GraphSpec.
Import FormatEdgelist.

(** The edges of a list that have [v] as an endpoint *)
Definition incident {V : Type} `{EqDecision V} (v : V) (es : list (V * V * Z))
    : list (V * V * Z) :=
  filter (λ e, e.1.1 = v ∨ e.1.2 = v) es.

(** What every graph that [read_graph] returns satisfies: [degrees] and
    [nodes] have the same keys; an edge joins two different nodes, both
    keys of [nodes]; every node is an endpoint of an edge; a degree is at
    least one; there are at most twice as many nodes as edges. *)
Definition well_formed_graph {V : Type} `{Countable V} (g : graph V) : Prop :=
  dom (degrees g) = dom (nodes g)
  ∧ (∀ a b, (a, b) ∈ dom (edges g)
            → a ≠ b ∧ a ∈ dom (nodes g) ∧ b ∈ dom (nodes g))
  ∧ (∀ v, v ∈ dom (nodes g) → ∃ a b, (a, b) ∈ dom (edges g) ∧ (v = a ∨ v = b))
  ∧ (∀ v d, degrees g !! v = Some d → 1 ≤ d)
  ∧ (size (nodes g) ≤ 2 * size (edges g))%nat.

(** A triangle whose edge between 1 and 2 is given twice, the same lines
    with the first two exchanged, and a header of two lines *)
Definition triangle_file : string :=
  PyStr.lines_text ["10 20 3"; "20 30 4"; "30 10 5"; "20 10 1"].
Definition shuffled_file : string :=
  PyStr.lines_text ["20 30 4"; "10 20 3"; "30 10 5"; "20 10 1"].
Definition triangle_log : list (log_record Z) := [Info_reading 0 None].
Definition triangle_graph : graph Z :=
  Graph {[ 10 := 9; 20 := 8; 30 := 9 ]} {[ 10 := 3; 20 := 3; 30 := 2 ]}
        {[ (20, 10) := 4; (30, 20) := 4; (30, 10) := 5 ]}.
Definition triangle_mapper : gmap Z Z := {[ 10 := 1; 20 := 2; 30 := 3 ]}.

(** The items of the edges of the triangle, in the order of the file *)
Definition triangle_items : list (Z * Z * Z) :=
  [((20, 10), 4); ((30, 20), 4); ((30, 10), 5)].

(** The line of the edge file for one item of [edges], for a mapper that
    has both endpoints *)
Definition edge_line {V : Type} `{Countable V} (mapper : gmap V Z) (e : V * V * Z)
    : string :=
  PyStr.str (get0 mapper e.1.1) +:+ " " +:+ PyStr.str (get0 mapper e.1.2)
    +:+ " " +:+ PyStr.str e.2.
Definition example_header : list string := ["source target weight"; "# toy graph"].

End GraphSpec.

Module KeySpec.
Import FormatEdgelist.

(** An original id that a key file can hold: its text is not empty, has no
    white space, and the conversion given to [read_key] reads it back. *)
Definition clean_id {K} (show : K → string) (cvt : string → result K) (k : K) : Prop :=
  show k ≠ "" ∧ PyStr.no_space (show k) = true ∧ cvt (show k) = Ok k.

(** [unmapper] is the inverse of the dict with the items [mapper]. *)
Definition inverse_of {K} (mapper : list (K * Z)) (unmapper : gmap Z K) : Prop :=
  ∀ k v, unmapper !! v = Some k ↔ (k, v) ∈ mapper.

(** Node ids that are strings, as [convert=str] gives them *)
Definition show_str (k : string) : string := k.
Definition cvt_str (s : string) : result string := Ok s.

(** A mapper with the empty string as a node, which reading [a,,3] at
    commas with [convert=str] produces, a mapper that gives two nodes the
    same new id, and a mapper of integer nodes *)
Definition empty_id_mapper : list (string * Z) := [("", 1)].
Definition shared_id_mapper : list (string * Z) := [("a", 1); ("b", 1)].
Definition int_mapper : list (Z * Z) := [(10, 1); (-7, 2); (25, 3)].

End KeySpec.

Module RunSpec.
Import RunReneel.

Section spec.
Context {F : Type}.
Variable fmt : F → string.

(** The size one process gets and the size the run then has in all *)
Definition per_cpu (size n_cpu : Z) : Z := Z.max (size `div` n_cpu) 1.
Definition effective (size n_cpu : Z) : Z := per_cpu size n_cpu * n_cpu.

(** A computation only adds events to the trace. *)
Definition extends {A} (m : M F A) : Prop :=
  ∀ st, ∃ events, trace (m st).1 = trace st ++ events.

(** The input files are copied to the temporary directory without error. *)
Definition staged (copy_ok : string → string → bool) (tmpdir : string)
    (r : ReneelRun F) : Prop :=
  copy_ok (edgelist_file r) tmpdir = true
  ∧ Forall (λ file, copy_ok file tmpdir = true) (associated_files r).

Definition events_of_staging (tmpdir : string) (r : ReneelRun F)
    (test_mode : bool) (cmd : list string) : list event :=
  [Debug_created_temporary tmpdir; Copy (edgelist_file r) tmpdir]
  ++ ((λ file, Copy file tmpdir) <$> associated_files r)
  ++ [Chdir tmpdir; Debug_cmd cmd]
  ++ (if test_mode
      then [Append (partition_path tmpdir r); Append (results_path tmpdir r)]
      else []).

(** The events of a run up to the start of the executable: the warnings
    about the ensemble sizes, the output directory, the staging. *)
Definition events_before_run (is_dir : string → bool) (output_dir tmpdir : string)
    (r : ReneelRun F) (test_mode : bool) (n_cpu : Z) (cmd : list string)
    : list event :=
  (if decide (effective (rg_ensemble_size r) n_cpu ≠ rg_ensemble_size r)
   then [Warning_rg_ensemble (effective (rg_ensemble_size r) n_cpu)
           (rg_ensemble_size r) n_cpu]
   else [])
  ++ (if decide (effective (reneel_ensemble_size r) n_cpu ≠ reneel_ensemble_size r)
      then [Warning_reneel_ensemble (effective (reneel_ensemble_size r) n_cpu)
              (reneel_ensemble_size r) n_cpu]
      else [])
  ++ (if is_dir output_dir then []
      else [Debug_creating_directory output_dir; Makedirs output_dir])
  ++ events_of_staging tmpdir r test_mode cmd.

(** The events once the executable has returned [code], up to the copy of
    the partition file *)
Definition events_of_collecting (output_dir tmpdir : string) (r : ReneelRun F)
    (code : Z) : list event :=
  (if decide (code ≠ 0) then [Warning_returncode code] else [])
  ++ [Debug_copying (partition_path tmpdir r)
        (output_partition_path fmt output_dir tmpdir r);
      Copy (partition_path tmpdir r) (output_partition_path fmt output_dir tmpdir r)].

End spec.

(** One run of the example: 3 trials asked for on 8 processors *)
Definition small_run : ReneelRun Z :=
  {| edgelist_file := "/data/edges.txt"; seed := 17; chi := 0;
     rg_ensemble_size := 3; reneel_ensemble_size := 8; rg_parameter := 2;
     partition_file := None; results_file := None;
     associated_files := ["/data/clean_edges.txt"; "/data/degree_edges.txt";
                          "/data/info_edges.txt"];
     wall_time := None; completed_process := None |}.

(** A state in which the script has bound [reneelrun] to that run, one in
    which the name is unbound, and a world in which every copy succeeds
    and the executable fails with code 1 *)
Definition script_state : state Z :=
  {| trace := []; heap := {[ 0%nat := small_run ]};
     global_reneelrun := Some 0%nat; tmp_count := 0 |}.

Definition imported_state : state Z :=
  {| trace := []; heap := {[ 0%nat := small_run ]};
     global_reneelrun := None; tmp_count := 0 |}.

Definition small_call (st : state Z) : state Z * result unit :=
  run_reneel_and_collect_output PyStr.str (λ _, true) (λ _ _, true)
    (λ _, Ok 1) (λ _, "tmpab12") "/work" "/bin/reneel" "/out" 0%nat
    false false 8 st.

(** The command line [-o /out -c 0 -s 17 -p 8 -x /bin/reneel -e 3 -f 8] on
    that file, and a world for it: every file exists, every copy succeeds,
    the executable fails with code 1. *)
Definition small_arguments : arguments Z :=
  {| arg_file := ["/data/edges.txt"]; arg_outputdir := "/out"; arg_chi := [0];
     arg_nruns := 1; arg_seed := Some [17]; arg_nproc := 8;
     arg_reneelpath := "/bin/reneel"; arg_keepresults := false;
     arg_rg_ensemble_size := 3; arg_reneel_ensemble_size := 8;
     arg_rg_parameter := 2; arg_test := false |}.

Definition small_iteration (st : state Z) : state Z * result unit :=
  main_iteration PyStr.str (λ _, true) (λ _, true) (λ _ _, true) (λ _, Ok 1)
    (λ _, "tmpab12") "/work" small_arguments 0 (0, "/data/edges.txt", 0) 17 st.

Definition small_main : state Z * result unit :=
  main PyStr.str (λ _, true) (λ _, true) (λ _ _, true) (λ _, Ok 1)
    (λ _, "tmpab12") (λ _, 0) "/work" small_arguments initial_state.

Definition small_command : list string :=
  ["/bin/reneel"; "2"; "1"; "1"; "17"; "0"; "edges.txt"].

Definition small_trace : list event :=
  [Warning_rg_ensemble 8 3 8; Debug_created_temporary "/work/tmpab12";
   Copy "/data/edges.txt" "/work/tmpab12";
   Copy "/data/clean_edges.txt" "/work/tmpab12";
   Copy "/data/degree_edges.txt" "/work/tmpab12";
   Copy "/data/info_edges.txt" "/work/tmpab12";
   Chdir "/work/tmpab12";
   Debug_cmd ["/bin/reneel"; "2"; "1"; "1"; "17"; "0"; "edges.txt"];
   Run ["/bin/reneel"; "2"; "1"; "1"; "17"; "0"; "edges.txt"];
   Warning_returncode 1;
   Debug_copying "/work/tmpab12/partition_edges.txt"
     "/out/partition_edges_17-0-tmpab12.txt";
   Copy "/work/tmpab12/partition_edges.txt" "/out/partition_edges_17-0-tmpab12.txt";
   Chdir "/work"; Cleanup "/work/tmpab12"].

End RunSpec.

Module DataSpec.
Import Data.

Section spec.
Context {F : Type} `{EqDecision F}.
Variable float_of : string → option F.

(** A file name parses under [type_name_seed-chi-id] and gives the row. *)
Definition parses (clustering_dir f : string) (row : clustering) : Prop :=
  ∃ prefix suffix seed_text chi_text,
    _get_filename_parts f = [prefix; name row; suffix]
    ∧ PyStr.split_sep "-" (Some 2%nat) suffix = [seed_text; chi_text; id row]
    ∧ PyStr.int seed_text = Ok (seed row)
    ∧ float_of chi_text = Some (chi row)
    ∧ file row = PyStr.path_join clustering_dir f.

(** The row of a file name, if it parses: the two [try] blocks as one
    function *)
Definition row_of_name (clustering_dir f : string) : option clustering :=
  match Py.unpack3 (_get_filename_parts f) with
  | Ok (prefix, name0, suffix) =>
      match seed_chi_id float_of suffix with
      | Ok (seed0, chi0, tmp) =>
          Some {| name := name0; chi := chi0; seed := seed0; id := tmp;
                  file := PyStr.path_join clustering_dir f |}
      | Raise _ => None
      end
  | Raise _ => None
  end.

End spec.

(** A stand-in for [float] that reads whole numbers only, and a listing
    with one well-named partition file among files that do not parse *)
Definition whole_float (s : string) : option Z :=
  match PyStr.int s with
  | Ok n => Some n
  | Raise _ => None
  end.

Definition mixed_listing : list string :=
  ["partition_web_17-2-tmpab12.txt"; "partition"; "partition_web.txt";
   "partition_web_x-2-tmp.txt"; "partition_web_17-high-tmp.txt";
   "partition_web_17-2.txt"; "key_web.txt"].

End DataSpec.

Module LoaderSpec.
Import Pandas.

(** Tables whose labels are strings; the numbers are whole. *)
Definition existing_table : DataFrame Z :=
  frame_of_column (Lstr "0.0") [(1, 5)].
Definition other_table : DataFrame Z :=
  frame_of_column (Lstr "0.5") [(2, 7)].

(** A key file that maps new id 1 to node 2, and a partition file that
    puts it in cluster 7 *)
Definition other_key : string := "2 1" +:+ String "010" "".
Definition other_partition : string := "7" +:+ String "010" "".

(** The result of merging that partition into [existing_table] *)
Definition merged_table : DataFrame Z :=
  match FormatEdgelist.load_partition PyStr.str other_key other_partition "g"
          (Lstr "0.5") (Some existing_table) with
  | Ok merged => merged
  | Raise _ => existing_table
  end.

(** Files for [load_selected_runs]: a key of two nodes, a partition of both
    for seed 17 and a partition of the first only for seed 18 *)
Definition run_files : gmap string string :=
  {[ "/pre/key_web.txt" := "10" +:+ String "010" ("20" +:+ String "010" "");
     "/res/partition_web_17-2-a.txt" := "1" +:+ String "010" ("1" +:+ String "010" "");
     "/res/partition_web_18-2-b.txt" := "2" +:+ String "010" "" ]}.

Definition run_listing : list string :=
  ["partition_web_17-2-a.txt"; "partition_web_18-2-b.txt"].

Definition run_selection : Data.selection :=
  {| Data.selected_name := "web";
     Data.runs := [{| Data.run_chi := 2; Data.run_seeds := [17; 18] |}] |}.

End LoaderSpec.

Module PartitionSpec.
Import FormatEdgelist Data GraphSpec.

(** The files of one run on the triangle: the key file that
    [format_for_reneel] writes and a partition file with the cluster of
    node [i] on line [i]; and the same with one cluster too many *)
Definition toy_key : string := "pre/key_toy.txt".
Definition toy_partition : string := "out/partition_toy_7-2-ab12.txt".
Definition toy_files : gmap string string :=
  {[ toy_key := write_simple_key PyStr.str [10; 20; 30];
     toy_partition := PyStr.lines_text (PyStr.str <$> [1; 1; 2]) ]}.
Definition long_files : gmap string string :=
  {[ toy_key := write_simple_key PyStr.str [10; 20; 30];
     toy_partition := PyStr.lines_text (PyStr.str <$> [1; 1; 2; 2]) ]}.

End PartitionSpec.

Module PathSpec.

(** The character [c] does not occur in [s]. *)
Definition without (c : ascii) (s : string) : bool :=
  PyStr.all_chars (λ a, negb (bool_decide (a = c))) s.

(** A file name: not empty, not [.], without a slash *)
Definition is_name (s : string) : Prop :=
  s ≠ "" ∧ s ≠ "." ∧ without "/" s = true.

End PathSpec.

Module NamingSpec.
Import RunReneel PathSpec.

(** The name of the partition file that a run leaves in the output
    directory: [partition_{base}_{seed}-{chi}-{tmp}.{ext}] *)
Definition partition_name {F} (fmt : F → string) (base ext : string)
    (seed0 : Z) (chi0 : F) (tmp : string) : string :=
  "partition_" +:+ base +:+ "_" +:+ PyStr.str seed0 +:+ "-" +:+ fmt chi0 +:+ "-"
    +:+ tmp +:+ "." +:+ ext.

(** What the loaders need of an edgelist name [base.ext], of the text of
    [chi] and of the name of the temporary directory *)
Definition plain_base (base : string) : Prop :=
  base ≠ "" ∧ without "/" base = true.
Definition plain_ext (ext : string) : Prop :=
  ext ≠ "" ∧ without "/" ext = true ∧ without "." ext = true.
Definition plain_chi (text : string) : Prop :=
  without "/" text = true ∧ without "-" text = true.

(** A run on data whose name has an underscore followed by a number, and
    the listing of its output directory *)
Definition numbered_run : ReneelRun Z :=
  {| edgelist_file := "/data/net_5.txt"; seed := 17; chi := 0;
     rg_ensemble_size := 8; reneel_ensemble_size := 8; rg_parameter := 2;
     partition_file := None; results_file := None; associated_files := [];
     wall_time := None; completed_process := None |}.
Definition numbered_listing : list string := ["partition_net_5_17-0-tmpab12.txt"].
Definition numbered_row : Data.clustering (F := Z) :=
  {| Data.name := "net"; Data.chi := 0; Data.seed := 517; Data.id := "tmpab12";
     Data.file := "/out/partition_net_5_17-0-tmpab12.txt" |}.
Definition small_listing : list string :=
  ["notes.txt"; "partition_edges_17-0-tmpab12.txt"].

End NamingSpec.

Module OutcomeSpec.
Import RunReneel RunSpec.

Section spec.
Context {F : Type}.
Variable fmt : F → string.

(** The events of copying the results file, which [keep_results] asks for *)
Definition events_of_keeping (output_dir tmpdir : string) (r : ReneelRun F)
    (keep_results : bool) : list event :=
  if keep_results
  then [Debug_copying (results_path tmpdir r)
          (output_results_path fmt output_dir tmpdir r);
        Copy (results_path tmpdir r) (output_results_path fmt output_dir tmpdir r)]
  else [].


(** The run as the call leaves it when it returns *)
Definition finished_run (output_dir tmpdir : string) (keep_results : bool)
    (cmd : list string) (code : Z) (r : ReneelRun F) : ReneelRun F :=
  set_output_files output_dir keep_results (partition_path tmpdir r)
    (results_path tmpdir r)
    (set_completed_process {| args := cmd; returncode := code |} r).


End spec.



End OutcomeSpec.

Module SelectionSpec.

(** A selection of runs of data that the listing does not have, and one of
    data whose name has an underscore *)
Definition absent_selection : Data.selection (F := Z) :=
  {| Data.selected_name := "mesh";
     Data.runs := [{| Data.run_chi := 2; Data.run_seeds := [17; 18] |}] |}.
Definition underscore_selection : Data.selection (F := Z) :=
  {| Data.selected_name := "net_5";
     Data.runs := [{| Data.run_chi := 0; Data.run_seeds := [17] |}] |}.

End SelectionSpec.

Module FormatNamesSpec.
Import FormatEdgelist.

(** The names that [format_for_reneel] gives the outputs of
    [/data/edges.txt] when it is called with the defaults *)
Definition edges_outputs : output_names :=
  {| output_file := "/data/clean_edges.txt"; key_file := "/data/key_edges.txt";
     info_file := "/data/info_edges.txt"; degree_file := "/data/degree_edges.txt" |}.

End FormatNamesSpec.

Module DirectedSpec.
Import FormatEdgelist.

(** The weights of the triples from [a] to [b], for [a] other than [b] *)
Definition directed_weights {V : Type} `{EqDecision V} (a b : V)
    (ts : list (V * V * Z)) : list Z :=
  (filter (λ t, t.1 = (a, b) ∧ a ≠ b) ts).*2.

(** The triangle read with [directed=True] *)
Definition directed_triangle : graph Z :=
  Graph {[ 10 := 9; 20 := 8; 30 := 9 ]} {[ 10 := 3; 20 := 3; 30 := 2 ]}
        {[ (10, 20) := 3; (20, 30) := 4; (30, 10) := 5; (20, 10) := 1 ]}.

End DirectedSpec.

Module RereadSpec.
Import FormatEdgelist.



End RereadSpec.

(** ** [read_graph] for any type of weights

    [weight_convert] is [int] by default and [float] with [--wtype float];
    then [+=] is the addition of floats, which rounds.  The definitions
    below are those of [FormatEdgelist] with the weights in a type [W],
    [add] for what [+=] adds with and [zero] for the [0] that [AddDict]
    gives for a missing key. *)

Module WeightedEdgelist.

Section weighted.
Context {V W : Type} `{Countable V}.
Variable add : W → W → W.
Variable zero : W.
Variable node_lt : V → V → bool.
Variable convert : string → result V.
Variable weight_convert : string → result W.
Variable sep : option string.
Variable skip : Z.
Variable directed : bool.
Variables u_col v_col w_col : Z.

Definition get0 {K} `{Countable K} (d : gmap K W) (k : K) : W :=
  default zero (d !! k).
Definition add_to {K} `{Countable K} (k : K) (w : W) (d : gmap K W) : gmap K W :=
  <[k := add (get0 d k) w]> d.

(** [degrees] is a [Counter]: its values are integers. *)
Record graph := Graph {
  nodes : gmap V W;
  degrees : gmap V Z;
  edges : gmap (V * V) W
}.

Definition empty_graph : graph := Graph ∅ ∅ ∅.

Definition converted (f : string * string * string) : result (V * V * W) :=
  u ← convert (PyStr.strip f.1.1);
  v ← convert (PyStr.strip f.1.2);
  w ← weight_convert (PyStr.strip f.2);
  mret (u, v, w).

Definition add_edge (g : graph) (u v : V) (w : W) : graph :=
  let nodes1 := add_to u w (nodes g) in
  let nodes2 := add_to v w nodes1 in
  let degrees1 := FormatEdgelist.add_to u 1 (degrees g) in
  let degrees2 := FormatEdgelist.add_to v 1 degrees1 in
  Graph nodes2 degrees2 (add_to (u, v) w (edges g)).

Inductive step :=
  | Continue (log : list (FormatEdgelist.log_record V)) (g : graph)
  | Stop (log : list (FormatEdgelist.log_record V)) (o : outcome graph).

Definition read_line (lineno : Z) (line : string)
    (log : list (FormatEdgelist.log_record V)) (g : graph) : step :=
  if decide (PyStr.strip line = "") then Continue log g
  else
    match FormatEdgelist.fields sep u_col v_col w_col line with
    | Raise ex =>
        Stop (log ++ [FormatEdgelist.Critical_split (lineno + skip) sep line ex])
          (Exited 1)
    | Ok f =>
        match converted f with
        | Raise ex => Stop log (Uncaught ex)
        | Ok (u, v, w) =>
            let '(u, v) := FormatEdgelist.canonical node_lt directed u v in
            if decide (u ≠ v)
            then Continue log (add_edge g u v w)
            else Continue
                   (log ++ [FormatEdgelist.Debug_self_loop u v (lineno + skip)]) g
        end
    end.

Fixpoint read_lines (lineno : Z) (lines : list string)
    (log : list (FormatEdgelist.log_record V)) (g : graph)
    : list (FormatEdgelist.log_record V) * outcome graph :=
  match lines with
  | [] => (log, Returned g)
  | line :: rest =>
      match read_line lineno line log g with
      | Continue log' g' => read_lines (lineno + 1) rest log' g'
      | Stop log' o => (log', o)
      end
  end.

Definition read_graph (content : string)
    : list (FormatEdgelist.log_record V) * outcome graph :=
  read_lines 1 (PyStr.slice_from (PyStr.readlines content) skip)
    [FormatEdgelist.Info_reading skip sep] empty_graph.

End weighted.

Arguments graph V W {_ _}.
Arguments step V W {_ _}.
Arguments Graph {V W _ _} nodes degrees edges.
Arguments nodes {V W _ _} g.
Arguments degrees {V W _ _} g.
Arguments edges {V W _ _} g.

End WeightedEdgelist.

Module FloatSpec.
Import PrimFloat.

(** The graph with weights of any type whose weights are integers, as a
    graph of [FormatEdgelist] *)
Definition integer_graph {V : Type} `{Countable V} (g : WeightedEdgelist.graph V Z)
    : FormatEdgelist.graph V :=
  FormatEdgelist.Graph (WeightedEdgelist.nodes g) (WeightedEdgelist.degrees g)
    (WeightedEdgelist.edges g).

Definition integer_outcome {V : Type} `{Countable V}
    (o : outcome (WeightedEdgelist.graph V Z)) : outcome (FormatEdgelist.graph V) :=
  match o with
  | Returned g => Returned (integer_graph g)
  | Exited c => Exited c
  | Uncaught e => Uncaught e
  end.

(** The float nearest to [n / 10^k], for [n] and [10^k] that are floats
    themselves: the division rounds once. *)
Definition decimal (n : Z) (k : nat) : float :=
  PrimFloat.div (PrimFloat.of_uint63 (Uint63.of_Z n))
    (PrimFloat.of_uint63 (Uint63.of_Z (10 ^ Z.of_nat k))).

(** [float(s)] on a plain decimal text: an optional sign, then at most 15
    digits with at most one point among them.  The other texts that
    [float] reads (exponents, [inf], [nan], underscores, more digits) are
    not read here and raise; none of them occurs below. *)
Definition float_plain (s : string) : result float :=
  let t := PyStr.strip s in
  let '(neg, body) :=
    match t with
    | String "-" r => (true, r)
    | String "+" r => (false, r)
    | _ => (false, t)
    end in
  let '(whole, frac) :=
    match PyStr.split_sep "." (Some 1%nat) body with
    | [a; b] => (a, b)
    | _ => (body, EmptyString)
    end in
  let digits := whole +:+ frac in
  if PyStr.all_chars PyStr.is_digit digits
     && bool_decide (1 ≤ String.length digits ≤ 15)%nat
  then
    match PyStr.nat_literal digits with
    | Some n =>
        let x := decimal n (String.length frac) in
        Ok (if neg : bool then PrimFloat.opp x else x)
    | None => Raise ValueError
    end
  else Raise ValueError.

(** The values of a dict added up one by one, from [0], in a given order *)
Definition float_sum (values : list float) : float :=
  fold_left PrimFloat.add values (PrimFloat.of_uint63 (Uint63.of_Z 0)).

Definition twice (x : float) : float :=
  PrimFloat.mul (PrimFloat.of_uint63 (Uint63.of_Z 2)) x.

(** [read_graph] with [weight_convert=float], the other arguments as
    [format_for_reneel] gives them by default *)
Definition read_float_graph (content : string)
    : list (FormatEdgelist.log_record Z) * outcome (WeightedEdgelist.graph Z float) :=
  WeightedEdgelist.read_graph PrimFloat.add (PrimFloat.of_uint63 (Uint63.of_Z 0))
    Z.ltb PyStr.int float_plain None 0 false 0 1 2 content.

(** Three lines with weights that are no binary fractions: the edge
    between 1 and 2 is given twice, with the edge between 2 and 3 in
    between. *)
Definition float_file : string :=
  PyStr.lines_text ["1 2 0.1"; "2 3 0.1"; "1 2 0.4"].

(** The graph read from it: node 2 holds [(0.1 + 0.1) + 0.4], which is
    0.6000000000000001, the edge (2, 1) holds [0.1 + 0.4], which is 0.5. *)
Definition float_graph : WeightedEdgelist.graph Z float :=
  WeightedEdgelist.Graph
    {[ 1 := 0x1p-1%float; 2 := 0x1.3333333333334p-1%float;
       3 := 0x1.999999999999ap-4%float ]}
    {[ 1 := 2; 2 := 3; 3 := 1 ]}
    {[ (2, 1) := 0x1p-1%float; (3, 2) := 0x1.999999999999ap-4%float ]}.

(** The same three lines in two orders *)
Definition ascending_file : string :=
  PyStr.lines_text ["1 2 0.1"; "1 2 0.2"; "1 2 0.3"].
Definition descending_file : string :=
  PyStr.lines_text ["1 2 0.3"; "1 2 0.2"; "1 2 0.1"].

End FloatSpec.

(** ** [run_reneel_and_collect_output] with [Path.resolve()]

    Once the output directory exists the function replaces it, and the path
    to the executable, by [Path(...).resolve()]: the absolute path, which
    depends on the working directory and on the symbolic links of the file
    system, given here by [resolve].  The temporary directory is made under
    [os.getcwd()], so the path of the input file in it is absolute already.
    With [resolve] the identity the definition is that of [RunReneel]. *)

Module ResolvedRun.
Import RunReneel.

Section resolved.
Context {F : Type}.
Variable fmt : F → string.
Variable is_dir : string → bool.
Variable copy_ok : string → string → bool.
Variable subprocess_run : list string → result Z.
Variable tmp_name : nat → string.
Variable resolve : string → string.

Definition run_reneel_and_collect_output (current_dir : string)
    (path_to_executable output_dir : string) (reneel_run : nat)
    (keep_results test_mode : bool) (n_cpu : Z) : M F unit :=
  r ← get_obj reneel_run;
  rg_ensemble_per_cpu ← lift (ensemble_per_cpu (rg_ensemble_size r) n_cpu);
  _ ← when (bool_decide (rg_ensemble_per_cpu * n_cpu ≠ rg_ensemble_size r))
        (emit (Warning_rg_ensemble (rg_ensemble_per_cpu * n_cpu)
                 (rg_ensemble_size r) n_cpu));
  reneel_ensemble_per_cpu ← lift (ensemble_per_cpu (reneel_ensemble_size r) n_cpu);
  _ ← when (bool_decide (reneel_ensemble_per_cpu * n_cpu ≠ reneel_ensemble_size r))
        (emit (Warning_reneel_ensemble (reneel_ensemble_per_cpu * n_cpu)
                 (reneel_ensemble_size r) n_cpu));
  _ ← when (negb (is_dir output_dir))
        (_ ← emit (Debug_creating_directory output_dir); emit (Makedirs output_dir));
  let _output_dir := resolve output_dir in
  let _path_to_executable := resolve path_to_executable in
  files ← with_temporary_directory tmp_name current_dir
             (in_temporary_directory fmt copy_ok subprocess_run current_dir
                _path_to_executable _output_dir reneel_run r keep_results test_mode
                rg_ensemble_per_cpu reneel_ensemble_per_cpu);
  _ ← update_obj reneel_run
        (set_output_files _output_dir keep_results files.1 files.2);
  mret ().

End resolved.

(** [resolve] in a world without symbolic links, for paths without [.] and
    [..]: a relative path is taken under the working directory. *)
Definition resolve_under (cwd path : string) : string :=
  if String.prefix "/" path then path else PyStr.path_join cwd path.

(** The run of the example with the defaults of the script for the
    executable and the output directory, [a.out] and [out] *)
Definition default_call (st : state Z) : state Z * result unit :=
  run_reneel_and_collect_output PyStr.str (λ _, true) (λ _ _, true)
    (λ _, Ok 1) (λ _, "tmpab12") (resolve_under "/work") "/work" "a.out" "out"
    0%nat false false 8 st.

Definition default_command : list string :=
  ["/work/a.out"; "2"; "1"; "1"; "17"; "0"; "edges.txt"].

End ResolvedRun.

(** * Properties *)

(** ** The built-ins *)

Example split_ws_ex : PyStr.split_ws " 1   2 3 " = ["1"; "2"; "3"].
Proof. reflexivity. Qed.
Example split_sep_ex : PyStr.split_sep "," None "a,,3" = ["a"; ""; "3"].
Proof. reflexivity. Qed.
Example split_sep_ex2 :
  PyStr.split_sep "_" (Some 2%nat) "partition_my_data_1-0.5-x"
  = ["partition"; "my"; "data_1-0.5-x"].
Proof. reflexivity. Qed.
Example split_sep_ex3 : PyStr.split_sep "::" None "a::b::" = ["a"; "b"; ""].
Proof. reflexivity. Qed.
Example int_ex : PyStr.int " -1_000 " = Ok (-1000).
Proof. reflexivity. Qed.
Example int_ex2 : PyStr.int "1__0" = Raise ValueError.
Proof. reflexivity. Qed.
Example int_ex3 : PyStr.int "" = Raise ValueError.
Proof. reflexivity. Qed.
Example str_ex : PyStr.str (-120) = "-120" ∧ PyStr.str 0 = "0".
Proof. split; reflexivity. Qed.
Example stem_ex :
  PyStr.stem "dir/partition_x_1-0.5-tmp.txt" = "partition_x_1-0.5-tmp".
Proof. reflexivity. Qed.
Example stem_ex2 : PyStr.stem "partition_x_1-0.0-tmp" = "partition_x_1-0".
Proof. reflexivity. Qed.
Example with_stem_ex :
  PyStr.with_stem "/tmp/x/edges.txt" "partition_edges" = "/tmp/x/partition_edges.txt"
  ∧ PyStr.with_stem "edges.txt" "clean_edges" = "clean_edges.txt"
  ∧ PyStr.with_stem "/edges" "info_edges" = "/info_edges".
Proof. by repeat split. Qed.
Example readlines_ex :
  PyStr.readlines ("1 2" +:+ String "013" (String "010" ("3 4" +:+ String "010" "5")))
  = ["1 2" +:+ String "010" ""; "3 4" +:+ String "010" ""; "5"].
Proof. reflexivity. Qed.

(** ** [read_graph] *)

Module EdgelistFacts.
Import FormatEdgelist EdgelistSpec.

Section total.
Context `{Countable K}.
Implicit Types d : gmap K Z.

Lemma total_empty : total (∅ : gmap K Z) = 0.
Proof. unfold total. by rewrite map_fold_empty. Qed.

Lemma total_insert_fresh d k w : d !! k = None → total (<[k := w]> d) = w + total d.
Proof.
  intros Hk. unfold total. rewrite map_fold_insert_L; [done| |done].
  intros; lia.
Qed.

Lemma total_lookup d k x : d !! k = Some x → total d = x + total (delete k d).
Proof.
  intros Hk. unfold total.
  rewrite (map_fold_delete_L _ _ k x d); [done| |done].
  intros; lia.
Qed.

Lemma total_add_to d k w : total (add_to k w d) = total d + w.
Proof.
  unfold add_to, get0. destruct (d !! k) as [x|] eqn:Hk; simpl.
  - rewrite <- insert_delete_eq.
    rewrite total_insert_fresh by apply lookup_delete_eq.
    rewrite (total_lookup d k x Hk). lia.
  - rewrite total_insert_fresh by done. lia.
Qed.

End total.

Section read_graph_facts.
Context {V : Type} `{Countable V}.
Variable node_lt : V → V → bool.
Variable convert : string → result V.
Variable weight_convert : string → result Z.
Variable sep : option string.
Variable skip : Z.
Variable directed : bool.
Variables u_col v_col w_col : Z.

Local Abbreviation read_line' :=
  (read_line node_lt convert weight_convert sep skip directed u_col v_col w_col).
Local Abbreviation read_lines' :=
  (read_lines node_lt convert weight_convert sep skip directed u_col v_col w_col).
Local Abbreviation read_graph' :=
  (read_graph node_lt convert weight_convert sep skip directed u_col v_col w_col).
Local Abbreviation line_triple' := (line_triple convert weight_convert sep u_col v_col w_col).
Local Abbreviation triples' := (triples convert weight_convert sep u_col v_col w_col).
Local Abbreviation well_formed' := (well_formed convert weight_convert sep u_col v_col w_col).
Local Abbreviation canonical' := (canonical node_lt directed).

(** The four cases of the loop body *)
Lemma read_line_blank lineno line log g :
  blank line → read_line' lineno line log g = Continue log g.
Proof. intros Hb. unfold read_line. by rewrite decide_True. Qed.

Lemma read_line_edge lineno line log g u v w :
  ¬ blank line → line_triple' line = Ok (u, v, w) →
  (canonical' u v).1 ≠ (canonical' u v).2 →
  read_line' lineno line log g
  = Continue log (add_edge g (canonical' u v).1 (canonical' u v).2 w).
Proof.
  intros Hb Ht Hne. unfold read_line, line_triple in *.
  rewrite decide_False by done.
  destruct (fields _ _ _ _ line) as [f|ex]; simpl in Ht; [|done].
  rewrite Ht. destruct (canonical' u v) as [a b]; simpl in *.
  by rewrite decide_True.
Qed.

Lemma read_line_self_loop lineno line log g u v w :
  ¬ blank line → line_triple' line = Ok (u, v, w) →
  (canonical' u v).1 = (canonical' u v).2 →
  read_line' lineno line log g
  = Continue (log ++ [Debug_self_loop (canonical' u v).1 (canonical' u v).2
                        (lineno + skip)]) g.
Proof.
  intros Hb Ht Heq. unfold read_line, line_triple in *.
  rewrite decide_False by done.
  destruct (fields _ _ _ _ line) as [f|ex]; simpl in Ht; [|done].
  rewrite Ht. destruct (canonical' u v) as [a b]; simpl in *.
  rewrite decide_False; [done|]. intros Hne. by apply Hne.
Qed.

Lemma read_line_split_fails lineno line log g ex :
  ¬ blank line → fields sep u_col v_col w_col line = Raise ex →
  read_line' lineno line log g
  = Stop (log ++ [Critical_split (lineno + skip) sep line ex]) (Exited 1).
Proof.
  intros Hb Hf. unfold read_line. rewrite decide_False by done. by rewrite Hf.
Qed.

Lemma read_line_convert_fails lineno line log g f ex :
  ¬ blank line → fields sep u_col v_col w_col line = Ok f →
  converted convert weight_convert f = Raise ex →
  read_line' lineno line log g = Stop log (Uncaught ex).
Proof.
  intros Hb Hf Hc. unfold read_line. rewrite decide_False by done.
  by rewrite Hf, Hc.
Qed.

(** A property of the graph that adding an edge between two different
    nodes keeps is kept by the whole loop. *)
Lemma read_lines_invariant (P : graph V → Prop) :
  (∀ g u v w, u ≠ v → P g → P (add_edge g u v w)) →
  ∀ lines lineno log g log' g',
    P g → read_lines' lineno lines log g = (log', Returned g') → P g'.
Proof.
  intros Hadd lines. induction lines as [|line rest IH]; intros lineno log g log' g' Hg Hr.
  - simpl in Hr. by simplify_eq.
  - simpl in Hr. unfold read_line in Hr.
    destruct (decide (PyStr.strip line = "")); [by eapply IH|].
    destruct (fields _ _ _ _ line) as [f|ex]; [|done].
    destruct (converted _ _ f) as [[[u v] w]|ex]; [|done].
    destruct (canonical' u v) as [a b].
    destruct (decide (a ≠ b)); eapply IH; try exact Hr; auto.
Qed.

Lemma read_lines_outcome_indep lines :
  ∀ n n' log log' g,
    (read_lines' n lines log g).2 = (read_lines' n' lines log' g).2.
Proof.
  induction lines as [|line rest IH]; intros n n' log log' g; [done|].
  simpl. unfold read_line.
  destruct (decide (PyStr.strip line = "")); [apply IH|].
  destruct (fields _ _ _ _ line) as [f|ex]; [|done].
  destruct (converted _ _ f) as [[[u v] w]|ex]; [|done].
  destruct (canonical' u v) as [a b].
  destruct (decide (a ≠ b)); apply IH.
Qed.

(** C8: a line whose endpoints are equal after conversion (and after
    canonicalization in undirected mode) leaves the loop with the same
    [nodes], [degrees] and [edges] it found, only a debug record is logged;
    hence the result of reading a file is the one of reading it without
    that line. *)
Theorem self_loop_changes_nothing lineno line log g u v w :
  ¬ blank line → line_triple' line = Ok (u, v, w) →
  (canonical' u v).1 = (canonical' u v).2 →
  read_line' lineno line log g
  = Continue (log ++ [Debug_self_loop (canonical' u v).1 (canonical' u v).2
                        (lineno + skip)]) g
  ∧ ∀ pre post n log0 g0,
      (read_lines' n (pre ++ line :: post) log0 g0).2
      = (read_lines' n (pre ++ post) log0 g0).2.
Proof.
  intros Hb Ht Heq. split; [by apply (read_line_self_loop _ _ _ _ u v w)|].
  intros pre. induction pre as [|x pre IH]; intros post n log0 g0.
  - simpl. rewrite (read_line_self_loop n line log0 g0 u v w) by done.
    apply read_lines_outcome_indep.
  - simpl. destruct (read_line' n x log0 g0); [apply IH|done].
Qed.

(** What a successful run returns: the edges of the lines, added in order. *)
Lemma read_lines_returned lines :
  ∀ n log g log' g',
    read_lines' n lines log g = (log', Returned g') →
    g' = add_edges g (accepted node_lt directed (triples' lines)).
Proof.
  induction lines as [|line rest IH]; intros n log g log' g' Hr.
  { simpl in Hr. by simplify_eq. }
  simpl in Hr. unfold read_line in Hr.
  unfold triples, blank, line_triple in *. simpl.
  destruct (decide (PyStr.strip line = "")); [by eapply IH|].
  destruct (fields _ _ _ _ line) as [f|ex]; [|done]. simpl.
  destruct (converted _ _ f) as [[[u v] w]|ex]; [|done]. simpl.
  destruct (canonical' u v) as [a b] eqn:Hc. simpl.
  destruct (decide (a ≠ b)); simpl; by eapply IH.
Qed.

(** A prefix of well-formed lines is read through. *)
Lemma read_lines_prefix pre :
  Forall well_formed' pre →
  ∀ n log g, ∃ log1 g1,
    (no_critical log → no_critical log1)
    ∧ ∀ rest, read_lines' n (pre ++ rest) log g
              = read_lines' (n + Z.of_nat (length pre)) rest log1 g1.
Proof.
  induction 1 as [|line pre Hwf _ IH]; intros n log g.
  { exists log, g. split; [done|]. intros rest. simpl. f_equal. lia. }
  assert (∃ log0 g0, read_line' n line log g = Continue log0 g0
                     ∧ (no_critical log → no_critical log0)) as (log0 & g0 & Hl & Hn).
  { destruct (decide (blank line)) as [Hb|Hb].
    - exists log, g. by rewrite read_line_blank.
    - destruct Hwf as [?|Hok]; [done|].
      destruct (line_triple' line) as [[[u v] w]|ex] eqn:Ht; [|done].
      destruct (decide ((canonical' u v).1 = (canonical' u v).2)) as [Heq|Hne].
      + eexists _, g. split; [by apply (read_line_self_loop _ _ _ _ u v w)|].
        intros Hlog ???? [Hin|Hin]%elem_of_app; [by eapply Hlog|].
        by apply list_elem_of_singleton in Hin.
      + eexists log, _. split; [by apply (read_line_edge _ _ _ _ u v w)|done]. }
  destruct (IH (n + 1) log0 g0) as (log1 & g1 & Hn1 & Hrest).
  exists log1, g1. split; [auto|]. intros rest. simpl. rewrite Hl, Hrest.
  f_equal. lia.
Qed.

Lemma get0_add_to `{Countable K} (d : gmap K Z) k k' w :
  get0 (add_to k w d) k' = if decide (k = k') then get0 d k + w else get0 d k'.
Proof.
  unfold add_to, get0. rewrite lookup_insert. by case_decide; simplify_eq.
Qed.

Lemma edges_add_edges es :
  ∀ (g : graph V) p,
    edges (add_edges g es) !! p
    = match (filter (λ e, e.1 = p) es).*2 with
      | [] => edges g !! p
      | ws => Some (get0 (edges g) p + sum_list ws)
      end.
Proof.
  induction es as [|[[a b] w] es IH]; intros g p; [done|].
  change (add_edges g (((a, b), w) :: es))
    with (add_edges (add_edge g a b w) es).
  rewrite IH, filter_cons.
  change (edges (add_edge g a b w)) with (add_to (a, b) w (edges g)).
  change ((a, b, w).1) with (a, b).
  destruct (decide ((a, b) = p)) as [<-|Hne].
  - rewrite fmap_cons, get0_add_to, decide_True by done.
    unfold add_to. rewrite lookup_insert_eq.
    destruct ((filter _ es).*2); simpl; f_equal; lia.
  - rewrite get0_add_to, decide_False by done.
    unfold add_to. by rewrite lookup_insert_ne.
Qed.

Lemma accepted_cons d u v w ts :
  accepted node_lt d ((u, v, w) :: ts)
  = if decide ((canonical node_lt d u v).1 ≠ (canonical node_lt d u v).2)
    then (canonical node_lt d u v, w) :: accepted node_lt d ts
    else accepted node_lt d ts.
Proof. unfold accepted. simpl. by case_decide. Qed.

Lemma accepted_undirected_weights a b ts :
  (filter (λ e, e.1 = (a, b)) (accepted node_lt false ts)).*2
  = undirected_weights node_lt a b ts.
Proof.
  unfold undirected_weights.
  induction ts as [|[[u v] w] ts IH]; [done|].
  rewrite accepted_cons, (filter_cons _ _ ts).
  change (canonical node_lt false u v) with (py_max node_lt u v, py_min node_lt u v).
  change ((u, v, w).1.1) with u. change ((u, v, w).1.2) with v.
  set (c := (py_max node_lt u v, py_min node_lt u v)).
  destruct (decide (c.1 ≠ c.2)) as [Hne|Heq].
  - rewrite filter_cons. change ((c, w).1) with c.
    destruct (decide (c = (a, b))) as [Hab|Hab].
    + rewrite decide_True; [|split; [done|]; by rewrite Hab in Hne].
      by rewrite !fmap_cons, IH.
    + rewrite decide_False; [done|]. by intros [? ?].
  - rewrite decide_False; [done|]. intros [Hab Hne]. rewrite Hab in Heq. done.
Qed.

(** In undirected mode a pair and its reverse have one canonical form. *)
Lemma canonical_swap u v :
  strict_total node_lt → canonical node_lt false u v = canonical node_lt false v u.
Proof.
  intros [Hirr Htr Htot]. unfold canonical, py_max, py_min.
  destruct (node_lt u v) eqn:Huv, (node_lt v u) eqn:Hvu; try done.
  - pose proof (Htr _ _ _ Huv Hvu) as Huu. by rewrite Hirr in Huu.
  - by rewrite (Htot u v).
Qed.

(** C9, for weights that are integers ([--wtype int], the default): the
    node weights add up to exactly twice the edge weights. *)
Theorem node_weights_twice_edge_weights content log g :
  read_graph' content = (log, Returned g) →
  total (nodes g) = 2 * total (edges g).
Proof.
  unfold read_graph.
  apply (read_lines_invariant (λ g, total (nodes g) = 2 * total (edges g))).
  - intros g0 a b w Hab Hg0. unfold add_edge. simpl.
    rewrite !total_add_to. lia.
  - simpl. by rewrite !total_empty.
Qed.

Lemma no_critical_initial : no_critical [Info_reading (V := V) skip sep].
Proof. intros ???? Hin. by apply list_elem_of_singleton in Hin. Qed.

(** C6, as the code has it: at the first malformed line the call ends and
    returns no graph.  If the line cannot be split into the three columns,
    a critical record with the line and its number is logged and the call
    ends by [exit(1)]; if a field fails its conversion, the exception of
    the conversion leaves the call and nothing critical is logged. *)
Theorem malformed_line_aborts content pre line post :
  PyStr.slice_from (PyStr.readlines content) skip = pre ++ line :: post →
  Forall well_formed' pre → ¬ blank line →
  (∀ ex, fields sep u_col v_col w_col line = Raise ex →
     ∃ log, read_graph' content
            = (log ++ [Critical_split (1 + Z.of_nat (length pre) + skip) sep line ex],
               Exited 1))
  ∧ (∀ f ex, fields sep u_col v_col w_col line = Ok f →
       converted convert weight_convert f = Raise ex →
       ∃ log, read_graph' content = (log, Uncaught ex) ∧ no_critical log).
Proof.
  intros Hslice Hwf Hb. unfold read_graph. rewrite Hslice.
  destruct (read_lines_prefix pre Hwf 1 [Info_reading skip sep] empty_graph)
    as (log1 & g1 & Hn & Hrest).
  rewrite Hrest. simpl. split.
  - intros ex Hf. exists log1. by rewrite (read_line_split_fails _ _ _ _ ex).
  - intros f ex Hf Hc. exists log1.
    rewrite (read_line_convert_fails _ _ _ _ f ex) by done.
    split; [done|]. apply Hn, no_critical_initial.
Qed.

End read_graph_facts.

(** C6 as stated fails: a line whose field is no number ends the call by an
    uncaught [ValueError]; no diagnostic with the line is logged. *)
Lemma conversion_failure_is_not_logged :
  fields None 0 1 2 bad_number_line = Ok ("1", "x", "3")
  ∧ converted PyStr.int PyStr.int ("1", "x", "3") = Raise ValueError
  ∧ example_read_graph bad_number_line = ([Info_reading 0 None], Uncaught ValueError)
  ∧ ¬ aborts_with_diagnostic (example_read_graph bad_number_line) bad_number_line.
Proof.
  split; [reflexivity|]. split; [reflexivity|]. split; [reflexivity|].
  intros (log & lineno & sp & ex & Heq).
  apply (f_equal snd) in Heq. vm_compute in Heq. discriminate.
Qed.

Lemma malformed_line_aborts_witness :
  (∃ log, example_read_graph short_line_file
          = (log ++ [Critical_split 2 None short_line IndexError], Exited 1))
  ∧ (∃ log, example_read_graph bad_number_file = (log, Uncaught ValueError)
            ∧ no_critical log).
Proof.
  split.
  - apply (proj1 (malformed_line_aborts Z.ltb PyStr.int PyStr.int None 0 false
                    0 1 2 short_line_file
                    ["1 2 3" +:+ String "010" ""] short_line [] eq_refl
                    ltac:(repeat constructor; right; vm_compute; exact I)
                    ltac:(vm_compute; discriminate)) IndexError eq_refl).
  - apply (proj2 (malformed_line_aborts Z.ltb PyStr.int PyStr.int None 0 false
                    0 1 2 bad_number_file
                    ["1 2 3" +:+ String "010" ""] bad_number_line [] eq_refl
                    ltac:(repeat constructor; right; vm_compute; exact I)
                    ltac:(vm_compute; discriminate)) ("1", "x", "3") ValueError
             eq_refl eq_refl).
Defined.

(** ** The renumbering *)

Lemma dict_of_go_lookup `{Countable K} {A} (items : list (K * A)) :
  ∀ (m : gmap K A) k a,
    NoDup items.*1 →
    fold_left (λ d kv, <[kv.1 := kv.2]> d) items m !! k = Some a
    ↔ (k, a) ∈ items ∨ ((k ∉ items.*1) ∧ m !! k = Some a).
Proof.
  induction items as [|[k0 a0] r IH]; intros m k a Hnd.
  { simpl. split; [intros; right; split; [apply not_elem_of_nil|done]|].
    intros [Hin|[_ ?]]; [by apply elem_of_nil in Hin|done]. }
  rewrite fmap_cons in Hnd. apply NoDup_cons in Hnd as [Hk0 Hnd].
  simpl. rewrite (IH _ _ _ Hnd), lookup_insert, elem_of_cons, not_elem_of_cons.
  assert (∀ x : A, (k0, x) ∉ r) as Hr.
  { intros x Hx. apply Hk0. apply list_elem_of_fmap. by exists (k0, x). }
  destruct (decide (k0 = k)) as [->|Hne]; simpl.
  - split.
    + intros [Hin|[_ ?]]; [by apply Hr in Hin|]. left. left. by simplify_eq.
    + intros [[?|Hin]|[[? _] _]]; [|by apply Hr in Hin|done].
      right. split; [done|]. by simplify_eq.
  - split.
    + intros [?|[? ?]]; [by left; right|]. by right.
    + intros [[?|?]|[[? ?] ?]]; [by simplify_eq|by left|by right].
Qed.

Lemma dict_of_lookup `{Countable K} {A} (items : list (K * A)) k a :
  NoDup items.*1 → Py.dict_of items !! k = Some a ↔ (k, a) ∈ items.
Proof.
  intros Hnd. unfold Py.dict_of. rewrite dict_of_go_lookup by done.
  rewrite lookup_empty. split; [by intros [?|[_ ?]]|by left].
Qed.

Lemma elem_of_enumerate {A} (l : list A) :
  ∀ start i x,
    (i, x) ∈ Py.enumerate start l
    ↔ (∃ k : nat, i = start + Z.of_nat k ∧ l !! k = Some x).
Proof.
  induction l as [|y l IH]; intros start i x; simpl.
  { split; [by intros ?%elem_of_nil|]. by intros (k & _ & ?). }
  rewrite elem_of_cons, IH. split.
  - intros [?|(k & -> & Hk)]; [exists O; simplify_eq; split; [lia|done]|].
    exists (S k). split; [lia|done].
  - intros ([|k] & -> & Hk); simpl in Hk; [left; simplify_eq; f_equal; lia|].
    right. exists k. split; [lia|done].
Qed.

Lemma enumerate_values {A} (l : list A) start :
  ((λ iv : Z * A, (iv.2, iv.1)) <$> Py.enumerate start l).*1 = l.
Proof.
  revert start. induction l as [|y l IH]; intros start; [done|].
  simpl. f_equal. apply IH.
Qed.

Lemma StronglySorted_lookup_lt {A} (R : relation A) (l : list A) :
  StronglySorted R l →
  ∀ i j x y, l !! i = Some x → l !! j = Some y → (i < j)%nat → R x y.
Proof.
  induction 1 as [|z l _ IH Hall]; intros i j x y Hi Hj Hlt; [done|].
  destruct j as [|j]; [lia|]. simpl in Hj.
  destruct i as [|i]; simpl in Hi.
  - simplify_eq. rewrite Forall_forall in Hall. apply Hall.
    by eapply list_elem_of_lookup_2.
  - eapply IH; eauto. lia.
Qed.

Section renumbering_facts.
Context {V : Type} `{Countable V}.
Variable node_lt : V → V → bool.
Hypothesis Hlt : strict_total node_lt.

Local Instance node_le_total : Total (node_le node_lt).
Proof.
  intros a b. unfold node_le. destruct Hlt as [Hirr Htr _].
  destruct (node_lt b a) eqn:Hba; [|left; by intros ?].
  right. destruct (node_lt a b) eqn:Hab; [|by intros ?].
  pose proof (Htr _ _ _ Hab Hba) as Haa. by rewrite Hirr in Haa.
Qed.

Local Instance node_le_trans : Transitive (node_le node_lt).
Proof.
  intros a b c. unfold node_le. destruct Hlt as [Hirr Htr Htot].
  intros Hba Hcb Hca. apply Is_true_true in Hca.
  destruct (node_lt a b) eqn:Hab.
  - apply Hcb. by rewrite (Htr _ _ _ Hca Hab).
  - destruct (node_lt b a) eqn:Hba'; [by apply Hba|].
    rewrite (Htot a b Hab Hba') in Hca. apply Hcb. by rewrite Hca.
Qed.

(** The image of a node under the mapper is one more than its position in
    the sorted list of nodes. *)
Lemma renumbering_lookup (nds : gmap V Z) v i :
  renumbering node_lt nds !! v = Some i
  ↔ (∃ k : nat, i = 1 + Z.of_nat k
                ∧ sorted node_lt (map_to_list nds).*1 !! k = Some v).
Proof.
  unfold renumbering. rewrite dict_of_lookup.
  - rewrite list_elem_of_fmap. split.
    + intros ([j y] & ? & Hin). simplify_eq/=.
      by apply elem_of_enumerate in Hin.
    + intros Hk. exists (i, v). split; [done|]. by apply elem_of_enumerate.
  - rewrite enumerate_values. unfold sorted.
    rewrite merge_sort_Permutation. apply NoDup_fst_map_to_list.
Qed.

Lemma sorted_length (nds : gmap V Z) :
  length (sorted node_lt (map_to_list nds).*1) = size nds.
Proof.
  unfold sorted. rewrite merge_sort_Permutation.
  by rewrite length_fmap, length_map_to_list.
Qed.

Lemma sorted_elem_of (nds : gmap V Z) v :
  v ∈ sorted node_lt (map_to_list nds).*1 ↔ v ∈ dom nds.
Proof.
  unfold sorted. rewrite merge_sort_Permutation, elem_of_dom.
  rewrite list_elem_of_fmap. split.
  - intros ([k x] & -> & Hin). apply elem_of_map_to_list in Hin. by exists x.
  - intros [x Hx]. exists (v, x). split; [done|]. by apply elem_of_map_to_list.
Qed.

Lemma renumbering_bijection (nds : gmap V Z) :
  let mapper := renumbering node_lt nds in
  let N := Z.of_nat (size nds) in
  dom mapper = dom nds
  ∧ (∀ v i, mapper !! v = Some i → 1 ≤ i ≤ N)
  ∧ (∀ i, 1 ≤ i ≤ N → ∃ v, mapper !! v = Some i)
  ∧ (∀ u v i, mapper !! u = Some i → mapper !! v = Some i → u = v)
  ∧ (∀ u v i j, mapper !! u = Some i → mapper !! v = Some j →
       node_lt u v = true → i < j).
Proof.
  intros mapper N. subst mapper N. repeat split.
  - apply set_eq. intros v. rewrite elem_of_dom, <- sorted_elem_of.
    rewrite list_elem_of_lookup. unfold is_Some.
    setoid_rewrite renumbering_lookup.
    split; [intros (x & k & _ & Hk); eauto|intros [k Hk]; eauto].
  - apply renumbering_lookup in H0 as (k & -> & _). lia.
  - apply renumbering_lookup in H0 as (k & -> & Hk).
    apply lookup_lt_Some in Hk. rewrite sorted_length in Hk. lia.
  - intros i [Hi1 Hi2].
    destruct (lookup_lt_is_Some_2 (sorted node_lt (map_to_list nds).*1)
                (Z.to_nat (i - 1))) as [v Hv].
    { rewrite sorted_length. lia. }
    exists v. apply renumbering_lookup. exists (Z.to_nat (i - 1)). split; [lia|done].
  - intros u v i (k & -> & Hk)%renumbering_lookup (k' & Hkk & Hk')%renumbering_lookup.
    assert (k = k') as -> by lia. by simplify_eq.
  - intros u v i j (k & -> & Hk)%renumbering_lookup (k' & -> & Hk')%renumbering_lookup Huv.
    destruct (decide (k < k')%nat) as [|Hge]; [lia|]. exfalso.
    destruct Hlt as [Hirr _ _].
    destruct (decide (k = k')) as [->|Hne].
    + simplify_eq. by rewrite Hirr in Huv.
    + assert (node_le node_lt v u) as Hle.
      { eapply (StronglySorted_lookup_lt _ _
                  (StronglySorted_merge_sort (node_le node_lt) _));
          [exact Hk'|exact Hk|lia]. }
      apply Hle. by rewrite Huv.
Qed.

End renumbering_facts.

Section nodes_facts.
Context {V : Type} `{Countable V}.
Variable node_lt : V → V → bool.

Lemma nodes_add_edges es :
  ∀ (g : graph V) x,
    x ∈ dom (nodes (add_edges g es))
    ↔ x ∈ dom (nodes g) ∨ ∃ e, e ∈ es ∧ (x = e.1.1 ∨ x = e.1.2).
Proof.
  induction es as [|[[a b] w] es IH]; intros g x.
  { simpl. split; [by left|]. intros [?|(e & Hin & _)]; [done|].
    by apply elem_of_nil in Hin. }
  change (add_edges g (((a, b), w) :: es))
    with (add_edges (add_edge g a b w) es).
  rewrite IH. unfold add_edge, add_to. simpl. rewrite !dom_insert_L.
  setoid_rewrite elem_of_cons. split.
  - intros [Hx|(e & Hin & Hx)].
    + apply elem_of_union in Hx as [Hx|Hx];
        [|apply elem_of_union in Hx as [Hx|Hx]].
      * apply elem_of_singleton in Hx. right. exists (a, b, w). split; auto.
      * apply elem_of_singleton in Hx. right. exists (a, b, w). split; auto.
      * by left.
    + right. exists e. split; auto.
  - intros [Hx|(e & [->|Hin] & Hx)].
    + left. rewrite !elem_of_union. auto.
    + left. simpl in Hx. rewrite !elem_of_union, !elem_of_singleton. tauto.
    + right. by exists e.
Qed.

Lemma canonical_endpoints d u v x :
  (canonical node_lt d u v).1 ≠ (canonical node_lt d u v).2 →
  (x = (canonical node_lt d u v).1 ∨ x = (canonical node_lt d u v).2)
  ↔ (x = u ∨ x = v).
Proof.
  unfold canonical, py_max, py_min.
  destruct d, (node_lt u v), (node_lt v u); simpl; intros Hne; try done; tauto.
Qed.

Lemma nodes_returned convert weight_convert sep skip directed u_col v_col w_col
    content log (g : graph V) x :
  read_graph node_lt convert weight_convert sep skip directed u_col v_col w_col
    content = (log, Returned g) →
  x ∈ dom (nodes g)
  ↔ is_endpoint node_lt directed x
      (triples convert weight_convert sep u_col v_col w_col
         (PyStr.slice_from (PyStr.readlines content) skip)).
Proof.
  intros Hr. unfold read_graph in Hr. apply read_lines_returned in Hr as ->.
  rewrite nodes_add_edges. simpl. rewrite dom_empty_L.
  unfold is_endpoint, accepted. split.
  - intros [Hx|(e & Hin & Hx)]; [by apply not_elem_of_empty in Hx|].
    apply list_elem_of_omap in Hin as (t & Hin & Ht).
    destruct (decide _) as [Hne|]; [|done]. simplify_eq. simpl in Hx.
    exists t. split; [done|]. split; [done|]. by apply (canonical_endpoints directed).
  - intros (t & Hin & Hne & Hx). right.
    exists (canonical node_lt directed t.1.1 t.1.2, t.2). split.
    + apply list_elem_of_omap. exists t. split; [done|]. by rewrite decide_True.
    + simpl. by apply canonical_endpoints.
Qed.

End nodes_facts.

(** C2: the mapper of [format_for_reneel] sends the nodes left after the
    self-loops are dropped one-to-one onto [1..N], [N] the number of those
    nodes, in ascending order of the nodes. *)
Theorem renumbering_is_bijection (V : Type) `(Countable V) (node_lt : V → V → bool)
    convert weight_convert sep skip directed u_col v_col w_col content log g mapper :
  strict_total node_lt →
  format_for_reneel node_lt convert weight_convert sep skip directed
    u_col v_col w_col content = (log, Returned (g, mapper)) →
  let N := Z.of_nat (size (nodes g)) in
  (∀ x, x ∈ dom (nodes g)
        ↔ is_endpoint node_lt directed x
            (triples convert weight_convert sep u_col v_col w_col
               (PyStr.slice_from (PyStr.readlines content) skip)))
  ∧ dom mapper = dom (nodes g)
  ∧ (∀ v i, mapper !! v = Some i → 1 ≤ i ≤ N)
  ∧ (∀ i, 1 ≤ i ≤ N → ∃ v, mapper !! v = Some i)
  ∧ (∀ u v i, mapper !! u = Some i → mapper !! v = Some i → u = v)
  ∧ (∀ u v i j, mapper !! u = Some i → mapper !! v = Some j →
       node_lt u v = true → i < j).
Proof.
  intros Hlt Hf N. unfold format_for_reneel in Hf.
  destruct (read_graph _ _ _ _ _ _ _ _ _ content) as [log0 [g0|c|e]] eqn:Hr;
    [|done..].
  simplify_eq. split.
  - intros x. by eapply nodes_returned.
  - by apply renumbering_bijection.
Qed.

Lemma Z_ltb_strict_total : strict_total Z.ltb.
Proof.
  split.
  - apply Z.ltb_irrefl.
  - intros a b c ?%Z.ltb_lt ?%Z.ltb_lt. apply Z.ltb_lt. lia.
  - intros a b ?%Z.ltb_ge ?%Z.ltb_ge. lia.
Qed.

Lemma renumbering_is_bijection_witness :
  example_format_for_reneel example_file
  = (example_log ++ [Info_read_in 2 1], Returned (example_graph, example_mapper))
  ∧ dom example_mapper = dom (nodes example_graph)
  ∧ (∀ i, 1 ≤ i ≤ 2 → ∃ v, example_mapper !! v = Some i)
  ∧ (∀ u v i, example_mapper !! u = Some i → example_mapper !! v = Some i → u = v).
Proof.
  split; [reflexivity|].
  pose proof (renumbering_is_bijection Z _ Z.ltb PyStr.int PyStr.int None 0 false
                0 1 2 example_file (example_log ++ [Info_read_in 2 1])
                example_graph example_mapper Z_ltb_strict_total eq_refl)
    as (_ & Hdom & _ & Hsurj & Hinj & _).
  split; [exact Hdom|]. split; [exact Hsurj|exact Hinj].
Defined.

Lemma self_loop_changes_nothing_witness :
  line_triple PyStr.int PyStr.int None 0 1 2 "1 1 5" = Ok (1, 1, 5)
  ∧ read_line Z.ltb PyStr.int PyStr.int None 0 false 0 1 2 3 "1 1 5"
      [Info_reading 0 None] example_graph
    = Continue [Info_reading 0 None; Debug_self_loop 1 1 3] example_graph
  ∧ ∀ pre post n log0 g0,
      (read_lines Z.ltb PyStr.int PyStr.int None 0 false 0 1 2 n
         (pre ++ "1 1 5" :: post) log0 g0).2
      = (read_lines Z.ltb PyStr.int PyStr.int None 0 false 0 1 2 n
           (pre ++ post) log0 g0).2.
Proof.
  split; [reflexivity|].
  apply (self_loop_changes_nothing Z.ltb PyStr.int PyStr.int None 0 false 0 1 2
           3 "1 1 5" [Info_reading 0 None] example_graph 1 1 5);
    [ vm_compute; discriminate | reflexivity | reflexivity ].
Defined.

(** C1: read with [directed=False], every non-self-loop line is filed under
    the pair [(max(u,v), min(u,v))], a pair and its reverse have the same
    such pair, and the weight stored for a pair is the sum of the weights
    of all lines filed under it; the lines [1 2 3], [2 1 4], [1 1 5] give
    the single edge [(2, 1)] of weight 7 on the nodes 1 and 2. *)
Theorem read_graph_undirected_merges :
  (∀ (V : Type) `(Countable V) (node_lt : V → V → bool) convert weight_convert
     sep skip u_col v_col w_col content log g,
     read_graph node_lt convert weight_convert sep skip false u_col v_col w_col
       content = (log, Returned g) →
     (∀ a b,
        edges g !! (a, b)
        = match undirected_weights node_lt a b
                  (triples convert weight_convert sep u_col v_col w_col
                     (PyStr.slice_from (PyStr.readlines content) skip)) with
          | [] => None
          | ws => Some (sum_list ws)
          end)
     ∧ (strict_total node_lt →
        ∀ u v, canonical node_lt false u v = canonical node_lt false v u))
  ∧ example_read_graph example_file = (example_log, Returned example_graph)
  ∧ edges example_graph = {[ (2, 1) := 7 ]}
  ∧ dom (nodes example_graph) = ({[ 1; 2 ]} : gset Z)
  ∧ size (nodes example_graph) = 2%nat
  ∧ size (edges example_graph) = 1%nat.
Proof.
  split; [|by vm_compute].
  intros V ?? node_lt convert weight_convert sep skip u_col v_col w_col
    content log g Hr.
  split; [|intros; by apply canonical_swap].
  intros a b. unfold read_graph in Hr.
  apply read_lines_returned in Hr as ->.
  rewrite edges_add_edges, accepted_undirected_weights.
  unfold get0. simpl. rewrite lookup_empty. simpl.
  by destruct (undirected_weights _ _ _ _).
Qed.

Lemma read_graph_undirected_merges_witness :
  example_read_graph example_file = (example_log, Returned example_graph)
  ∧ edges example_graph !! (2, 1) = Some (3 + (4 + 0)).
Proof.
  split; [reflexivity|].
  apply (proj1 (proj1 read_graph_undirected_merges Z _ _ Z.ltb PyStr.int PyStr.int
                  None 0 0 1 2 example_file example_log example_graph
                  eq_refl) 2 1).
Defined.

Lemma node_weights_twice_edge_weights_witness :
  example_read_graph example_file = (example_log, Returned example_graph)
  ∧ total (nodes example_graph) = 2 * total (edges example_graph).
Proof.
  split; [reflexivity|].
  apply (node_weights_twice_edge_weights Z.ltb PyStr.int PyStr.int None 0 false
           0 1 2 example_file example_log example_graph).
  reflexivity.
Defined.

End EdgelistFacts.

(** ** The [str] methods *)

Module PyStrFacts.
Import PyStr.

Lemma app_cons c s t : String c s +:+ t = String c (s +:+ t).
Proof. reflexivity. Qed.

Lemma app_nil_r s : s +:+ "" = s.
Proof. induction s as [|c s IH]; [done|]. by rewrite app_cons, IH. Qed.

Lemma app_assoc s t u : (s +:+ t) +:+ u = s +:+ t +:+ u.
Proof. induction s as [|c s IH]; [done|]. by rewrite !app_cons, IH. Qed.

Lemma all_chars_app p s t : all_chars p (s +:+ t) = all_chars p s && all_chars p t.
Proof.
  induction s as [|c s IH]; [done|]. rewrite app_cons. simpl.
  by rewrite IH, andb_assoc.
Qed.

Lemma all_chars_impl (p q : ascii → bool) s :
  (∀ c, p c = true → q c = true) → all_chars p s = true → all_chars q s = true.
Proof.
  intros Hpq. induction s as [|c s IH]; [done|]. simpl.
  intros [Hc Hs]%andb_true_iff. rewrite (Hpq c Hc). simpl. by apply IH.
Qed.

Lemma is_digit_not_space c : is_digit c = true → negb (is_space c) = true.
Proof. destruct c as [[] [] [] [] [] [] [] []]; simpl; done. Qed.

Lemma digits_of_uint d : all_chars is_digit (NilEmpty.string_of_uint d) = true.
Proof. induction d; simpl; done. Qed.

(** *** [strip] *)

Lemma rstrip_no_space s : no_space s = true → rstrip s = s.
Proof.
  unfold no_space. induction s as [|c s IH]; [done|]. simpl.
  intros [Hc Hs]%andb_true_iff. rewrite (IH Hs).
  apply negb_true_iff in Hc. rewrite Hc. by destruct s.
Qed.

Lemma lstrip_no_space s : no_space s = true → lstrip s = s.
Proof.
  unfold no_space. destruct s as [|c s]; [done|]. simpl.
  intros [Hc _]%andb_true_iff. apply negb_true_iff in Hc. by rewrite Hc.
Qed.

Lemma strip_no_space s : no_space s = true → strip s = s.
Proof.
  intros Hs. unfold strip. by rewrite lstrip_no_space, rstrip_no_space.
Qed.

Lemma rstrip_head c s : is_space c = false → rstrip (String c s) ≠ "".
Proof. intros Hc. simpl. rewrite Hc. by destruct (rstrip s). Qed.

Lemma strip_head c s : is_space c = false → strip (String c s) ≠ "".
Proof.
  intros Hc. unfold strip. simpl. rewrite Hc. by apply rstrip_head.
Qed.

(** *** [int] and [str] *)

Lemma digits_go_digits s :
  all_chars is_digit s = true → digits_go true s = Some s.
Proof.
  induction s as [|c s IH]; [done|]. simpl.
  intros [Hc Hs]%andb_true_iff. by rewrite Hc, (IH Hs).
Qed.

Lemma nat_literal_of_uint d :
  d ≠ Decimal.Nil →
  nat_literal (NilEmpty.string_of_uint d) = Some (Z.of_uint d).
Proof.
  intros Hd. unfold nat_literal.
  assert (digits_go false (NilEmpty.string_of_uint d)
          = Some (NilEmpty.string_of_uint d)) as ->.
  { pose proof (digits_of_uint d) as Hall.
    destruct (NilEmpty.string_of_uint d) as [|c s] eqn:Hs.
    - by destruct d.
    - simpl in *. apply andb_true_iff in Hall as [Hc Hall].
      by rewrite Hc, (digits_go_digits s Hall). }
  simpl. by rewrite NilEmpty.usu.
Qed.

Lemma head_of_uint d :
  d ≠ Decimal.Nil →
  ∃ c s, NilEmpty.string_of_uint d = String c s ∧ is_digit c = true.
Proof. destruct d; [done|..]; intros _; simpl; eauto. Qed.

Lemma str_of_uint_no_space d : no_space (NilEmpty.string_of_uint d) = true.
Proof.
  eapply all_chars_impl; [|apply digits_of_uint]. apply is_digit_not_space.
Qed.

Lemma int_of_uint d :
  d ≠ Decimal.Nil →
  int (NilEmpty.string_of_uint d) = Ok (Z.of_uint d)
  ∧ int (String "-" (NilEmpty.string_of_uint d)) = Ok (- Z.of_uint d).
Proof.
  intros Hd. unfold int. split.
  - rewrite strip_no_space by apply str_of_uint_no_space.
    destruct (head_of_uint d Hd) as (c & s & Hs & Hc).
    assert (nat_literal (String c s) = Some (Z.of_uint d)) as Hn
      by (rewrite <- Hs; by apply nat_literal_of_uint).
    rewrite Hs.
    destruct c as [[] [] [] [] [] [] [] []]; try discriminate Hc; by rewrite Hn.
  - rewrite strip_no_space.
    + by rewrite nat_literal_of_uint.
    + unfold no_space. simpl. apply str_of_uint_no_space.
Qed.

Lemma str_cases n :
  ∃ d, d ≠ Decimal.Nil ∧ Z.of_uint d = Z.abs n
       ∧ str n = (if decide (n < 0) then String "-" (NilEmpty.string_of_uint d)
                  else NilEmpty.string_of_uint d).
Proof.
  unfold str. destruct n as [|p|p]; simpl.
  - exists (Decimal.D0 Decimal.Nil). by repeat split.
  - exists (Pos.to_uint p). split; [apply DecimalPos.Unsigned.to_uint_nonnil|].
    split; [apply (DecimalZ.of_to (Z.pos p))|].
    unfold NilZero.string_of_uint.
    pose proof (DecimalPos.Unsigned.to_uint_nonnil p). by destruct (Pos.to_uint p).
  - exists (Pos.to_uint p). split; [apply DecimalPos.Unsigned.to_uint_nonnil|].
    split.
    + pose proof (DecimalZ.of_to (Z.neg p)) as Hz. simpl in Hz. lia.
    + unfold NilZero.string_of_uint.
      pose proof (DecimalPos.Unsigned.to_uint_nonnil p). by destruct (Pos.to_uint p).
Qed.

(** [int(str(n)) == n] *)
Lemma int_str n : int (str n) = Ok n.
Proof.
  destruct (str_cases n) as (d & Hd & Habs & ->).
  destruct (int_of_uint d Hd) as [Hpos Hneg].
  case_decide; [rewrite Hneg|rewrite Hpos]; f_equal; lia.
Qed.

Lemma str_no_space n : no_space (str n) = true.
Proof.
  destruct (str_cases n) as (d & _ & _ & ->).
  case_decide; [|apply str_of_uint_no_space].
  unfold no_space. simpl. apply str_of_uint_no_space.
Qed.

Lemma str_nonempty n : str n ≠ "".
Proof.
  destruct (str_cases n) as (d & Hd & _ & ->).
  case_decide; [done|]. by destruct d.
Qed.

(** *** [split] at white space *)

Lemma split_ws_go_word w :
  ∀ word s, no_space w = true →
    split_ws_go word (w +:+ s) = split_ws_go (word +:+ w) s.
Proof.
  unfold no_space. induction w as [|c w IH]; intros word s Hw.
  { by rewrite app_nil_r. }
  simpl in Hw. apply andb_true_iff in Hw as [Hc Hw].
  apply negb_true_iff in Hc. rewrite app_cons. simpl. rewrite Hc.
  rewrite IH by done. by rewrite app_assoc.
Qed.

Lemma flush_nonempty w : w ≠ "" → flush w = [w].
Proof. by destruct w. Qed.

(** A line [w1 w2\n] of two words splits into the two words. *)
Lemma split_ws_two_words w1 w2 :
  w1 ≠ "" → w2 ≠ "" → no_space w1 = true → no_space w2 = true →
  split_ws (w1 +:+ " " +:+ w2 +:+ String "010" "") = [w1; w2].
Proof.
  intros Hn1 Hn2 Hw1 Hw2. unfold split_ws.
  rewrite split_ws_go_word by done.
  change ("" +:+ w1) with w1.
  change (" " +:+ w2 +:+ String "010" "") with (String " " (w2 +:+ String "010" "")).
  simpl. rewrite flush_nonempty by done.
  rewrite split_ws_go_word by done.
  change ("" +:+ w2) with w2. simpl.
  by rewrite flush_nonempty.
Qed.

(** *** [readlines] *)

Lemma no_space_no_line_end c : negb (is_space c) = true → no_line_end c = true.
Proof. destruct c as [[] [] [] [] [] [] [] []]; simpl; done. Qed.

Lemma readlines_go_line w :
  ∀ line rest, all_chars no_line_end w = true →
    readlines_go line (w +:+ String "010" rest)
    = (line +:+ w +:+ String "010" "") :: readlines_go "" rest.
Proof.
  induction w as [|c w IH]; intros line rest Hw; [done|].
  simpl in Hw. apply andb_true_iff in Hw as [Hc Hw].
  apply bool_decide_eq_true in Hc as [Hc1 Hc2].
  rewrite app_cons. simpl.
  rewrite !bool_decide_eq_false_2 by done.
  rewrite IH by done. by rewrite app_assoc.
Qed.

End PyStrFacts.

(** ** Key files *)

Module KeyFacts.
Import FormatEdgelist KeySpec PyStrFacts.

Lemma index_two {A} (a b : A) :
  PyStr.index [a; b] 0 = Ok a ∧ PyStr.index [a; b] 1 = Ok b.
Proof. by split. Qed.

Section key_roundtrip.
Context {K : Type}.
Variable show : K → string.
Variable cvt : string → result K.

Local Abbreviation key_line :=
  (λ kv : K * Z, show kv.1 +:+ " " +:+ PyStr.str kv.2 +:+ String "010" "").

Lemma key_line_no_line_end k v :
  PyStr.no_space (show k) = true →
  PyStr.all_chars PyStr.no_line_end (show k +:+ " " +:+ PyStr.str v) = true.
Proof.
  intros Hk. rewrite !all_chars_app.
  rewrite (all_chars_impl _ _ _ no_space_no_line_end Hk).
  by rewrite (all_chars_impl _ _ _ no_space_no_line_end (str_no_space v)).
Qed.

(** The file [write_key] writes has one line per item. *)
Lemma readlines_write_key mapper :
  (∀ k v, (k, v) ∈ mapper → clean_id show cvt k) →
  PyStr.readlines (write_key show mapper) = key_line <$> mapper.
Proof.
  unfold PyStr.readlines.
  induction mapper as [|[k v] rest IH]; intros Hclean; [done|].
  destruct (Hclean k v) as (_ & Hns & _); [by left|].
  change (write_key show ((k, v) :: rest))
    with (show k +:+ " " +:+ PyStr.str v +:+ String "010" (write_key show rest)).
  replace (show k +:+ " " +:+ PyStr.str v +:+ String "010" (write_key show rest))
    with ((show k +:+ " " +:+ PyStr.str v) +:+ String "010" (write_key show rest))
    by (by rewrite !app_assoc).
  rewrite readlines_go_line by by apply key_line_no_line_end.
  rewrite fmap_cons, IH.
  - f_equal. change ("" +:+ ?x) with x. simpl. by rewrite !app_assoc.
  - intros k' v' Hin. apply (Hclean k' v'). by right.
Qed.

Lemma read_key_item_line k v :
  clean_id show cvt k → read_key_item cvt (key_line (k, v)) = Ok (v, k).
Proof.
  intros (Hne & Hns & Hcvt). unfold read_key_item. simpl.
  rewrite (split_ws_two_words (show k) (PyStr.str v) Hne (str_nonempty v) Hns
             (str_no_space v)).
  destruct (index_two (show k) (PyStr.str v)) as [-> ->]. simpl.
  rewrite (strip_no_space (PyStr.str v)) by apply str_no_space.
  rewrite int_str. simpl.
  rewrite (strip_no_space (show k)) by done. by rewrite Hcvt.
Qed.

Lemma key_line_not_blank k v :
  clean_id show cvt k → PyStr.strip (key_line (k, v)) ≠ "".
Proof.
  intros (Hne & Hns & _). simpl.
  destruct (show k) as [|c s]; [done|].
  rewrite app_cons. apply strip_head.
  unfold PyStr.no_space in Hns. simpl in Hns.
  apply andb_true_iff in Hns as [Hc _]. by apply negb_true_iff.
Qed.

Lemma read_key_lines_written mapper :
  ∀ unmapper,
    (∀ k v, (k, v) ∈ mapper → clean_id show cvt k) →
    read_key_lines cvt (key_line <$> mapper) unmapper
    = Ok (fold_left (λ d kv, <[kv.1 := kv.2]> d)
            ((λ kv : K * Z, (kv.2, kv.1)) <$> mapper) unmapper).
Proof.
  induction mapper as [|[k v] rest IH]; intros unmapper Hclean; [done|].
  assert (clean_id show cvt k) as Hk by (apply (Hclean k v); by left).
  rewrite !fmap_cons.
  cbn [read_key_lines]. rewrite decide_False by by apply key_line_not_blank.
  rewrite read_key_item_line by done. simpl.
  apply IH. intros k' v' Hin. apply (Hclean k' v'). by right.
Qed.

(** C3, as the code has it: when the mapper is one-to-one and every
    original id has a text that is not empty, is free of white space and is
    read back by the conversion, [read_key] of the file that [write_key]
    wrote returns the inverse mapping. *)
Theorem write_key_read_key mapper :
  (∀ k v, (k, v) ∈ mapper → clean_id show cvt k) →
  NoDup mapper.*2 →
  ∃ unmapper,
    read_key cvt (write_key show mapper) = Ok unmapper
    ∧ inverse_of mapper unmapper.
Proof.
  intros Hclean Hinj. eexists. split.
  - unfold read_key. rewrite readlines_write_key by done.
    by apply read_key_lines_written.
  - intros k v.
    rewrite EdgelistFacts.dict_of_go_lookup.
    + rewrite lookup_empty, list_elem_of_fmap. split.
      * intros [([k' v'] & ? & Hin)|[_ ?]]; [by simplify_eq/=|done].
      * intros Hin. left. by exists (k, v).
    + rewrite <- list_fmap_compose. exact Hinj.
Qed.

End key_roundtrip.

(** Integer node ids are always clean. *)
Lemma clean_int k : clean_id PyStr.str PyStr.int k.
Proof.
  split; [apply str_nonempty|]. split; [apply str_no_space|apply int_str].
Qed.

Lemma write_key_read_key_witness :
  ∃ unmapper,
    read_key PyStr.int (write_key PyStr.str int_mapper) = Ok unmapper
    ∧ inverse_of int_mapper unmapper.
Proof.
  apply (write_key_read_key PyStr.str PyStr.int int_mapper).
  - intros k v _. apply clean_int.
  - apply (bool_decide_unpack _). vm_compute. exact I.
Defined.

(** C3 as stated fails for the empty node id: it has no white space and
    the conversion [str] reads it back, yet its line has a single field and
    [read_key] raises [IndexError].  It also fails for a mapper that is not
    one-to-one: the key read back holds only the last node of a new id. *)
Lemma empty_id_is_not_read_back :
  (PyStr.no_space (show_str "") = true
   ∧ cvt_str (show_str "") = Ok ""
   ∧ read_key cvt_str (write_key show_str empty_id_mapper) = Raise IndexError
   ∧ ¬ ∃ unmapper,
         read_key cvt_str (write_key show_str empty_id_mapper) = Ok unmapper
         ∧ inverse_of empty_id_mapper unmapper)
  ∧ (read_key cvt_str (write_key show_str shared_id_mapper) = Ok {[ 1 := "b" ]}
     ∧ ¬ inverse_of shared_id_mapper ({[ 1 := "b" ]} : gmap Z string)).
Proof.
  split.
  - split; [reflexivity|]. split; [reflexivity|]. split; [reflexivity|].
    intros (unmapper & Hr & _). vm_compute in Hr. discriminate.
  - split; [reflexivity|]. intros Hinv.
    assert (({[ 1 := "b" ]} : gmap Z string) !! 1 = Some "a") as Hlookup.
    { apply Hinv. by left. }
    vm_compute in Hlookup. discriminate.
Qed.

Lemma rstrip_line_end s : PyStr.no_space s = true → PyStr.rstrip (s +:+ String "010" "") = s.
Proof.
  unfold PyStr.no_space. induction s as [|c s IH]; [done|].
  cbn [PyStr.all_chars]. intros [Hc Hs]%andb_true_iff. apply negb_true_iff in Hc.
  change (String c s +:+ String "010" "") with (String c (s +:+ String "010" "")).
  cbn [PyStr.rstrip]. rewrite (IH Hs), Hc. by destruct s.
Qed.

(** The key file that [format_for_reneel] writes holds the sorted nodes,
    one per line; line [i], read as [load_partition] of [data.py] reads it,
    gives back the node numbered [i]. *)
Lemma simple_key_round_trip (nodes : list Z) :
  Py.for_each (λ l, PyStr.int (PyStr.strip l))
    (PyStr.readlines (write_simple_key PyStr.str nodes)) = Ok nodes.
Proof.
  unfold PyStr.readlines. induction nodes as [|k nodes IH]; [done|].
  change (write_simple_key PyStr.str (k :: nodes))
    with (PyStr.str k +:+ String "010" (write_simple_key PyStr.str nodes)).
  rewrite readlines_go_line
    by (eapply all_chars_impl; [apply no_space_no_line_end|apply str_no_space]).
  change ("" +:+ ?x) with x. cbn [Py.for_each]. rewrite IH.
  unfold PyStr.strip.
  assert (PyStr.lstrip (PyStr.str k +:+ String "010" "")
          = PyStr.str k +:+ String "010" "") as ->.
  { pose proof (str_no_space k) as Hns. pose proof (str_nonempty k) as Hne.
    destruct (PyStr.str k) as [|c r]; [done|].
    unfold PyStr.no_space in Hns. simpl in Hns.
    apply andb_true_iff in Hns as [Hc _]. apply negb_true_iff in Hc.
    rewrite app_cons. simpl. by rewrite Hc. }
  rewrite rstrip_line_end by apply str_no_space.
  by rewrite int_str.
Qed.

End KeyFacts.

(** ** [run_reneel_and_collect_output] *)

Module RunFacts.
Import RunReneel RunSpec.

Section run_facts.
Context {F : Type}.
Variable fmt : F → string.
Variable is_dir : string → bool.
Variable exists_file : string → bool.
Variable copy_ok : string → string → bool.
Variable subprocess_run : list string → result Z.
Variable tmp_name : nat → string.
Variable randbits : nat → Z.

Implicit Types st : state F.

Lemma bind_run {A B} (m : M F A) (f : A → M F B) st :
  (m ≫= f) st
  = match m st with
    | (st', Ok a) => f a st'
    | (st', Raise e) => (st', Raise e)
    end.
Proof. reflexivity. Qed.

Lemma if_bool_decide {A} (P : Prop) `{Decision P} (a b : A) :
  (if bool_decide P then a else b) = (if decide P then a else b).
Proof. rewrite bool_decide_decide. by destruct (decide P). Qed.

Lemma add_events_nil st : add_events st [] = st.
Proof. destruct st. unfold add_events. simpl. by rewrite app_nil_r. Qed.

Lemma add_events_app st a b :
  add_events (add_events st a) b = add_events st (a ++ b).
Proof. unfold add_events. simpl. by rewrite app_assoc. Qed.

Lemma when_emit (b : bool) e st :
  when b (emit e) st = (add_events st (if b then [e] else []), Ok ()).
Proof. destruct b; [done|]. simpl. by rewrite add_events_nil. Qed.

Lemma copy_run src dst st :
  copy copy_ok src dst st
  = (add_events st [Copy src dst],
     if copy_ok src dst then Ok () else Raise FileNotFoundError).
Proof. unfold copy. rewrite bind_run. simpl. by destruct (copy_ok src dst). Qed.

Lemma each_copy files tmpdir st :
  Forall (λ file, copy_ok file tmpdir = true) files →
  each (λ file, copy copy_ok file tmpdir) files st
  = (add_events st ((λ file, Copy file tmpdir) <$> files), Ok ()).
Proof.
  intros Hall. revert st. induction Hall as [|file files Hf _ IH]; intros st.
  - simpl. by rewrite add_events_nil.
  - simpl. rewrite bind_run, copy_run, Hf, IH. by rewrite add_events_app.
Qed.

(** Staging and running: the events, and the result of the executable. *)
Lemma stage_and_run_spec exe r test_mode rg rn tmpdir st :
  staged copy_ok tmpdir r →
  stage_and_run fmt copy_ok subprocess_run exe r test_mode rg rn tmpdir st
  = (add_events st
       (events_of_staging tmpdir r test_mode (command fmt exe test_mode r rg rn tmpdir)
        ++ [Run (command fmt exe test_mode r rg rn tmpdir)]),
     subprocess_run (command fmt exe test_mode r rg rn tmpdir)).
Proof.
  intros [Hc1 Hc2]. unfold stage_and_run, events_of_staging.
  rewrite bind_run. unfold emit at 1.
  rewrite bind_run, copy_run, Hc1.
  rewrite bind_run, each_copy by done.
  rewrite bind_run. unfold emit at 1.
  rewrite bind_run. unfold emit at 1.
  rewrite bind_run.
  assert (∀ st0, when test_mode
            (emit (Append (partition_path tmpdir r))
             ≫= λ _, emit (Append (results_path tmpdir r))) st0
          = (add_events st0 (if test_mode
                             then [Append (partition_path tmpdir r);
                                   Append (results_path tmpdir r)]
                             else []), Ok ())) as ->.
  { intros st0. destruct test_mode; simpl.
    - rewrite bind_run. unfold emit. by rewrite add_events_app.
    - by rewrite add_events_nil. }
  rewrite bind_run. unfold emit at 1. unfold lift.
  rewrite !add_events_app. do 2 f_equal. by rewrite <- !app_assoc.
Qed.

(** *** Computations only add to the trace *)

Lemma extends_ret {A} (a : A) : extends (mret a : M F A).
Proof. intros st. exists []. simpl. by rewrite app_nil_r. Qed.

Lemma extends_lift {A} (r : result A) : extends (lift r : M F A).
Proof. intros st. exists []. simpl. by rewrite app_nil_r. Qed.

Lemma extends_raise {A} e : extends (raise e : M F A).
Proof. intros st. exists []. simpl. by rewrite app_nil_r. Qed.

Lemma extends_emit e : extends (emit e : M F unit).
Proof. intros st. by exists [e]. Qed.

Lemma extends_bind {A B} (m : M F A) (f : A → M F B) :
  extends m → (∀ a, extends (f a)) → extends (m ≫= f).
Proof.
  intros Hm Hf st. rewrite bind_run.
  destruct (Hm st) as [ev1 H1]. destruct (m st) as [st1 [a|e]]; simpl in H1.
  - destruct (Hf a st1) as [ev2 H2]. exists (ev1 ++ ev2).
    by rewrite H2, H1, app_assoc.
  - by exists ev1.
Qed.

Lemma extends_when b (m : M F unit) : extends m → extends (when b m).
Proof. intros Hm. destruct b; [done|apply extends_ret]. Qed.

Lemma extends_copy src dst : extends (copy copy_ok src dst : M F unit).
Proof. intros st. rewrite copy_run. by exists [Copy src dst]. Qed.

Lemma extends_get_obj l : extends (get_obj l : M F _).
Proof.
  intros st. exists []. unfold get_obj.
  destruct (heap st !! l); simpl; by rewrite app_nil_r.
Qed.

Lemma extends_update_obj l f : extends (update_obj l f : M F unit).
Proof. intros st. exists []. simpl. by rewrite app_nil_r. Qed.

Lemma extends_lookup_global : extends (lookup_global_reneelrun : M F nat).
Proof.
  intros st. exists []. unfold lookup_global_reneelrun.
  destruct (global_reneelrun st); simpl; by rewrite app_nil_r.
Qed.

Create HintDb extends.

Local Hint Resolve extends_ret extends_lift extends_raise extends_emit
  extends_when extends_copy extends_get_obj extends_update_obj
  extends_lookup_global : extends.

Ltac extends_steps :=
  repeat first
    [ solve [auto with extends]
    | apply extends_when
    | apply extends_bind; [|intros ?] ].

Lemma extends_collect_output current_dir output_dir l r keep cmd code tmpdir :
  extends (collect_output fmt copy_ok current_dir output_dir l r keep cmd code tmpdir).
Proof. unfold collect_output. extends_steps. Qed.

(** Collecting the output when the global name [reneelrun] refers to the
    run that was passed: the return code is looked at, a code other than 0
    is logged as a warning, and the partition file is copied in any case. *)
Lemma collect_output_spec current_dir output_dir l r r0 keep cmd code tmpdir st :
  heap st !! l = Some r0 → global_reneelrun st = Some l →
  (∃ post,
     trace (collect_output fmt copy_ok current_dir output_dir l r keep cmd code
              tmpdir st).1
     = trace st ++ events_of_collecting fmt output_dir tmpdir r code ++ post)
  ∧ (copy_ok (partition_path tmpdir r) (output_partition_path fmt output_dir tmpdir r)
     = true →
     (keep = true →
      copy_ok (results_path tmpdir r) (output_results_path fmt output_dir tmpdir r)
      = true) →
     (collect_output fmt copy_ok current_dir output_dir l r keep cmd code tmpdir st).2
     = Ok (partition_path tmpdir r, results_path tmpdir r)).
Proof.
  intros Hheap Hglobal.
  cut (∃ st' res,
         collect_output fmt copy_ok current_dir output_dir l r keep cmd code tmpdir st
         = (st', res)
         ∧ (∃ post, trace st'
                    = trace st ++ events_of_collecting fmt output_dir tmpdir r code
                        ++ post)
         ∧ (copy_ok (partition_path tmpdir r)
              (output_partition_path fmt output_dir tmpdir r) = true →
            (keep = true →
             copy_ok (results_path tmpdir r)
               (output_results_path fmt output_dir tmpdir r) = true) →
            res = Ok (partition_path tmpdir r, results_path tmpdir r))).
  { intros (st' & res & -> & Htrace & Hres). by split. }
  unfold collect_output, events_of_collecting.
  rewrite bind_run. unfold update_obj at 1.
  rewrite bind_run. unfold lookup_global_reneelrun at 1. simpl. rewrite Hglobal.
  rewrite bind_run. unfold get_obj at 1. simpl.
  rewrite lookup_alter_eq, Hheap. simpl.
  rewrite bind_run. unfold lift at 1. simpl.
  rewrite bind_run, when_emit.
  rewrite bind_run. unfold emit at 1.
  rewrite bind_run, copy_run.
  rewrite !add_events_app, if_bool_decide.
  destruct (copy_ok (partition_path tmpdir r) _) eqn:Hcopy.
  - rewrite bind_run. destruct keep; simpl.
    + rewrite bind_run. unfold emit at 1. rewrite copy_run.
      destruct (copy_ok (results_path tmpdir r) _) eqn:Hcopy2; simpl.
      * eexists _, _. split; [reflexivity|]. split; [|done].
        simpl. eexists. rewrite <- !app_assoc. reflexivity.
      * eexists _, _. split; [reflexivity|].
        split; [|intros _ Hk; by specialize (Hk eq_refl)].
        simpl. eexists. rewrite <- !app_assoc. reflexivity.
    + eexists _, _. split; [reflexivity|]. split; [|done].
      simpl. eexists. rewrite <- !app_assoc. reflexivity.
  - eexists _, _. split; [reflexivity|]. split; [|done].
    simpl. exists []. by rewrite app_nil_r.
Qed.

Lemma when_two_emits (b : bool) e1 e2 st :
  when b (emit e1 ≫= λ _, emit e2) st
  = (add_events st (if b then [e1; e2] else []), Ok ()).
Proof.
  destruct b; simpl; [|by rewrite add_events_nil].
  rewrite bind_run. unfold emit. by rewrite add_events_app.
Qed.

(** The whole call, for a run whose input files can be staged. *)
Lemma run_spec current_dir exe output_dir l r keep test_mode n_cpu st :
  let tmpdir := PyStr.path_join current_dir (tmp_name (tmp_count st)) in
  let cmd := command fmt exe test_mode r (per_cpu (rg_ensemble_size r) n_cpu)
               (per_cpu (reneel_ensemble_size r) n_cpu) tmpdir in
  heap st !! l = Some r → n_cpu ≠ 0 → staged copy_ok tmpdir r →
  ∃ st' res,
    run_reneel_and_collect_output fmt is_dir copy_ok subprocess_run tmp_name
      current_dir exe output_dir l keep test_mode n_cpu st = (st', res)
    ∧ (∃ post,
         trace st'
         = trace st ++ events_before_run is_dir output_dir tmpdir r test_mode n_cpu cmd
             ++ [Run cmd] ++ post)
    ∧ (∀ code,
         global_reneelrun st = Some l → subprocess_run cmd = Ok code →
         (∃ post,
            trace st'
            = trace st
                ++ events_before_run is_dir output_dir tmpdir r test_mode n_cpu cmd
                ++ [Run cmd] ++ events_of_collecting fmt output_dir tmpdir r code
                ++ post)
         ∧ (copy_ok (partition_path tmpdir r)
              (output_partition_path fmt output_dir tmpdir r) = true →
            (keep = true →
             copy_ok (results_path tmpdir r)
               (output_results_path fmt output_dir tmpdir r) = true) →
            res = Ok ())).
Proof.
  intros tmpdir cmd Hheap Hn Hstaged.
  unfold run_reneel_and_collect_output.
  rewrite bind_run. unfold get_obj at 1. rewrite Hheap.
  rewrite bind_run. unfold lift at 1, ensemble_per_cpu at 1.
  rewrite decide_False by done.
  rewrite bind_run, when_emit, if_bool_decide.
  rewrite bind_run. unfold lift at 1, ensemble_per_cpu at 1.
  rewrite decide_False by done.
  rewrite bind_run, when_emit, if_bool_decide.
  rewrite bind_run, when_two_emits.
  rewrite !add_events_app.
  rewrite bind_run. unfold with_temporary_directory, in_temporary_directory.
  change (tmp_count (add_events st ?e)) with (tmp_count st).
  fold tmpdir. fold (per_cpu (rg_ensemble_size r) n_cpu).
  fold (per_cpu (reneel_ensemble_size r) n_cpu). fold cmd.
  rewrite bind_run, stage_and_run_spec by done. fold cmd.
  set (before := events_before_run is_dir output_dir tmpdir r test_mode n_cpu cmd).
  set (st_run := add_events (count_temporary (add_events st _)) _).
  assert (trace st_run = trace st ++ before ++ [Run cmd]) as Hrun.
  { subst st_run before. unfold events_before_run, events_of_staging, effective.
    simpl. destruct (is_dir output_dir); simpl;
      repeat (rewrite <- app_assoc; simpl); by rewrite ?app_nil_r. }
  destruct (subprocess_run cmd) as [code|e] eqn:Hsub.
  - destruct (extends_collect_output current_dir output_dir l r keep cmd code
                tmpdir st_run) as [events Hext].
    pose proof (collect_output_spec current_dir output_dir l r r keep cmd code
                  tmpdir st_run Hheap) as Hspec.
    destruct (collect_output _ _ _ _ _ _ _ _ _ _ st_run) as [st2 res2].
    cbn [fst snd] in Hext, Hspec.
    assert (∃ st' res,
              (let (st', r0) := (add_events st2 [Cleanup tmpdir], res2) in
               match r0 with
               | Ok a =>
                   (update_obj l (set_output_files output_dir keep a.1 a.2)
                    ≫= λ _, mret ()) st'
               | Raise e => (st', Raise e)
               end) = (st', res)
              ∧ trace st' = trace st2 ++ [Cleanup tmpdir]
              ∧ (∀ files, res2 = Ok files → res = Ok ()))
      as (st' & res & -> & Htrace & Hres).
    { destruct res2 as [files|e]; eexists _, _; split; try reflexivity; by split. }
    exists st', res. split; [done|]. split.
    + eexists. rewrite Htrace, Hext, Hrun, <- !app_assoc. reflexivity.
    + intros code' Hglobal [= <-].
      destruct (Hspec Hglobal) as [[post Hpost] Hok]. split.
      * rewrite Hrun in Hpost. eexists.
        rewrite Htrace, Hpost, <- !app_assoc. reflexivity.
      * intros Hc1 Hc2. by eapply Hres, Hok.
  - eexists _, _. split; [reflexivity|]. split; [|done].
    change (trace (add_events st_run ?e)) with (trace st_run ++ e).
    eexists. rewrite Hrun, <- !app_assoc. reflexivity.
Qed.

Lemma per_cpu_floor e n_cpu :
  0 < n_cpu → n_cpu ≤ e →
  per_cpu e n_cpu = e `div` n_cpu
  ∧ effective e n_cpu = e `div` n_cpu * n_cpu
  ∧ effective e n_cpu ≤ e
  ∧ (effective e n_cpu ≠ e ↔ e `mod` n_cpu ≠ 0).
Proof.
  intros Hn He. unfold effective, per_cpu.
  assert (1 ≤ e `div` n_cpu) by (apply Z.div_le_lower_bound; lia).
  rewrite Z.max_l by lia.
  pose proof (Z.div_mod e n_cpu ltac:(lia)).
  pose proof (Z.mod_pos_bound e n_cpu Hn). repeat split; nia.
Qed.

Lemma per_cpu_clamped e n_cpu :
  0 < n_cpu → e < n_cpu → per_cpu e n_cpu = 1 ∧ effective e n_cpu = n_cpu.
Proof.
  intros Hn He. unfold effective, per_cpu.
  assert (e `div` n_cpu ≤ 0).
  { destruct (decide (0 ≤ e)); [rewrite Z.div_small; lia|].
    pose proof (Z.div_lt_upper_bound e n_cpu 0 Hn). lia. }
  rewrite Z.max_r by lia. lia.
Qed.

(** C5, as the code has it: the size one process gets is
    [max(e // n, 1)].  With [n <= e] that is the floor [e // n], the run has
    [(e // n) * n <= e] trials in all, and a warning is logged exactly when
    [n] does not divide [e]; with [e < n] every process gets 1 trial and the
    run has [n] trials.  In both cases the run goes on: the executable is
    started with the sizes per process on its command line. *)
Theorem ensemble_size_per_process current_dir exe output_dir l r keep test_mode
    n_cpu st :
  let tmpdir := PyStr.path_join current_dir (tmp_name (tmp_count st)) in
  let cmd := command fmt exe test_mode r (per_cpu (rg_ensemble_size r) n_cpu)
               (per_cpu (reneel_ensemble_size r) n_cpu) tmpdir in
  heap st !! l = Some r → 0 < n_cpu → staged copy_ok tmpdir r →
  (∀ e, ensemble_per_cpu e n_cpu = Ok (per_cpu e n_cpu))
  ∧ (∀ e, n_cpu ≤ e →
       per_cpu e n_cpu = e `div` n_cpu
       ∧ effective e n_cpu = e `div` n_cpu * n_cpu
       ∧ effective e n_cpu ≤ e
       ∧ (effective e n_cpu ≠ e ↔ e `mod` n_cpu ≠ 0))
  ∧ (∀ e, e < n_cpu → per_cpu e n_cpu = 1 ∧ effective e n_cpu = n_cpu)
  ∧ ∃ post,
      trace (run_reneel_and_collect_output fmt is_dir copy_ok subprocess_run
               tmp_name current_dir exe output_dir l keep test_mode n_cpu st).1
      = trace st ++ events_before_run is_dir output_dir tmpdir r test_mode n_cpu cmd
          ++ [Run cmd] ++ post.
Proof.
  intros tmpdir cmd Hheap Hn Hstaged.
  split; [intros e; unfold ensemble_per_cpu; by rewrite decide_False by lia|].
  split; [intros e; by apply per_cpu_floor|].
  split; [intros e; by apply per_cpu_clamped|].
  destruct (run_spec current_dir exe output_dir l r keep test_mode n_cpu st
              Hheap ltac:(lia) Hstaged) as (st' & res & -> & Hpre & _).
  exact Hpre.
Qed.

(** C7: in the loop of the script, where the run object is bound to the
    global name [reneelrun] before it is passed on, a return code other than
    0 is logged as a warning and the partition file is copied next; the
    iteration ends without an exception when the copies succeed. *)
Theorem nonzero_exit_is_not_fatal current_dir a k it seed0 st r code :
  let tmpdir := PyStr.path_join current_dir (tmp_name (tmp_count st)) in
  let cmd := command fmt (arg_reneelpath a) (arg_test a) r
               (per_cpu (rg_ensemble_size r) (arg_nproc a))
               (per_cpu (reneel_ensemble_size r) (arg_nproc a)) tmpdir in
  let out := main_iteration fmt is_dir exists_file copy_ok subprocess_run tmp_name
               current_dir a k it seed0 st in
  new_ReneelRun exists_file it.1.2 seed0 it.1.1 (arg_rg_ensemble_size a)
    (arg_reneel_ensemble_size a) (arg_rg_parameter a) = Ok r →
  arg_nproc a ≠ 0 → staged copy_ok tmpdir r →
  subprocess_run cmd = Ok code → code ≠ 0 →
  (∃ pre post,
     trace out.1
     = pre ++ [Run cmd; Warning_returncode code;
               Debug_copying (partition_path tmpdir r)
                 (output_partition_path fmt (arg_outputdir a) tmpdir r);
               Copy (partition_path tmpdir r)
                 (output_partition_path fmt (arg_outputdir a) tmpdir r)] ++ post)
  ∧ (copy_ok (partition_path tmpdir r)
       (output_partition_path fmt (arg_outputdir a) tmpdir r) = true →
     (arg_keepresults a = true →
      copy_ok (results_path tmpdir r)
        (output_results_path fmt (arg_outputdir a) tmpdir r) = true) →
     out.2 = Ok ()).
Proof.
  intros tmpdir cmd out Hnew Hn Hstaged Hsub Hcode. subst out.
  cut (∃ st' res,
         main_iteration fmt is_dir exists_file copy_ok subprocess_run tmp_name
           current_dir a k it seed0 st = (st', res)
         ∧ (∃ pre post,
              trace st'
              = pre ++ [Run cmd; Warning_returncode code;
                        Debug_copying (partition_path tmpdir r)
                          (output_partition_path fmt (arg_outputdir a) tmpdir r);
                        Copy (partition_path tmpdir r)
                          (output_partition_path fmt (arg_outputdir a) tmpdir r)]
                  ++ post)
         ∧ (copy_ok (partition_path tmpdir r)
              (output_partition_path fmt (arg_outputdir a) tmpdir r) = true →
            (arg_keepresults a = true →
             copy_ok (results_path tmpdir r)
               (output_results_path fmt (arg_outputdir a) tmpdir r) = true) →
            res = Ok ())).
  { intros (st' & res & -> & Htrace & Hres). by split. }
  unfold main_iteration.
  rewrite bind_run. unfold emit at 1.
  rewrite bind_run. unfold lift at 1. rewrite Hnew.
  rewrite bind_run. unfold alloc at 1.
  rewrite bind_run. unfold bind_global_reneelrun at 1.
  cbn [trace heap tmp_count global_reneelrun add_events].
  set (l := fresh (dom (heap st))).
  set (st1 := {| trace := trace st ++ [Info_iteration it.2];
                 heap := <[l := r]> (heap st);
                 global_reneelrun := Some l; tmp_count := tmp_count st |}).
  destruct (run_spec current_dir (arg_reneelpath a) (arg_outputdir a) l r
              (arg_keepresults a) (arg_test a) (arg_nproc a) st1)
    as (st' & res & Hrun & _ & Hcollect);
    [apply lookup_insert_eq|exact Hn|exact Hstaged|].
  destruct (Hcollect code eq_refl Hsub) as [[post Hpost] Hres].
  rewrite bind_run, Hrun. unfold events_of_collecting in Hpost.
  rewrite decide_True in Hpost by done.
  set (before := events_before_run is_dir (arg_outputdir a) tmpdir r (arg_test a)
                   (arg_nproc a) cmd) in Hpost.
  destruct res as [[]|e].
  - eexists _, _. split; [reflexivity|]. split; [|done].
    exists (trace st1 ++ before), (post ++ [Print_logfile k]).
    cbn [trace add_events]. rewrite Hpost, <- !app_assoc. reflexivity.
  - eexists _, _. split; [reflexivity|]. split.
    + exists (trace st1 ++ before), post.
      rewrite Hpost, <- !app_assoc. reflexivity.
    + intros Hc1 Hc2. by specialize (Hres Hc1 Hc2).
Qed.

End run_facts.

(** The function as written depends on that binding: called while the
    name [reneelrun] is unbound, it stops with [NameError] once the
    executable has returned, before anything is copied back. *)
Example unbound_global_raises :
  (small_call imported_state).2 = Raise NameError
  ∧ trace (small_call imported_state).1
    = [Warning_rg_ensemble 8 3 8; Debug_created_temporary "/work/tmpab12";
       Copy "/data/edges.txt" "/work/tmpab12";
       Copy "/data/clean_edges.txt" "/work/tmpab12";
       Copy "/data/degree_edges.txt" "/work/tmpab12";
       Copy "/data/info_edges.txt" "/work/tmpab12";
       Chdir "/work/tmpab12";
       Debug_cmd ["/bin/reneel"; "2"; "1"; "1"; "17"; "0"; "edges.txt"];
       Run ["/bin/reneel"; "2"; "1"; "1"; "17"; "0"; "edges.txt"];
       Cleanup "/work/tmpab12"].
Proof. by vm_compute. Qed.

Lemma small_run_staged : staged (λ _ _, true) "/work/tmpab12" small_run.
Proof. split; [done|]. by repeat constructor. Qed.

Lemma ensemble_size_per_process_witness :
  (∀ e, 8 ≤ e → effective e 8 ≤ e)
  ∧ (∀ e, e < 8 → effective e 8 = 8)
  ∧ ∃ post,
      trace (small_call script_state).1
      = [Warning_rg_ensemble 8 3 8]
          ++ events_of_staging "/work/tmpab12" small_run false small_command
          ++ [Run small_command] ++ post.
Proof.
  destruct (ensemble_size_per_process PyStr.str (λ _, true) (λ _ _, true)
              (λ _, Ok 1) (λ _, "tmpab12") "/work" "/bin/reneel" "/out" 0%nat
              small_run false false 8 script_state eq_refl ltac:(lia)
              small_run_staged) as (_ & Hfloor & Hclamp & Hrun).
  split; [intros e He; by apply Hfloor|].
  split; [intros e He; by apply Hclamp|].
  exact Hrun.
Defined.

Lemma nonzero_exit_is_not_fatal_witness :
  (∃ pre post,
     trace (small_iteration initial_state).1
     = pre ++ [Run small_command; Warning_returncode 1;
               Debug_copying "/work/tmpab12/partition_edges.txt"
                 "/out/partition_edges_17-0-tmpab12.txt";
               Copy "/work/tmpab12/partition_edges.txt"
                 "/out/partition_edges_17-0-tmpab12.txt"] ++ post)
  ∧ (small_iteration initial_state).2 = Ok ().
Proof.
  destruct (nonzero_exit_is_not_fatal PyStr.str (λ _, true) (λ _, true)
              (λ _ _, true) (λ _, Ok 1) (λ _, "tmpab12") "/work" small_arguments
              0%nat (0, "/data/edges.txt", 0) 17 initial_state small_run 1
              eq_refl ltac:(discriminate) small_run_staged eq_refl
              ltac:(discriminate)) as [Htrace Hres].
  split; [exact Htrace|]. apply Hres; [reflexivity|discriminate].
Defined.

(** The script on that command line: one iteration, whose events are those
    of the call between the two records of the loop. *)
Example small_main_trace :
  small_main.2 = Ok ()
  ∧ trace small_main.1 = [Info_iteration 0] ++ small_trace ++ [Print_logfile 0].
Proof. by vm_compute. Qed.

(** C5 as stated fails when fewer trials are asked for than there are
    processors: 3 trials on 8 processors run as 8 trials, not as the floor
    [(3 // 8) * 8 = 0], and 8 is more than 3. *)
Lemma three_trials_on_eight_processors :
  ensemble_per_cpu 3 8 = Ok 1
  ∧ 3 `mod` 8 ≠ 0
  ∧ effective 3 8 = 8
  ∧ effective 3 8 ≠ 3 `div` 8 * 8
  ∧ ¬ effective 3 8 ≤ 3
  ∧ trace (small_call script_state).1 = small_trace.
Proof. repeat split; by vm_compute. Qed.

End RunFacts.

(** ** [get_available_clustering] *)

Module DataFacts.
Import Data DataSpec.

Lemma unpack3_raises {A} (l : list A) e : Py.unpack3 l = Raise e → e = ValueError.
Proof. destruct l as [|? [|? [|? [|]]]]; simpl; congruence. Qed.

Lemma int_raises s e : PyStr.int s = Raise e → e = ValueError.
Proof.
  unfold PyStr.int. intros Hr.
  match type of Hr with
  | (let '(_, _) := ?p in _) = _ => destruct p as [neg body]
  end.
  cbn beta iota in Hr. destruct (PyStr.nat_literal body); by simplify_eq.
Qed.

Section data_facts.
Context {F : Type} `{EqDecision F}.
Variable float_of : string → option F.
Variable float_leb : F → F → bool.

Lemma seed_chi_id_raises suffix e :
  seed_chi_id float_of suffix = Raise e → e = ValueError.
Proof.
  unfold seed_chi_id.
  destruct (Py.unpack3 _) as [[[s c] t]|e0] eqn:Hu; simpl.
  - destruct (PyStr.int s) as [n|e1] eqn:Hi; simpl.
    + unfold float. destruct (float_of c); simpl; intros ?; by simplify_eq.
    + intros [= <-]. by eapply int_raises.
  - intros [= <-]. by eapply unpack3_raises.
Qed.

(** The loop never raises, and keeps the rows of the names that parse. *)
Lemma collect_available_spec clustering_dir files :
  ∀ available,
    collect_available float_of clustering_dir files available
    = Ok (available ++ omap (row_of_name float_of clustering_dir) files).
Proof.
  induction files as [|f rest IH]; intros available.
  { simpl. by rewrite app_nil_r. }
  simpl. unfold row_of_name at 1.
  destruct (Py.unpack3 (_get_filename_parts f)) as [[[prefix name0] suffix]|e] eqn:Hu.
  - destruct (seed_chi_id float_of suffix) as [[[seed0 chi0] tmp]|e] eqn:Hs.
    + rewrite IH. simpl. by rewrite <- app_assoc.
    + rewrite (seed_chi_id_raises _ _ Hs). apply IH.
  - rewrite (unpack3_raises _ _ Hu). apply IH.
Qed.

Lemma unpack3_Ok {A} (l : list A) a b c :
  Py.unpack3 l = Ok (a, b, c) ↔ l = [a; b; c].
Proof.
  destruct l as [|? [|? [|? [|]]]]; simpl; split; intros Hl; by simplify_eq.
Qed.

Lemma row_of_name_parses clustering_dir f row :
  row_of_name float_of clustering_dir f = Some row
  ↔ parses float_of clustering_dir f row.
Proof.
  unfold row_of_name, parses, seed_chi_id, float. split.
  - destruct (Py.unpack3 (_get_filename_parts f)) as [[[prefix name0] suffix]|e] eqn:Hu;
      [|done].
    destruct (Py.unpack3 (PyStr.split_sep _ _ suffix)) as [[[s c] t]|e] eqn:Hs;
      [|done].
    simpl. destruct (PyStr.int s) as [n|e] eqn:Hi; [|done].
    simpl. destruct (float_of c) as [x|] eqn:Hf; [|done].
    simpl. intros [= <-]. simpl.
    apply unpack3_Ok in Hu, Hs. by exists prefix, suffix, s, c.
  - intros (prefix & suffix & s & c & Hu & Hs & Hi & Hf & Hfile).
    apply unpack3_Ok in Hu, Hs. rewrite Hu, Hs. simpl. rewrite Hi. simpl.
    rewrite Hf. simpl. destruct row; simpl in *. by rewrite Hfile.
Qed.

(** C10: [get_available_clustering] returns for every listing; its rows are
    those of the listed files that start with [partition] and parse under
    [type_name_seed-chi-id], so each row has a seed that [int] read and a
    chi that [float] read, and a file that does not parse has no row. *)
Theorem get_available_clustering_never_raises clustering_dir listing :
  ∃ rows,
    get_available_clustering float_of float_leb clustering_dir listing = Ok rows
    ∧ (∀ row, row ∈ rows
              ↔ ∃ f, f ∈ listing ∧ String.prefix "partition" f = true
                     ∧ parses float_of clustering_dir f row)
    ∧ (∀ f, (∀ row, ¬ parses float_of clustering_dir f row) →
            ∀ row, row ∈ rows → file row ≠ PyStr.path_join clustering_dir f).
Proof.
  unfold get_available_clustering. rewrite collect_available_spec. simpl.
  eexists. split; [reflexivity|].
  assert (∀ row,
            row ∈ merge_sort (row_le float_leb)
                    (omap (row_of_name float_of clustering_dir)
                       (List.filter (String.prefix "partition") listing))
            ↔ ∃ f, f ∈ listing ∧ String.prefix "partition" f = true
                   ∧ parses float_of clustering_dir f row) as Hrows.
  { intros row. rewrite merge_sort_Permutation, list_elem_of_omap.
    split.
    - intros (f & Hin & Hrow). apply list_elem_of_In, filter_In in Hin as [Hin Hp].
      exists f. split; [by apply list_elem_of_In|]. split; [done|].
      by apply row_of_name_parses.
    - intros (f & Hin & Hp & Hrow). exists f. split.
      + apply list_elem_of_In, filter_In. split; [by apply list_elem_of_In|done].
      + by apply row_of_name_parses. }
  split; [exact Hrows|].
  intros f Hf row (f' & _ & _ & Hrow)%Hrows Hfile.
  assert (f' = f) as ->; [|by eapply Hf].
  destruct Hrow as (_ & _ & _ & _ & _ & _ & _ & _ & Hfile').
  rewrite Hfile in Hfile'. unfold PyStr.path_join in Hfile'.
  destruct (decide (clustering_dir = "")); [done|].
  by do 2 apply (inj (String.app _)) in Hfile'.
Qed.

End data_facts.

(** On a listing with one well-named file among six others, the table has
    the one row. *)
Example mixed_listing_rows :
  get_available_clustering whole_float Z.leb "/res" mixed_listing
  = Ok [{| name := "web"; chi := 2; seed := 17; id := "tmpab12";
           file := "/res/partition_web_17-2-tmpab12.txt" |}].
Proof. reflexivity. Qed.

End DataFacts.

(** ** The loaders *)

Module LoaderFacts.
Import Pandas LoaderSpec.

Lemma elem_of_union_index a b x : x ∈ union_index a b ↔ x ∈ a ∨ x ∈ b.
Proof.
  unfold union_index.
  by rewrite merge_sort_Permutation, elem_of_remove_dups, elem_of_app.
Qed.

Section loader_facts.
Context {F : Type} `{EqDecision F}.
Variable fmt : F → string.
Variable float_of : string → option F.
Variable float_eqb : F → F → bool.
Variable float_leb : F → F → bool.

Implicit Types d : DataFrame F.

Lemma elem_of_concat_index (parts : list (DataFrame F)) x :
  x ∈ foldr union_index [] (index <$> parts) ↔ ∃ p, p ∈ parts ∧ x ∈ index p.
Proof.
  induction parts as [|q parts IH]; simpl.
  - split; [by intros ?%elem_of_nil|]. by intros (p & ?%elem_of_nil & _).
  - rewrite elem_of_union_index, IH. split.
    + intros [Hx|(p & Hp & Hx)]; [exists q; split; [by left|done]|].
      exists p. split; [by right|done].
    + intros (p & [->|Hp]%elem_of_cons & Hx); [by left|]. right. by exists p.
Qed.

Lemma fillna_column_spec d col v d' :
  fillna_column d col v = Ok d' →
  col ∈ columns d ∧ index d' = index d ∧ columns d' = columns d
  ∧ ∀ r c, cell d' r c = if decide (c = col ∧ r ∈ index d)
                         then Some (default v (cell d r c))
                         else cell d r c.
Proof.
  unfold fillna_column. destruct (decide (col ∈ columns d)); [|done].
  intros [= <-]. by repeat split.
Qed.

Lemma side_cell_absent ov suffix d r c :
  r ∉ index d → default None (side_cell fmt ov suffix d r c) = None.
Proof.
  intros Hr. unfold side_cell. destruct (List.find _ _); [|done].
  simpl. by rewrite decide_False.
Qed.

Lemma side_cell_no_column ov suffix d r c :
  c ∉ rename fmt ov suffix <$> columns d → side_cell fmt ov suffix d r c = None.
Proof.
  intros Hc. unfold side_cell.
  destruct (List.find _ _) as [c0|] eqn:Hfind; [|done].
  apply find_some in Hfind as [Hin Heq]. apply bool_decide_eq_true in Heq.
  destruct Hc. apply list_elem_of_fmap. exists c0. split; [done|].
  by apply list_elem_of_In.
Qed.

Lemma concat_columns_spec (parts : list (DataFrame F)) d :
  concat_columns parts = Ok d →
  (∀ x, x ∈ index d ↔ ∃ p, p ∈ parts ∧ x ∈ index p)
  ∧ (∀ p c x, List.find (λ q, bool_decide (c ∈ columns q)) parts = Some p →
              x ∉ index p → cell d x c = None).
Proof.
  unfold concat_columns. destruct parts as [|q parts]; [done|].
  intros [= <-]. split.
  - intros x. apply (elem_of_concat_index (q :: parts)).
  - intros p c x Hfind Hx. simpl in *. rewrite Hfind. by rewrite decide_False.
Qed.

(** C4, as the code has it: both loaders join on the node id, so the
    result has the nodes of either side.  [load_partition] then fills with 0
    the missing entries of one column, the one named [chi_stem] if the join
    made it and else [chi]; when that is not a column of the existing table,
    it holds 0 for every node the new partition lacks.
    [load_selected_runs] fills nothing: the entries of a column for the
    nodes that its partition lacks are missing. *)
Theorem outer_join_and_fill :
  (∀ key_content partition_content file_stem chi existing merged,
     FormatEdgelist.load_partition fmt key_content partition_content file_stem chi
       (Some existing) = Ok merged →
     ∃ df,
       FormatEdgelist.load_partition fmt key_content partition_content file_stem
         chi None = Ok df
       ∧ let joined := merge_outer fmt existing df "" ("_" +:+ file_stem) in
         let col := FormatEdgelist.filled_column fmt file_stem chi joined in
         (∀ x, x ∈ index merged ↔ x ∈ index existing ∨ x ∈ index df)
         ∧ col ∈ columns merged
         ∧ (∀ x, x ∈ index merged → is_Some (cell merged x col))
         ∧ ((col ∉ rename fmt (overlap existing df) "" <$> columns existing) →
            ∀ x, x ∈ index merged → x ∉ index df → cell merged x col = Some 0))
  ∧ (∀ fs listing selected_runs preprocessed_dir clustering_dir ext d,
       Data.load_selected_runs float_of float_eqb float_leb fs listing
         selected_runs preprocessed_dir clustering_dir ext = Ok d →
       ∃ parts,
         concat_columns parts = Ok d
         ∧ (∀ x, x ∈ index d ↔ ∃ p, p ∈ parts ∧ x ∈ index p)
         ∧ (∀ p c x,
              List.find (λ q, bool_decide (c ∈ columns q)) parts = Some p →
              x ∉ index p → cell d x c = None)).
Proof.
  split.
  - intros key_content partition_content file_stem chi existing merged.
    unfold FormatEdgelist.load_partition.
    destruct (FormatEdgelist.partition_frame _ _ _) as [df|e]; [|done].
    simpl. intros Hfill. exists df. split; [done|].
    apply fillna_column_spec in Hfill as (Hcol & Hindex & Hcolumns & Hcell).
    set (joined := merge_outer fmt existing df "" ("_" +:+ file_stem)) in *.
    set (col := FormatEdgelist.filled_column fmt file_stem chi joined) in *.
    assert (∀ x, x ∈ index merged ↔ x ∈ index existing ∨ x ∈ index df) as Hjoin.
    { intros x. rewrite Hindex. apply elem_of_union_index. }
    split; [exact Hjoin|]. split; [by rewrite Hcolumns|]. split.
    + intros x Hx. rewrite Hcell, decide_True; [done|].
      split; [done|]. by rewrite <- Hindex.
    + intros Hnew x Hx Hdf. rewrite Hcell, decide_True;
        [|split; [done|]; by rewrite <- Hindex].
      f_equal. subst joined. cbn [cell merge_outer].
      rewrite side_cell_no_column by done.
      by rewrite side_cell_absent.
  - intros fs listing selected_runs preprocessed_dir clustering_dir ext d.
    unfold Data.load_selected_runs.
    destruct (Data.get_available_clustering _ _ _ _) as [available|e]; [|done].
    simpl. destruct (Py.for_each _ _) as [parts|e]; [|done].
    simpl. intros Hconcat. exists (mjoin parts). split; [done|].
    by apply concat_columns_spec.
Qed.

End loader_facts.

(** C4 as stated fails.  Merging the partition of node 2 into the table of
    node 1 leaves the entry of node 2 in the column of the table missing;
    only the new column is filled.  Concatenating the two tables, and
    loading two runs of which one stops after the first node, leaves the
    entries of the absent nodes missing. *)
Lemma absent_nodes_are_left_missing :
  match FormatEdgelist.load_partition PyStr.str other_key other_partition "g"
          (Lstr "0.5") (Some existing_table) with
  | Ok merged =>
      index existing_table = [1] ∧ index other_table = [2]
      ∧ index merged = [1; 2] ∧ columns merged = [Lstr "0.0"; Lstr "0.5"]
      ∧ cell merged 1 (Lstr "0.0") = Some 5 ∧ cell merged 1 (Lstr "0.5") = Some 0
      ∧ cell merged 2 (Lstr "0.0") = None ∧ cell merged 2 (Lstr "0.5") = Some 7
  | Raise _ => False
  end
  ∧ match concat_columns [existing_table; other_table] with
    | Ok d =>
        index d = [1; 2] ∧ columns d = [Lstr "0.0"; Lstr "0.5"]
        ∧ cell d 2 (Lstr "0.0") = None ∧ cell d 1 (Lstr "0.5") = None
    | Raise _ => False
    end
  ∧ match Data.load_selected_runs DataSpec.whole_float Z.eqb Z.leb run_files
            run_listing run_selection "/pre" "/res" "txt" with
    | Ok d =>
        index d = [10; 20] ∧ columns d = [Lpair 2 17; Lpair 2 18]
        ∧ cell d 20 (Lpair 2 17) = Some 1 ∧ cell d 20 (Lpair 2 18) = None
    | Raise _ => False
    end.
Proof. by vm_compute. Qed.

Lemma outer_join_and_fill_witness :
  FormatEdgelist.load_partition PyStr.str other_key other_partition "g"
    (Lstr "0.5") (Some existing_table) = Ok merged_table
  ∧ (∀ x, x ∈ index merged_table ↔ x ∈ index existing_table ∨ x ∈ index other_table)
  ∧ cell merged_table 1 (Lstr "0.5") = Some 0.
Proof.
  split; [reflexivity|].
  destruct (proj1 (outer_join_and_fill PyStr.str DataSpec.whole_float Z.eqb Z.leb)
              other_key other_partition "g" (Lstr "0.5") existing_table
              merged_table eq_refl) as (df & Hdf & Hjoin & _ & _ & Hzero).
  change (Ok other_table = Ok df) in Hdf. injection Hdf as <-.
  split; [exact Hjoin|].
  apply (Hzero ltac:(by apply (bool_decide_unpack _)) 1
           ltac:(by apply (bool_decide_unpack _))
           ltac:(by apply (bool_decide_unpack _))).
Defined.

End LoaderFacts.

(** ** The graph that [read_graph] returns *)

Module GraphFacts.
Import FormatEdgelist EdgelistSpec GraphSpec EdgelistFacts.

Section graph_facts.
Context {V : Type} `{Countable V}.
Variable node_lt : V → V → bool.
Variable convert : string → result V.
Variable weight_convert : string → result Z.
Variable sep : option string.
Variable skip : Z.
Variable directed : bool.
Variables u_col v_col w_col : Z.

Lemma size_union_le `{Countable A} (X Y : gset A) :
  (size (X ∪ Y) ≤ size X + size Y)%nat.
Proof.
  rewrite size_union_alt. apply Nat.add_le_mono_l, subseteq_size.
  intros x Hx. apply elem_of_difference in Hx. tauto.
Qed.

Lemma add_edge_well_formed (g : graph V) a b w :
  a ≠ b → well_formed_graph g → well_formed_graph (add_edge g a b w).
Proof.
  intros Hab (Hd & He & Hn & Hp & Hs).
  unfold well_formed_graph, add_edge, add_to. simpl.
  rewrite <- !size_dom, !dom_insert_L. split_and!.
  - by rewrite Hd.
  - intros x y. rewrite !elem_of_union, !elem_of_singleton. intros [Hxy|Hxy].
    + simplify_eq. tauto.
    + destruct (He x y Hxy) as (? & ? & ?). tauto.
  - intros v. rewrite !elem_of_union, !elem_of_singleton. intros [->|[->|Hv]].
    + exists a, b. rewrite elem_of_union, elem_of_singleton. auto.
    + exists a, b. rewrite elem_of_union, elem_of_singleton. auto.
    + destruct (Hn v Hv) as (x & y & Hxy & Hv'). exists x, y.
      rewrite elem_of_union. auto.
  - assert (∀ (d : gmap V Z) k, (∀ v x, d !! v = Some x → 1 ≤ x) → 0 ≤ get0 d k) as Hget.
    { intros d k Hd'. unfold get0. destruct (d !! k) as [x|] eqn:Hk; simpl; [|lia].
      specialize (Hd' _ _ Hk). lia. }
    intros v d. rewrite !lookup_insert.
    pose proof (Hget (degrees g) a Hp). pose proof (Hget (degrees g) b Hp).
    unfold get0 at 1. rewrite lookup_insert_ne by done.
    fold (get0 (degrees g) b).
    repeat case_decide; intros ?; simplify_eq; try lia. by eapply Hp.
  - rewrite <- !size_dom in Hs.
    destruct (decide ((a, b) ∈ dom (edges g))) as [Hin|Hin].
    + destruct (He a b Hin) as (_ & Ha & Hb).
      replace ({[b]} ∪ ({[a]} ∪ dom (nodes g))) with (dom (nodes g)).
      * assert (size (dom (edges g)) ≤ size ({[(a, b)]} ∪ dom (edges g)))%nat.
        { apply subseteq_size. intros x Hx. rewrite elem_of_union. auto. }
        lia.
      * apply set_eq. intros x. rewrite !elem_of_union, !elem_of_singleton.
        split; [auto|]. by intros [->|[->|?]].
    + rewrite (size_union {[(a, b)]}), size_singleton.
      * pose proof (size_union_le {[b]} ({[a]} ∪ dom (nodes g))) as H1.
        pose proof (size_union_le {[a]} (dom (nodes g))) as H2.
        rewrite !size_singleton in *. lia.
      * intros x Hx%elem_of_singleton Hx'. by subst.
Qed.

Lemma empty_graph_well_formed : well_formed_graph (empty_graph (V := V)).
Proof.
  unfold well_formed_graph, empty_graph. simpl. rewrite !dom_empty_L.
  split_and!; done.
Qed.

(** The loop keeps a well-formed graph well formed. *)
Lemma read_lines_well_formed lines n log g log' g' :
  well_formed_graph g →
  read_lines node_lt convert weight_convert sep skip directed u_col v_col w_col
    n lines log g = (log', Returned g') →
  well_formed_graph g'.
Proof.
  intros Hg Hr.
  apply (read_lines_invariant node_lt convert weight_convert sep skip directed
           u_col v_col w_col well_formed_graph
           (λ g0 u v w Huv Hg0, add_edge_well_formed g0 u v w Huv Hg0)
           lines n log g log' g' Hg Hr).
Qed.

(** X1: a graph returned by [read_graph] is well formed: [degrees] has the
    keys of [nodes], every edge joins two different nodes that are keys of
    [nodes], every node is an endpoint of an edge, no degree is below one,
    and the number of nodes is at most twice the number of edges. *)
Theorem read_graph_well_formed content log g :
  read_graph node_lt convert weight_convert sep skip directed u_col v_col w_col
    content = (log, Returned g) →
  well_formed_graph g.
Proof.
  intros Hr. unfold read_graph in Hr.
  eapply (read_lines_invariant node_lt convert weight_convert sep skip directed
            u_col v_col w_col well_formed_graph); [|apply empty_graph_well_formed|exact Hr].
  intros g0 u v w Huv Hg. by apply add_edge_well_formed.
Qed.

(** The keys of [edges] after adding a list of edges *)
Lemma dom_edges_add_edges es :
  ∀ (g : graph V) p,
    p ∈ dom (edges (add_edges g es)) ↔ p ∈ dom (edges g) ∨ p ∈ es.*1.
Proof.
  induction es as [|[[a b] w] es IH]; intros g p.
  { simpl. split; [by left|]. intros [?|Hin]; [done|]. by apply elem_of_nil in Hin. }
  change (add_edges g (((a, b), w) :: es))
    with (add_edges (add_edge g a b w) es).
  rewrite IH. unfold add_edge, add_to. simpl. rewrite dom_insert_L.
  rewrite elem_of_union, elem_of_singleton, elem_of_cons. split.
  - intros [[->|?]|?]; auto.
  - intros [?|[->|?]]; auto.
Qed.

Lemma accepted_undirected_ordered ts e :
  e ∈ accepted node_lt false ts →
  node_lt e.1.2 e.1.1 = true ∧ node_lt e.1.1 e.1.2 = false.
Proof.
  unfold accepted. intros (t & _ & Ht)%list_elem_of_omap.
  destruct (decide _) as [Hne|]; [|done]. simplify_eq. revert Hne.
  unfold canonical, py_max, py_min. simpl.
  destruct (node_lt t.1.1 t.1.2) eqn:H1, (node_lt t.1.2 t.1.1) eqn:H2; simpl;
    intros Hne; try done; by rewrite ?H1, ?H2.
Qed.

(** X2: read with [directed=False], every key [(a, b)] of [edges] has
    [b < a] and not [a < b]; so no edge is stored together with its
    reverse.  Nothing is assumed of the order. *)
Theorem undirected_edges_are_ordered content log g a b :
  read_graph node_lt convert weight_convert sep skip false u_col v_col w_col
    content = (log, Returned g) →
  (a, b) ∈ dom (edges g) →
  node_lt b a = true ∧ node_lt a b = false ∧ (b, a) ∉ dom (edges g).
Proof.
  intros Hr. unfold read_graph in Hr. apply read_lines_returned in Hr as ->.
  assert (∀ x y, (x, y) ∈ dom (edges (add_edges (empty_graph (V := V))
                   (accepted node_lt false
                      (triples convert weight_convert sep u_col v_col w_col
                         (PyStr.slice_from (PyStr.readlines content) skip)))))
                 → node_lt y x = true ∧ node_lt x y = false) as Hord.
  { intros x y [Hin|Hin]%dom_edges_add_edges.
    - simpl in Hin. rewrite dom_empty_L in Hin. by apply not_elem_of_empty in Hin.
    - apply list_elem_of_fmap in Hin as (e & He & Hin).
      apply accepted_undirected_ordered in Hin. by rewrite <- He in Hin. }
  intros Hab. destruct (Hord a b Hab) as [H1 H2]. split_and!; [done..|].
  intros Hba. destruct (Hord b a Hba) as [H3 _]. congruence.
Qed.

Lemma incident_cons v a b w (es : list (V * V * Z)) :
  incident v ((a, b, w) :: es)
  = if decide (a = v ∨ b = v) then (a, b, w) :: incident v es else incident v es.
Proof. unfold incident. by rewrite filter_cons. Qed.

Lemma nodes_degrees_add_edges es :
  Forall (λ e : V * V * Z, e.1.1 ≠ e.1.2) es →
  ∀ (g : graph V) v,
    get0 (nodes (add_edges g es)) v
    = get0 (nodes g) v + sum_list (incident v es).*2
    ∧ get0 (degrees (add_edges g es)) v
      = get0 (degrees g) v + Z.of_nat (length (incident v es)).
Proof.
  induction 1 as [|[[a b] w] es Hab _ IH]; intros g v.
  { simpl. lia. }
  change (add_edges g (((a, b), w) :: es))
    with (add_edges (add_edge g a b w) es).
  destruct (IH (add_edge g a b w) v) as [-> ->].
  rewrite incident_cons. unfold add_edge. simpl in *.
  rewrite !get0_add_to.
  repeat case_decide; simplify_eq; try (exfalso; intuition congruence);
    rewrite ?fmap_cons; simpl length; simpl sum_list; lia.
Qed.

Lemma accepted_no_loop ts :
  Forall (λ e : V * V * Z, e.1.1 ≠ e.1.2) (accepted node_lt directed ts).
Proof.
  apply Forall_forall. intros e (t & _ & Ht)%list_elem_of_omap.
  cbv zeta in Ht. destruct (decide _) as [Hne|]; [|done]. by simplify_eq.
Qed.

(** X3: in the graph that [read_graph] returns, [nodes[v]] is the sum of
    the weights of the lines that are no self-loops and have [v] as an
    endpoint, [degrees[v]] is the number of these lines (a pair that
    several lines give is counted once for each line), and [v] is a key of
    [nodes] exactly when there is such a line. *)
Theorem node_weight_and_degree content log g v :
  read_graph node_lt convert weight_convert sep skip directed u_col v_col w_col
    content = (log, Returned g) →
  get0 (nodes g) v
  = sum_list (incident v (accepted node_lt directed
       (triples convert weight_convert sep u_col v_col w_col
          (PyStr.slice_from (PyStr.readlines content) skip)))).*2
  ∧ get0 (degrees g) v
    = Z.of_nat (length (incident v (accepted node_lt directed
        (triples convert weight_convert sep u_col v_col w_col
           (PyStr.slice_from (PyStr.readlines content) skip)))))
  ∧ (v ∈ dom (nodes g)
     ↔ incident v (accepted node_lt directed
         (triples convert weight_convert sep u_col v_col w_col
            (PyStr.slice_from (PyStr.readlines content) skip))) ≠ []).
Proof.
  intros Hr. unfold read_graph in Hr. apply read_lines_returned in Hr as ->.
  set (es := accepted _ _ _).
  destruct (nodes_degrees_add_edges es (accepted_no_loop _) (empty_graph (V := V)) v)
    as [Hn Hd].
  split; [exact Hn|]. split; [exact Hd|].
  rewrite (nodes_add_edges node_lt). simpl. rewrite dom_empty_L. unfold incident. split.
  - intros [Hx|(e & Hin & Hx)]; [by apply not_elem_of_empty in Hx|].
    intros Hnil.
    assert (e ∈ filter (λ e : V * V * Z, e.1.1 = v ∨ e.1.2 = v) es) as Hf.
    { apply list_elem_of_filter. split; [|done]. destruct Hx; auto. }
    rewrite Hnil in Hf. by apply elem_of_nil in Hf.
  - intros Hne. right.
    destruct (filter _ es) as [|e l] eqn:Hf; [done|].
    assert (e ∈ filter (λ e : V * V * Z, e.1.1 = v ∨ e.1.2 = v) es) as Hin.
    { rewrite Hf. apply elem_of_cons. by left. }
    apply list_elem_of_filter in Hin as [Hv Hin]. exists e. split; [done|].
    destruct Hv; auto.
Qed.

Lemma add_to_comm `{Countable K} (d : gmap K Z) k1 w1 k2 w2 :
  add_to k1 w1 (add_to k2 w2 d) = add_to k2 w2 (add_to k1 w1 d).
Proof.
  apply map_eq. intros j. unfold add_to, get0. rewrite !lookup_insert.
  repeat case_decide; simplify_eq; try done. simpl. f_equal. lia.
Qed.

Lemma add_edge_comm (g : graph V) a b w a' b' w' :
  add_edge (add_edge g a b w) a' b' w' = add_edge (add_edge g a' b' w') a b w.
Proof.
  unfold add_edge. simpl. f_equal.
  - rewrite (add_to_comm _ a' w' b w), (add_to_comm _ a' w' a w).
    by rewrite (add_to_comm _ b' w' b w), (add_to_comm _ b' w' a w).
  - rewrite (add_to_comm _ a' 1 b 1), (add_to_comm _ a' 1 a 1).
    by rewrite (add_to_comm _ b' 1 b 1), (add_to_comm _ b' 1 a 1).
  - apply add_to_comm.
Qed.

Lemma add_edges_Permutation es es' :
  es ≡ₚ es' → ∀ g : graph V, add_edges g es = add_edges g es'.
Proof.
  induction 1 as [|e es es' _ IH|e1 e2 es|es1 es2 es3 _ IH1 _ IH2]; intros g.
  - done.
  - apply IH.
  - unfold add_edges. simpl. by rewrite add_edge_comm.
  - by rewrite IH1.
Qed.

Lemma read_lines_returned_well_formed lines :
  ∀ n log g log' g',
    read_lines node_lt convert weight_convert sep skip directed u_col v_col w_col
      n lines log g = (log', Returned g') →
    Forall (well_formed convert weight_convert sep u_col v_col w_col) lines.
Proof.
  induction lines as [|line rest IH]; intros n log g log' g' Hr; [done|].
  simpl in Hr. unfold read_line in Hr. constructor.
  - unfold well_formed, blank, line_triple.
    destruct (decide (PyStr.strip line = "")); [by left|]. right.
    destruct (fields _ _ _ _ line) as [f|ex]; [|done]. simpl.
    by destruct (converted _ _ f) as [[[u v] w]|ex].
  - destruct (decide (PyStr.strip line = "")); [by eapply IH|].
    destruct (fields _ _ _ _ line) as [f|ex]; [|done].
    destruct (converted _ _ f) as [[[u v] w]|ex]; [|done].
    destruct (canonical node_lt directed u v) as [a b].
    destruct (decide (a ≠ b)); by eapply IH.
Qed.

(** X4: with weights that are integers ([--wtype int], the default) the
    graph does not depend on the order of the lines: when the lines of one
    file are those of another in some order and reading the first returns
    a graph, reading the second returns a graph with the same entries of
    [nodes], [degrees] and [edges]. *)
Theorem line_order_does_not_matter content content' log g :
  PyStr.slice_from (PyStr.readlines content) skip
    ≡ₚ PyStr.slice_from (PyStr.readlines content') skip →
  read_graph node_lt convert weight_convert sep skip directed u_col v_col w_col
    content = (log, Returned g) →
  ∃ log',
    read_graph node_lt convert weight_convert sep skip directed u_col v_col w_col
      content' = (log', Returned g).
Proof.
  unfold read_graph. intros Hp Hr.
  pose proof (read_lines_returned_well_formed _ _ _ _ _ _ Hr) as Hwf.
  apply read_lines_returned in Hr as ->.
  rewrite Hp in Hwf.
  destruct (read_lines_prefix node_lt convert weight_convert sep skip directed
              u_col v_col w_col _ Hwf 1 [Info_reading skip sep] empty_graph)
    as (log1 & g1 & _ & Hrest).
  specialize (Hrest []). rewrite app_nil_r in Hrest. simpl in Hrest.
  exists log1. rewrite Hrest. f_equal. f_equal.
  apply read_lines_returned in Hrest as ->.
  apply add_edges_Permutation. unfold accepted, triples.
  by rewrite Hp.
Qed.

End graph_facts.

Lemma readlines_lines_text hs body :
  Forall (λ h, PyStr.all_chars PyStr.no_line_end h = true) hs →
  PyStr.readlines (PyStr.lines_text hs +:+ body)
  = ((λ h, h +:+ String "010" "") <$> hs) ++ PyStr.readlines body.
Proof.
  unfold PyStr.readlines. induction 1 as [|h hs Hh _ IH]; [done|].
  change (PyStr.lines_text (h :: hs))
    with (h +:+ String "010" (PyStr.lines_text hs)).
  rewrite PyStrFacts.app_assoc, PyStrFacts.app_cons.
  rewrite PyStrFacts.readlines_go_line by done. by rewrite IH.
Qed.

Lemma read_lines_outcome_skip {V : Type} `{Countable V} (node_lt : V → V → bool)
    convert weight_convert sep directed u_col v_col w_col skip skip' lines :
  ∀ n n' log log' g,
    (read_lines node_lt convert weight_convert sep skip directed u_col v_col w_col
       n lines log g).2
    = (read_lines node_lt convert weight_convert sep skip' directed u_col v_col
         w_col n' lines log' g).2.
Proof.
  induction lines as [|line rest IH]; intros n n' log log' g; [done|].
  simpl. unfold read_line.
  destruct (decide (PyStr.strip line = "")); [apply IH|].
  destruct (fields _ _ _ _ line) as [f|ex]; [|done].
  destruct (converted _ _ f) as [[[u v] w]|ex]; [|done].
  destruct (canonical node_lt directed u v) as [a b].
  destruct (decide (a ≠ b)); apply IH.
Qed.

(** X5: [skip] drops a header: reading a file that starts with [n] header
    lines with [skip = n] ends as reading the rest of the file with
    [skip = 0] does (the same graph, the same exit or the same exception),
    whatever the header lines hold. *)
Theorem skip_drops_the_header {V : Type} `{Countable V} (node_lt : V → V → bool)
    convert weight_convert sep directed u_col v_col w_col hs body :
  Forall (λ h, PyStr.all_chars PyStr.no_line_end h = true) hs →
  (read_graph node_lt convert weight_convert sep (Z.of_nat (length hs)) directed
     u_col v_col w_col (PyStr.lines_text hs +:+ body)).2
  = (read_graph node_lt convert weight_convert sep 0 directed u_col v_col w_col
       body).2.
Proof.
  intros Hhs. unfold read_graph. rewrite readlines_lines_text by done.
  unfold PyStr.slice_from. rewrite decide_False by lia.
  rewrite decide_False by lia. rewrite Nat2Z.id. simpl (Z.to_nat 0).
  rewrite drop_0.
  rewrite drop_app_length' by (by rewrite length_fmap).
  apply read_lines_outcome_skip.
Qed.

(** The witnesses use a triangle with one edge given twice. *)
Lemma read_graph_well_formed_witness :
  example_read_graph triangle_file = (triangle_log, Returned triangle_graph)
  ∧ well_formed_graph triangle_graph.
Proof.
  split; [reflexivity|].
  apply (read_graph_well_formed Z.ltb PyStr.int PyStr.int None 0 false 0 1 2
           triangle_file triangle_log triangle_graph).
  reflexivity.
Defined.

Lemma undirected_edges_are_ordered_witness :
  example_read_graph triangle_file = (triangle_log, Returned triangle_graph)
  ∧ (30, 10) ∈ dom (edges triangle_graph)
  ∧ (10 <? 30) = true ∧ (30 <? 10) = false ∧ (10, 30) ∉ dom (edges triangle_graph).
Proof.
  assert ((30, 10) ∈ dom (edges triangle_graph)) as Hin.
  { apply elem_of_dom. by exists 5. }
  split; [reflexivity|]. split; [exact Hin|].
  apply (undirected_edges_are_ordered Z.ltb PyStr.int PyStr.int None 0 0 1 2
           triangle_file triangle_log triangle_graph 30 10);
    [reflexivity|exact Hin].
Defined.

Lemma node_weight_and_degree_witness :
  example_read_graph triangle_file = (triangle_log, Returned triangle_graph)
  ∧ get0 (nodes triangle_graph) 20 = 3 + (4 + (1 + 0))
  ∧ get0 (degrees triangle_graph) 20 = 3.
Proof.
  split; [reflexivity|].
  pose proof (node_weight_and_degree Z.ltb PyStr.int PyStr.int None 0 false 0 1 2
                triangle_file triangle_log triangle_graph 20 eq_refl) as (Hn & Hd & _).
  split; [exact Hn|exact Hd].
Defined.

Lemma line_order_does_not_matter_witness :
  example_read_graph triangle_file = (triangle_log, Returned triangle_graph)
  ∧ ∃ log', example_read_graph shuffled_file = (log', Returned triangle_graph).
Proof.
  split; [reflexivity|].
  apply (line_order_does_not_matter Z.ltb PyStr.int PyStr.int None 0 false 0 1 2
           triangle_file shuffled_file triangle_log triangle_graph);
    [|reflexivity].
  vm_compute. apply perm_swap.
Defined.

Lemma skip_drops_the_header_witness :
  (read_graph Z.ltb PyStr.int PyStr.int None 2 false 0 1 2
     (PyStr.lines_text example_header +:+ triangle_file)).2
  = (example_read_graph triangle_file).2.
Proof.
  apply (skip_drops_the_header Z.ltb PyStr.int PyStr.int None false 0 1 2
           example_header triangle_file).
  repeat constructor.
Defined.

End GraphFacts.

(** ** The files that [format_for_reneel] writes *)

Module OutputFacts.
Import FormatEdgelist EdgelistSpec GraphSpec EdgelistFacts PyStrFacts KeyFacts GraphFacts.

Section output_facts.
Context {V : Type} `{Countable V}.
Variable node_lt : V → V → bool.

(** The mapper has the nodes as keys, numbers them within [1..N] and gives
    no number twice, whatever the order is. *)
Lemma renumbering_keys (nds : gmap V Z) v :
  v ∈ dom nds →
  ∃ i, renumbering node_lt nds !! v = Some i ∧ 1 ≤ i ≤ Z.of_nat (size nds).
Proof.
  intros Hv. apply (sorted_elem_of node_lt) in Hv.
  apply list_elem_of_lookup in Hv as [k Hk].
  exists (1 + Z.of_nat k). split.
  - apply renumbering_lookup. by exists k.
  - apply lookup_lt_Some in Hk. rewrite sorted_length in Hk. lia.
Qed.

Lemma renumbering_injective (nds : gmap V Z) u v i :
  renumbering node_lt nds !! u = Some i → renumbering node_lt nds !! v = Some i →
  u = v.
Proof.
  intros (k & -> & Hk)%renumbering_lookup (k' & Heq & Hk')%renumbering_lookup.
  assert (k = k') as <- by lia. congruence.
Qed.

Lemma write_edges_Ok (mapper : gmap V Z) items :
  (∀ e, e ∈ items → is_Some (mapper !! e.1.1) ∧ is_Some (mapper !! e.1.2)) →
  write_edges items mapper = Ok (PyStr.lines_text (edge_line mapper <$> items)).
Proof.
  induction items as [|e items IH]; intros Hin; [done|].
  destruct (Hin e) as [[i Hi] [j Hj]]; [by left|].
  cbn [write_edges]. unfold subscript. rewrite Hi, Hj. simpl.
  rewrite IH by (intros e' He'; apply Hin; by right). simpl.
  unfold edge_line, get0. rewrite Hi, Hj. simpl.
  by rewrite !PyStrFacts.app_assoc.
Qed.

Section on_a_graph.
Variable convert : string → result V.
Variable weight_convert : string → result Z.
Variable sep : option string.
Variable skip : Z.
Variable directed : bool.
Variables u_col v_col w_col : Z.

Lemma format_for_reneel_Returned content log g mapper :
  format_for_reneel node_lt convert weight_convert sep skip directed
    u_col v_col w_col content = (log, Returned (g, mapper)) →
  mapper = renumbering node_lt (nodes g)
  ∧ ∃ log0, read_graph node_lt convert weight_convert sep skip directed
              u_col v_col w_col content = (log0, Returned g).
Proof.
  unfold format_for_reneel.
  destruct (read_graph _ _ _ _ _ _ _ _ _ content) as [log0 [g0|c|e]];
    intros Hf; simplify_eq. split; [done|]. by exists log0.
Qed.

(** X6: [write_edges] does not raise on the edges and the mapper of
    [format_for_reneel]: every endpoint of an edge is a key of the mapper.
    It writes one line for each item, and the two numbers of a line are
    different and lie within [1..N]. *)
Theorem write_edges_writes_every_edge content log g mapper items :
  format_for_reneel node_lt convert weight_convert sep skip directed
    u_col v_col w_col content = (log, Returned (g, mapper)) →
  (∀ e, e ∈ items → edges g !! e.1 = Some e.2) →
  write_edges items mapper = Ok (PyStr.lines_text (edge_line mapper <$> items))
  ∧ ∀ e, e ∈ items →
      ∃ i j, mapper !! e.1.1 = Some i ∧ mapper !! e.1.2 = Some j
             ∧ 1 ≤ i ≤ Z.of_nat (size (nodes g))
             ∧ 1 ≤ j ≤ Z.of_nat (size (nodes g)) ∧ i ≠ j.
Proof.
  intros (-> & log0 & Hr)%format_for_reneel_Returned Hitems.
  unfold read_graph in Hr.
  pose proof (read_lines_well_formed node_lt convert weight_convert sep skip directed
                u_col v_col w_col _ _ _ _ _ _ empty_graph_well_formed Hr)
    as (_ & He & _).
  assert (∀ e, e ∈ items →
            ∃ i j, renumbering node_lt (nodes g) !! e.1.1 = Some i
                   ∧ renumbering node_lt (nodes g) !! e.1.2 = Some j
                   ∧ 1 ≤ i ≤ Z.of_nat (size (nodes g))
                   ∧ 1 ≤ j ≤ Z.of_nat (size (nodes g)) ∧ i ≠ j) as Hids.
  { intros [[a b] w] Hin. simpl.
    destruct (He a b) as (Hab & Ha & Hb).
    { apply elem_of_dom. exists w. by apply (Hitems _ Hin). }
    destruct (renumbering_keys _ _ Ha) as (i & Hi & ?).
    destruct (renumbering_keys _ _ Hb) as (j & Hj & ?).
    exists i, j. split_and!; try done; try lia. intros <-.
    by apply Hab, (renumbering_injective (nodes g) a b i). }
  split; [|exact Hids].
  apply write_edges_Ok. intros e Hin.
  destruct (Hids e Hin) as (i & j & Hi & Hj & _). by rewrite Hi, Hj.
Qed.

Lemma write_simple_key_lines {K} (show : K → string) l :
  write_simple_key show l = PyStr.lines_text (show <$> l).
Proof. induction l as [|k l IH]; [done|]. simpl. by rewrite IH. Qed.

Lemma readlines_whole_lines ls :
  Forall (λ h, PyStr.all_chars PyStr.no_line_end h = true) ls →
  PyStr.readlines (PyStr.lines_text ls) = (λ h, h +:+ String "010" "") <$> ls.
Proof.
  intros Hls. rewrite <- (PyStrFacts.app_nil_r (PyStr.lines_text ls)).
  rewrite readlines_lines_text by done. apply List.app_nil_r.
Qed.

Lemma str_no_line_end n : PyStr.all_chars PyStr.no_line_end (PyStr.str n) = true.
Proof.
  eapply all_chars_impl; [apply no_space_no_line_end|apply str_no_space].
Qed.

Lemma degree_line_no_line_end (nds degs : gmap V Z) v :
  PyStr.all_chars PyStr.no_line_end (degree_line nds degs v) = true.
Proof.
  unfold degree_line. rewrite !all_chars_app, !str_no_line_end. done.
Qed.

(** X7: the key file and the degree file follow the numbering of the edge
    file: for a node [v] that the mapper numbers [i], line [i] of the key
    file holds [v] and line [i] of the degree file holds [degrees[v]] and
    [nodes[v]]; both files have [N] lines. *)
Theorem key_and_degree_files_line_up (show : V → string) content log g mapper v i :
  format_for_reneel node_lt convert weight_convert sep skip directed
    u_col v_col w_col content = (log, Returned (g, mapper)) →
  (∀ x, PyStr.all_chars PyStr.no_line_end (show x) = true) →
  mapper !! v = Some i →
  PyStr.readlines (write_simple_key show (sorted node_lt (map_to_list (nodes g)).*1))
    !! Z.to_nat (i - 1) = Some (show v +:+ String "010" "")
  ∧ PyStr.readlines (write_degree node_lt (nodes g) (degrees g)) !! Z.to_nat (i - 1)
    = Some (degree_line (nodes g) (degrees g) v +:+ String "010" "")
  ∧ length (PyStr.readlines
              (write_simple_key show (sorted node_lt (map_to_list (nodes g)).*1)))
    = size (nodes g)
  ∧ length (PyStr.readlines (write_degree node_lt (nodes g) (degrees g)))
    = size (nodes g).
Proof.
  intros (-> & _)%format_for_reneel_Returned Hshow (k & -> & Hk)%renumbering_lookup.
  replace (Z.to_nat (1 + Z.of_nat k - 1)) with k by lia.
  rewrite write_simple_key_lines. unfold write_degree.
  rewrite !readlines_whole_lines.
  - rewrite !list_lookup_fmap, Hk, !length_fmap, sorted_length. done.
  - apply Forall_forall. intros l (x & -> & _)%list_elem_of_fmap.
    apply degree_line_no_line_end.
  - apply Forall_forall. intros l (x & -> & _)%list_elem_of_fmap. apply Hshow.
Qed.

End on_a_graph.
End output_facts.


Lemma strip_word_line w :
  w ≠ "" → PyStr.no_space w = true → PyStr.strip (w +:+ String "010" "") = w.
Proof.
  intros Hne Hw. unfold PyStr.strip.
  assert (PyStr.lstrip (w +:+ String "010" "") = w +:+ String "010" "") as ->.
  { destruct w as [|c r]; [done|]. unfold PyStr.no_space in Hw. simpl in Hw.
    apply andb_true_iff in Hw as [Hc _]. apply negb_true_iff in Hc.
    rewrite app_cons. simpl. by rewrite Hc. }
  by apply rstrip_line_end.
Qed.


Lemma write_edges_writes_every_edge_witness :
  example_format_for_reneel triangle_file
  = (triangle_log ++ [Info_read_in 3 3], Returned (triangle_graph, triangle_mapper))
  ∧ write_edges triangle_items triangle_mapper
    = Ok (PyStr.lines_text ["2 1 4"; "3 2 4"; "3 1 5"]).
Proof.
  split; [reflexivity|].
  apply (write_edges_writes_every_edge Z.ltb PyStr.int PyStr.int None 0 false 0 1 2
           triangle_file (triangle_log ++ [Info_read_in 3 3]) triangle_graph
           triangle_mapper triangle_items); [reflexivity|].
  intros e He. repeat (apply elem_of_cons in He as [->|He]; [reflexivity|]).
  by apply elem_of_nil in He.
Defined.

Lemma key_and_degree_files_line_up_witness :
  triangle_mapper !! 20 = Some 2
  ∧ PyStr.readlines (write_simple_key PyStr.str
                       (sorted Z.ltb (map_to_list (nodes triangle_graph)).*1))
      !! 1%nat = Some (PyStr.str 20 +:+ String "010" "")
  ∧ PyStr.readlines (write_degree Z.ltb (nodes triangle_graph) (degrees triangle_graph))
      !! 1%nat
    = Some (degree_line (nodes triangle_graph) (degrees triangle_graph) 20
              +:+ String "010" "").
Proof.
  split; [reflexivity|].
  pose proof (key_and_degree_files_line_up Z.ltb PyStr.int PyStr.int None 0 false
                0 1 2 PyStr.str triangle_file (triangle_log ++ [Info_read_in 3 3])
                triangle_graph triangle_mapper 20 2 eq_refl str_no_line_end eq_refl)
    as (Hkey & Hdeg & _).
  split; [exact Hkey|exact Hdeg].
Defined.


End OutputFacts.

(** ** From the key file to the partition table *)

Module PartitionFacts.
Import FormatEdgelist EdgelistSpec GraphSpec EdgelistFacts PyStrFacts KeyFacts
  OutputFacts DataSpec PartitionSpec.

Lemma int_strip_line n :
  PyStr.int (PyStr.strip (PyStr.str n +:+ String "010" "")) = Ok n.
Proof.
  rewrite strip_word_line by (apply str_nonempty || apply str_no_space).
  apply int_str.
Qed.

Lemma for_each_zip_lines (nodes clusters : list Z) :
  Py.for_each (λ kc : string * string,
      k ← PyStr.int (PyStr.strip kc.1);
      c ← PyStr.int (PyStr.strip kc.2);
      mret (k, c))
    (zip ((λ h, h +:+ String "010" "") <$> (PyStr.str <$> nodes))
         ((λ h, h +:+ String "010" "") <$> (PyStr.str <$> clusters)))
  = Ok (zip nodes clusters).
Proof.
  revert clusters. induction nodes as [|k nodes IH]; intros [|c clusters]; try done.
  rewrite !fmap_cons. cbn [zip zip_with Py.for_each fst snd].
  rewrite !int_strip_line. simpl. by rewrite IH.
Qed.

Lemma fst_zip_take {A B} (l : list A) (k : list B) :
  (zip l k).*1 = take (length k) l.
Proof.
  revert k. induction l as [|a l IH]; intros [|b k]; try done.
  simpl. f_equal. apply IH.
Qed.

Section partition_facts.
Context {F : Type} `{EqDecision F}.
Variable float_of : string → option F.

Lemma load_partition_rows fs key_file partition_file include_seed
    name info seed_text chi_text tmp seed0 chi0 (nodes clusters : list Z) :
  Data._get_filename_parts key_file = ["key"; name] →
  Data._get_filename_parts partition_file = ["partition"; name; info] →
  PyStr.split_sep "-" (Some 2%nat) info = [seed_text; chi_text; tmp] →
  PyStr.int seed_text = Ok seed0 →
  float_of chi_text = Some chi0 →
  fs !! key_file = Some (write_simple_key PyStr.str nodes) →
  fs !! partition_file = Some (PyStr.lines_text (PyStr.str <$> clusters)) →
  Data.load_partition float_of fs key_file partition_file include_seed
  = if decide (zip nodes clusters = []) then Raise KeyError
    else Ok (Pandas.frame_of_column
               (if include_seed then Pandas.Lpair chi0 seed0 else Pandas.Lnum chi0)
               (zip nodes clusters)).
Proof.
  intros Hk Hp Hi Hs Hc Hkf Hpf. unfold Data.load_partition.
  rewrite Hk, Hp. simpl. rewrite !bool_decide_eq_true_2 by done. simpl.
  rewrite Hi. simpl. rewrite Hs. simpl. unfold Data.float. rewrite Hc. simpl.
  unfold Data.open_lines. rewrite Hkf, Hpf. simpl.
  rewrite write_simple_key_lines.
  rewrite !readlines_whole_lines
    by (apply Forall_forall; intros l (x & -> & _)%list_elem_of_fmap;
        apply str_no_line_end).
  rewrite for_each_zip_lines. simpl. done.
Qed.

(** X9: [load_partition] of [data.py] pairs line [k] of the key file with
    line [k] of the partition file and stops at the end of the shorter
    file: the lengths are not compared, so with fewer clusters than nodes
    the table has the first nodes only, and clusters beyond the last node
    are dropped.  When one of the files has no line, it raises
    [KeyError]. *)
Theorem load_partition_pairs_lines fs key_file partition_file include_seed
    name info seed_text chi_text tmp seed0 chi0 (nodes clusters : list Z) :
  Data._get_filename_parts key_file = ["key"; name] →
  Data._get_filename_parts partition_file = ["partition"; name; info] →
  PyStr.split_sep "-" (Some 2%nat) info = [seed_text; chi_text; tmp] →
  PyStr.int seed_text = Ok seed0 →
  float_of chi_text = Some chi0 →
  fs !! key_file = Some (write_simple_key PyStr.str nodes) →
  fs !! partition_file = Some (PyStr.lines_text (PyStr.str <$> clusters)) →
  (nodes = [] ∨ clusters = [] →
   Data.load_partition float_of fs key_file partition_file include_seed
   = Raise KeyError)
  ∧ (nodes ≠ [] → clusters ≠ [] →
     ∃ df,
       Data.load_partition float_of fs key_file partition_file include_seed = Ok df
       ∧ df = Pandas.frame_of_column
                (if include_seed then Pandas.Lpair chi0 seed0 else Pandas.Lnum chi0)
                (zip nodes clusters)
       ∧ Pandas.index df = take (length clusters) nodes).
Proof.
  intros Hk Hp Hi Hs Hc Hkf Hpf.
  rewrite (load_partition_rows fs key_file partition_file include_seed name info
             seed_text chi_text tmp seed0 chi0 nodes clusters) by done.
  split.
  - intros [-> | ->]; [done|]. by destruct nodes.
  - intros Hn Hcl. destruct nodes as [|k nodes]; [done|].
    destruct clusters as [|c clusters]; [done|].
    rewrite decide_False by done. eexists. split; [done|]. split; [done|].
    unfold Pandas.frame_of_column. cbn [Pandas.index].
    apply fst_zip_take.
Qed.

(** X10: the files fit together: for a graph with integer nodes, the key
    file that [format_for_reneel] writes and a partition file that holds
    the cluster of node [i] on line [i], [load_partition] of [data.py]
    returns a table whose rows are the nodes of the graph and which gives
    every node [v] the cluster on line [mapper[v]]. *)
Theorem partition_of_formatted_graph convert weight_convert sep skip directed
    u_col v_col w_col content log (g : graph Z) mapper
    fs key_file partition_file include_seed
    name info seed_text chi_text tmp seed0 chi0 (clusters : list Z) :
  format_for_reneel Z.ltb convert weight_convert sep skip directed
    u_col v_col w_col content = (log, Returned (g, mapper)) →
  Data._get_filename_parts key_file = ["key"; name] →
  Data._get_filename_parts partition_file = ["partition"; name; info] →
  PyStr.split_sep "-" (Some 2%nat) info = [seed_text; chi_text; tmp] →
  PyStr.int seed_text = Ok seed0 →
  float_of chi_text = Some chi0 →
  fs !! key_file
  = Some (write_simple_key PyStr.str (sorted Z.ltb (map_to_list (nodes g)).*1)) →
  fs !! partition_file = Some (PyStr.lines_text (PyStr.str <$> clusters)) →
  length clusters = size (nodes g) → clusters ≠ [] →
  ∃ df,
    Data.load_partition float_of fs key_file partition_file include_seed = Ok df
    ∧ (∀ v, v ∈ Pandas.index df ↔ v ∈ dom (nodes g))
    ∧ ∀ v i, mapper !! v = Some i →
        Pandas.cell df v
          (if include_seed then Pandas.Lpair chi0 seed0 else Pandas.Lnum chi0)
        = clusters !! Z.to_nat (i - 1).
Proof.
  intros (-> & _)%format_for_reneel_Returned Hk Hp Hi Hs Hc Hkf Hpf Hlen Hne.
  rewrite (load_partition_rows fs key_file partition_file include_seed name info
             seed_text chi_text tmp seed0 chi0 _ clusters) by done.
  set (nds := sorted Z.ltb (map_to_list (nodes g)).*1).
  assert (length nds = length clusters) as Hl.
  { unfold nds. by rewrite sorted_length. }
  assert ((zip nds clusters).*1 = nds) as Hfst.
  { apply fst_zip. lia. }
  rewrite decide_False.
  2:{ intros Hz. rewrite Hz in Hfst. destruct clusters; [done|].
      by rewrite <- Hfst in Hl. }
  eexists. split; [done|]. unfold Pandas.frame_of_column. cbn [Pandas.index Pandas.cell].
  split.
  - intros v. rewrite Hfst. apply sorted_elem_of.
  - intros v i (k & -> & Hv)%renumbering_lookup. fold nds in Hv.
    rewrite decide_True by done.
    replace (Z.to_nat (1 + Z.of_nat k - 1)) with k by lia.
    destruct (clusters !! k) as [c|] eqn:Hck.
    + apply dict_of_lookup.
      * rewrite Hfst. unfold nds, sorted. rewrite merge_sort_Permutation.
        apply NoDup_fst_map_to_list.
      * apply list_elem_of_lookup. exists k.
        rewrite lookup_zip_with, Hv. simpl. by rewrite Hck.
    + apply lookup_lt_Some in Hv. apply lookup_ge_None in Hck. lia.
Qed.

End partition_facts.

Lemma load_partition_pairs_lines_witness :
  ∃ df,
    Data.load_partition whole_float long_files toy_key toy_partition false = Ok df
    ∧ df = Pandas.frame_of_column (Pandas.Lnum 2) (zip [10; 20; 30] [1; 1; 2; 2])
    ∧ Pandas.index df = take 4 [10; 20; 30].
Proof.
  apply (proj2 (load_partition_pairs_lines whole_float long_files toy_key toy_partition
                  false "toy" "7-2-ab12" "7" "2" "ab12" 7 2 [10; 20; 30] [1; 1; 2; 2]
                  eq_refl eq_refl eq_refl eq_refl eq_refl eq_refl eq_refl));
    discriminate.
Defined.

Lemma partition_of_formatted_graph_witness :
  ∃ df,
    Data.load_partition whole_float toy_files toy_key toy_partition false = Ok df
    ∧ (∀ v, v ∈ Pandas.index df ↔ v ∈ dom (nodes triangle_graph))
    ∧ ∀ v i, triangle_mapper !! v = Some i →
        Pandas.cell df v (Pandas.Lnum 2) = [1; 1; 2] !! Z.to_nat (i - 1).
Proof.
  apply (partition_of_formatted_graph whole_float PyStr.int PyStr.int None 0 false
           0 1 2 triangle_file (triangle_log ++ [Info_read_in 3 3]) triangle_graph
           triangle_mapper toy_files toy_key toy_partition false
           "toy" "7-2-ab12" "7" "2" "ab12" 7 2 [1; 1; 2]);
    reflexivity || discriminate.
Defined.

End PartitionFacts.

(** ** Paths and file names *)

Module PathFacts.
Import PyStrFacts PathSpec.

Lemma without_app c s t : without c (s +:+ t) = without c s && without c t.
Proof. apply all_chars_app. Qed.

Lemma length_app s t : String.length (s +:+ t) = (String.length s + String.length t)%nat.
Proof. induction s as [|a s IH]; [done|]. rewrite app_cons. simpl. by rewrite IH. Qed.

Lemma app_inv_head s t u : s +:+ t = s +:+ u → t = u.
Proof.
  induction s as [|a s IH]; [done|]. rewrite !app_cons. intros [= Heq]. by apply IH.
Qed.

Lemma substring_app_l s t : String.substring 0 (String.length s) (s +:+ t) = s.
Proof. induction s as [|a s IH]; [by destruct t|]. rewrite app_cons. simpl. by rewrite IH. Qed.

Lemma substring_all s : String.substring 0 (String.length s) s = s.
Proof. induction s as [|a s IH]; [done|]. simpl. by rewrite IH. Qed.

Lemma substring_app_r s t :
  String.substring (String.length s) (String.length t) (s +:+ t) = t.
Proof.
  induction s as [|a s IH]; [apply substring_all|]. rewrite app_cons. simpl. apply IH.
Qed.

(** *** [split] at one character *)

Lemma prefix_char c a r :
  String.prefix (String c "") (String a r) = bool_decide (c = a).
Proof.
  simpl. destruct (ascii_dec c a) as [->|Hne].
  - rewrite bool_decide_eq_true_2 by done. by destruct r.
  - by rewrite bool_decide_eq_false_2.
Qed.

Lemma split_no_sep c budget w :
  without c w = true →
  ∀ f, PyStr.split_sep_go (String c "") budget 0 f w = [f +:+ w].
Proof.
  induction w as [|a w IH]; intros Hw f.
  { simpl. by rewrite app_nil_r. }
  unfold without in Hw. simpl in Hw. apply andb_true_iff in Hw as [Ha Hw].
  apply negb_true_iff, bool_decide_eq_false in Ha.
  cbn [PyStr.split_sep_go]. rewrite prefix_char.
  rewrite (bool_decide_eq_false_2 (c = a)) by congruence.
  rewrite andb_false_r. rewrite (IH Hw). by rewrite app_assoc.
Qed.

Lemma split_at_sep c budget w rest :
  without c w = true → budget ≠ Some 0%nat →
  ∀ f, PyStr.split_sep_go (String c "") budget 0 f (w +:+ String c rest)
       = (f +:+ w) :: PyStr.split_sep_go (String c "") (PyStr.spend budget) 0 "" rest.
Proof.
  intros Hw Hb. induction w as [|a w IH]; intros f.
  { change ("" +:+ String c rest) with (String c rest).
    cbn [PyStr.split_sep_go]. rewrite prefix_char.
    rewrite !bool_decide_eq_true_2 by done. simpl. by rewrite app_nil_r. }
  unfold without in Hw. simpl in Hw. apply andb_true_iff in Hw as [Ha Hw].
  apply negb_true_iff, bool_decide_eq_false in Ha.
  rewrite app_cons. cbn [PyStr.split_sep_go]. rewrite prefix_char.
  rewrite (bool_decide_eq_false_2 (c = a)) by congruence.
  rewrite andb_false_r. rewrite (IH Hw). by rewrite app_assoc.
Qed.

Lemma split_no_budget sep s :
  ∀ f, PyStr.split_sep_go sep (Some 0%nat) 0 f s = [f +:+ s].
Proof.
  induction s as [|a s IH]; intros f.
  { simpl. by rewrite app_nil_r. }
  cbn [PyStr.split_sep_go]. rewrite bool_decide_eq_false_2 by (by intros []).
  simpl. rewrite IH. by rewrite app_assoc.
Qed.

(** A string of three fields splits into them, also when the last field
    holds the separator. *)
Lemma split_three c a b rest :
  without c a = true → without c b = true →
  PyStr.split_sep (String c "") (Some 2%nat) (a +:+ String c (b +:+ String c rest))
  = [a; b; rest].
Proof.
  intros Ha Hb. unfold PyStr.split_sep.
  rewrite split_at_sep by done. simpl PyStr.spend.
  rewrite split_at_sep by done. simpl PyStr.spend.
  by rewrite split_no_budget.
Qed.

(** *** Names, stems and suffixes *)

Lemma split_slash_last d b :
  without "/" b = true →
  ∀ f, ∃ l, PyStr.split_sep_go "/" None 0 f (d +:+ String "/" b) = l ++ [b].
Proof.
  intros Hb. induction d as [|a d IH]; intros f.
  { exists [f]. rewrite (split_at_sep "/" None "" b) by done.
    simpl PyStr.spend. rewrite split_no_sep by done. by rewrite app_nil_r. }
  rewrite app_cons. cbn [PyStr.split_sep_go]. rewrite prefix_char.
  rewrite bool_decide_eq_true_2 by done. simpl andb.
  destruct (bool_decide ("/"%char = a)).
  - destruct (IH "") as [l Hl]. exists (f :: l). simpl. by rewrite Hl.
  - destruct (IH (f +:+ String a "")) as [l Hl]. by exists l.
Qed.

Lemma path_name_dir d b : is_name b → PyStr.path_name (d +:+ String "/" b) = b.
Proof.
  intros (Hne & Hdot & Hb). unfold PyStr.path_name, PyStr.split_sep.
  destruct (split_slash_last d b Hb "") as [l ->].
  rewrite List.filter_app. simpl.
  rewrite bool_decide_eq_false_2 by (by intros [|]). simpl.
  apply List.last_last.
Qed.

Lemma path_name_bare b : is_name b → PyStr.path_name b = b.
Proof.
  intros (Hne & Hdot & Hb). unfold PyStr.path_name, PyStr.split_sep.
  rewrite split_no_sep by done. simpl.
  by rewrite bool_decide_eq_false_2 by (by intros [|]).
Qed.

Lemma path_name_join d b : is_name b → PyStr.path_name (PyStr.path_join d b) = b.
Proof.
  intros Hb. unfold PyStr.path_join. case_decide.
  - by apply path_name_bare.
  - by apply path_name_dir.
Qed.

Lemma rfind_dot_none e : without "." e = true → ∀ pos, PyStr.rfind_dot pos e = None.
Proof.
  induction e as [|a e IH]; intros He pos; [done|].
  unfold without in He. simpl in He. apply andb_true_iff in He as [Ha He].
  apply negb_true_iff in Ha. simpl. by rewrite (IH He), Ha.
Qed.

Lemma rfind_dot_last b e :
  without "." e = true →
  ∀ pos, PyStr.rfind_dot pos (b +:+ String "." e) = Some (pos + String.length b)%nat.
Proof.
  intros He. induction b as [|a b IH]; intros pos.
  { simpl. rewrite rfind_dot_none by done. f_equal. lia. }
  rewrite app_cons. simpl. rewrite IH. f_equal. lia.
Qed.

Lemma stem_suffix_of_name b e :
  b ≠ "" → e ≠ "" → without "." e = true →
  PyStr.stem_of_name (b +:+ String "." e) = b
  ∧ PyStr.suffix_of_name (b +:+ String "." e) = String "." e.
Proof.
  intros Hb He Hdot. unfold PyStr.stem_of_name, PyStr.suffix_of_name.
  rewrite rfind_dot_last by done. simpl Nat.add.
  assert (0 < String.length b)%nat by (destruct b; [done|simpl; lia]).
  assert (0 < String.length e)%nat by (destruct e; [done|simpl; lia]).
  rewrite length_app. simpl String.length.
  rewrite !decide_True by lia. split.
  - apply substring_app_l.
  - replace (String.length b + S (String.length e) - String.length b)%nat
      with (String.length (String "." e)) by (simpl; lia).
    apply substring_app_r.
Qed.

Lemma with_stem_dir d n s :
  is_name n →
  PyStr.with_stem (d +:+ String "/" n) s
  = d +:+ String "/" (s +:+ PyStr.suffix_of_name n).
Proof.
  intros Hn. unfold PyStr.with_stem. rewrite path_name_dir by done.
  replace (d +:+ String "/" n) with ((d +:+ "/") +:+ n)
    by (by rewrite app_assoc).
  rewrite length_app.
  replace (String.length (d +:+ "/") + String.length n - String.length n)%nat
    with (String.length (d +:+ "/")) by lia.
  rewrite substring_app_l. by rewrite !app_assoc.
Qed.

End PathFacts.

(** ** The names of the output files *)

Module NamingFacts.
Import RunReneel RunSpec PyStrFacts PathSpec PathFacts DataSpec DataFacts NamingSpec.

Lemma digits_without c s :
  PyStr.is_digit c = false → PyStr.all_chars PyStr.is_digit s = true →
  without c s = true.
Proof.
  intros Hc. apply all_chars_impl. intros a Ha.
  apply negb_true_iff, bool_decide_eq_false. intros ->. congruence.
Qed.

Lemma str_without c n : 0 ≤ n → PyStr.is_digit c = false → without c (PyStr.str n) = true.
Proof.
  intros Hn Hc. destruct (str_cases n) as (d & _ & _ & ->).
  rewrite decide_False by lia. apply digits_without; [done|apply digits_of_uint].
Qed.

Lemma without_cons c a s :
  without c (String a s) = negb (bool_decide (a = c)) && without c s.
Proof. done. Qed.

Lemma is_name_app_dot b e :
  b ≠ "" → without "/" b = true → without "/" e = true →
  is_name (b +:+ String "." e).
Proof.
  intros Hb Hbs Hes. split_and!.
  - by destruct b.
  - by destruct b as [|a [|a' b]].
  - rewrite without_app, Hbs, without_cons, Hes. done.
Qed.

(** Appends are put in one form: nested to the right, with the characters
    of the constant parts in front. *)
Ltac flatten := repeat (rewrite !app_assoc || rewrite !app_cons); try reflexivity.

Section naming.
Context {F : Type} `{EqDecision F}.
Variable fmt : F → string.
Variable float_of : string → option F.
Variable float_leb : F → F → bool.

Lemma partition_path_name td (r : ReneelRun F) d base ext :
  edgelist_file r = PyStr.path_join d (base +:+ String "." ext) →
  plain_base base → plain_ext ext → td ≠ "" →
  partition_path td r = td +:+ String "/" (("partition_" +:+ base) +:+ String "." ext).
Proof.
  intros He (Hb & Hbs) (Hx & Hxs & Hxd) Htd.
  assert (is_name (base +:+ String "." ext)) as Hname by by apply is_name_app_dot.
  unfold partition_path, input_file. rewrite He, path_name_join by done.
  unfold PyStr.path_join. rewrite decide_False by done.
  change ("/" +:+ ?x) with (String "/" x).
  rewrite with_stem_dir by done. unfold PyStr.stem.
  rewrite path_name_dir by done.
  destruct (stem_suffix_of_name base ext Hb Hx Hxd) as [-> ->]. done.
Qed.

Lemma output_partition_name output_dir td (r : ReneelRun F) d base ext :
  edgelist_file r = PyStr.path_join d (base +:+ String "." ext) →
  plain_base base → plain_ext ext → td ≠ "" → is_name (PyStr.path_name td) →
  0 ≤ seed r → plain_chi (fmt (chi r)) →
  output_partition_path fmt output_dir td r
  = PyStr.path_join output_dir
      (partition_name fmt base ext (seed r) (chi r) (PyStr.path_name td))
  ∧ is_name (partition_name fmt base ext (seed r) (chi r) (PyStr.path_name td))
  ∧ PyStr.stem_of_name
      (partition_name fmt base ext (seed r) (chi r) (PyStr.path_name td))
    = "partition" +:+ String "_" (base +:+ String "_"
        (PyStr.str (seed r) +:+ String "-" (fmt (chi r) +:+ String "-"
           (PyStr.path_name td)))).
Proof.
  intros He Hbase Hext Htd Ht Hseed [Hcs Hcd].
  pose proof Hbase as (Hb & Hbs). pose proof Hext as (Hx & Hxs & Hxd).
  destruct Ht as (Htn & _ & Hts).
  set (t := PyStr.path_name td) in *.
  set (sfx := PyStr.str (seed r) +:+ String "-" (fmt (chi r) +:+ String "-" t)).
  set (new_stem := ("partition_" +:+ base) +:+ String "_" sfx).
  assert (partition_name fmt base ext (seed r) (chi r) t
          = new_stem +:+ String "." ext) as Hpn.
  { unfold partition_name, new_stem, sfx. fold t. flatten. }
  assert (without "/" sfx = true) as Hsfx.
  { unfold sfx. rewrite without_app, str_without by done.
    rewrite without_cons, without_app, Hcs, without_cons, Hts. done. }
  assert (new_stem ≠ "") as Hns by done.
  assert (without "/" new_stem = true) as Hnss.
  { unfold new_stem. rewrite 2!without_app, Hbs, (without_cons _ "_" sfx), Hsfx.
    done. }
  assert (is_name (new_stem +:+ String "." ext)) as Hname
    by by apply is_name_app_dot.
  assert (is_name (("partition_" +:+ base) +:+ String "." ext)) as Hpname.
  { apply is_name_app_dot; [done| |done]. rewrite without_app, Hbs. done. }
  rewrite Hpn. split; [|split; [done|]].
  - unfold output_partition_path. f_equal.
    rewrite (partition_path_name td r d base ext) by done.
    unfold PyStr.stem. rewrite path_name_dir by done.
    destruct (stem_suffix_of_name ("partition_" +:+ base) ext) as [-> Hsuf];
      [done..|].
    rewrite with_stem_dir, Hsuf by done.
    rewrite path_name_dir.
    + unfold tmp_suffix, new_stem, sfx. fold t. flatten.
    + unfold tmp_suffix. fold t.
      replace (("partition_" +:+ base) +:+ "_" +:+ PyStr.str (seed r) +:+ "-"
                 +:+ fmt (chi r) +:+ "-" +:+ t) with new_stem; [done|].
      unfold new_stem, sfx. flatten.
  - destruct (stem_suffix_of_name new_stem ext) as [-> _]; [done..|].
    unfold new_stem. flatten.
Qed.

Lemma path_join_inj dir a b : PyStr.path_join dir a = PyStr.path_join dir b → a = b.
Proof.
  unfold PyStr.path_join. case_decide; [done|]. intros Heq.
  by do 2 apply app_inv_head in Heq.
Qed.

(** The rows of the table are those of the listed names that parse. *)
Lemma available_rows clustering_dir listing :
  ∃ rows,
    Data.get_available_clustering float_of float_leb clustering_dir listing = Ok rows
    ∧ ∀ row, row ∈ rows
             ↔ ∃ f, f ∈ listing ∧ String.prefix "partition" f = true
                    ∧ parses float_of clustering_dir f row.
Proof.
  unfold Data.get_available_clustering. rewrite collect_available_spec. simpl.
  eexists. split; [reflexivity|].
  intros row. rewrite merge_sort_Permutation, list_elem_of_omap. split.
  - intros (f & Hin & Hrow). apply list_elem_of_In, filter_In in Hin as [Hin Hp].
    exists f. split; [by apply list_elem_of_In|]. split; [done|].
    by apply row_of_name_parses.
  - intros (f & Hin & Hp & Hrow). exists f. split.
    + apply list_elem_of_In, filter_In. split; [by apply list_elem_of_In|done].
    + by apply row_of_name_parses.
Qed.

(** X11: the partition file that a run leaves in the output directory is
    named [partition_{base}_{seed}-{chi}-{tmp}.{ext}], and
    [get_available_clustering] reads this name back: when the name of the
    data has no underscore, the seed is not negative and the text of chi
    has no hyphen, the table has a row with the name, the seed, the chi and
    the path of that file. *)
Theorem written_partition_is_found output_dir td (r : ReneelRun F) d base ext listing :
  edgelist_file r = PyStr.path_join d (base +:+ String "." ext) →
  plain_base base → without "_" base = true → plain_ext ext →
  td ≠ "" → is_name (PyStr.path_name td) →
  0 ≤ seed r → plain_chi (fmt (chi r)) → float_of (fmt (chi r)) = Some (chi r) →
  output_partition_path fmt output_dir td r
  = PyStr.path_join output_dir
      (partition_name fmt base ext (seed r) (chi r) (PyStr.path_name td))
  ∧ (partition_name fmt base ext (seed r) (chi r) (PyStr.path_name td) ∈ listing →
     ∃ rows,
       Data.get_available_clustering float_of float_leb output_dir listing = Ok rows
       ∧ {| Data.name := base; Data.chi := chi r; Data.seed := seed r;
            Data.id := PyStr.path_name td;
            Data.file := output_partition_path fmt output_dir td r |} ∈ rows).
Proof.
  intros He Hbase Hbu Hext Htd Ht Hseed Hchi Hfloat.
  destruct (output_partition_name output_dir td r d base ext)
    as (Hout & Hname & Hstem); [done..|].
  split; [exact Hout|]. intros Hin.
  destruct (available_rows output_dir listing) as (rows & Hrows & Hiff).
  exists rows. split; [exact Hrows|]. apply Hiff.
  eexists. split; [exact Hin|]. split.
  { unfold partition_name. by destruct base. }
  unfold parses. cbn [Data.name Data.chi Data.seed Data.id Data.file].
  eexists "partition", _, (PyStr.str (seed r)), (fmt (chi r)). split_and!.
  - unfold Data._get_filename_parts, PyStr.stem.
    rewrite path_name_bare, Hstem by done.
    apply split_three; [done|exact Hbu].
  - destruct Hchi as [_ Hcd]. apply split_three; [|exact Hcd].
    by apply str_without.
  - apply int_str.
  - exact Hfloat.
  - exact Hout.
Qed.

(** X12: a name of the data with an underscore is not read back: for the
    edgelist [a_b.ext], where [a] has no underscore, every row that
    [get_available_clustering] has for the partition file of the run names
    the data [a]. *)
Theorem underscore_in_name_is_cut output_dir td (r : ReneelRun F) d a b ext
    listing rows row :
  edgelist_file r = PyStr.path_join d ((a +:+ String "_" b) +:+ String "." ext) →
  plain_base (a +:+ String "_" b) → without "_" a = true → plain_ext ext →
  td ≠ "" → is_name (PyStr.path_name td) →
  0 ≤ seed r → plain_chi (fmt (chi r)) →
  Data.get_available_clustering float_of float_leb output_dir listing = Ok rows →
  row ∈ rows →
  Data.file row = output_partition_path fmt output_dir td r →
  Data.name row = a ∧ Data.name row ≠ a +:+ String "_" b.
Proof.
  intros He Hbase Hau Hext Htd Ht Hseed Hchi Hrows Hrow Hfile.
  destruct (output_partition_name output_dir td r d (a +:+ String "_" b) ext)
    as (Hout & Hname & Hstem); [done..|].
  destruct (available_rows output_dir listing) as (rows' & Hrows' & Hiff).
  rewrite Hrows in Hrows'. injection Hrows' as <-.
  apply Hiff in Hrow as (f & _ & _ & Hparses).
  destruct Hparses as (prefix & suffix & s & c & Hparts & _ & _ & _ & Hfile').
  rewrite Hfile, Hout in Hfile'. apply path_join_inj in Hfile' as <-.
  unfold Data._get_filename_parts, PyStr.stem in Hparts.
  rewrite path_name_bare, Hstem in Hparts by done.
  rewrite (app_assoc a), (app_cons "_" b) in Hparts.
  rewrite split_three in Hparts by done.
  injection Hparts as _ <- _. split; [done|].
  intros Heq. apply (f_equal String.length) in Heq.
  rewrite length_app in Heq. simpl in Heq. lia.
Qed.

(** X13: [load_partition] raises [ValueError] for the key file of data
    whose name has an underscore: the stem [key_a_b] splits into three
    parts where two are unpacked. *)
Theorem load_partition_underscore_raises fs dir a b ext partition_file include_seed :
  without "_" a = true → plain_base (a +:+ String "_" b) → plain_ext ext →
  Data.load_partition float_of fs
    (PyStr.path_join dir (("key_" +:+ a +:+ String "_" b) +:+ String "." ext))
    partition_file include_seed
  = Raise ValueError.
Proof.
  intros Hau (Hab & Habs) (Hx & Hxs & Hxd).
  assert (without "/" ("key_" +:+ a +:+ String "_" b) = true) as Hks.
  { rewrite without_app, Habs. done. }
  unfold Data.load_partition, Data._get_filename_parts, PyStr.stem.
  rewrite path_name_join by (by apply is_name_app_dot).
  destruct (stem_suffix_of_name ("key_" +:+ a +:+ String "_" b) ext) as [-> _];
    [done..|].
  change ("key_" +:+ a +:+ String "_" b) with ("key" +:+ String "_" (a +:+ String "_" b)).
  by rewrite split_three.
Qed.

End naming.

Lemma written_partition_is_found_witness :
  output_partition_path PyStr.str "/out" "/work/tmpab12" small_run
  = "/out/partition_edges_17-0-tmpab12.txt"
  ∧ ∃ rows,
      Data.get_available_clustering whole_float Z.leb "/out" small_listing = Ok rows
      ∧ {| Data.name := "edges"; Data.chi := 0; Data.seed := 17;
           Data.id := "tmpab12";
           Data.file := "/out/partition_edges_17-0-tmpab12.txt" |} ∈ rows.
Proof.
  pose proof (written_partition_is_found PyStr.str whole_float Z.leb "/out"
                "/work/tmpab12" small_run "/data" "edges" "txt" small_listing)
    as Hfound.
  destruct Hfound as [Hout Hrows]; try (by repeat split).
  split; [exact Hout|]. apply Hrows. right. left.
Defined.

Lemma underscore_in_name_is_cut_witness :
  Data.get_available_clustering whole_float Z.leb "/out" numbered_listing
  = Ok [numbered_row]
  ∧ Data.file numbered_row
    = output_partition_path PyStr.str "/out" "/work/tmpab12" numbered_run
  ∧ Data.name numbered_row = "net" ∧ Data.name numbered_row ≠ "net_5".
Proof.
  split; [reflexivity|]. split; [reflexivity|].
  apply (underscore_in_name_is_cut PyStr.str whole_float Z.leb "/out" "/work/tmpab12"
           numbered_run "/data" "net" "5" "txt" numbered_listing [numbered_row]
           numbered_row); try (by repeat split).
  left.
Defined.

Lemma load_partition_underscore_raises_witness :
  Data.load_partition whole_float ∅ "pre/key_net_5.txt"
    "out/partition_net_5_17-0-tmpab12.txt" false
  = Raise ValueError.
Proof.
  apply (load_partition_underscore_raises whole_float ∅ "pre" "net" "5" "txt");
    by repeat split.
Defined.

End NamingFacts.

(** ** How a call of [run_reneel_and_collect_output] ends *)

Module OutcomeFacts.
Import RunReneel RunSpec RunFacts OutcomeSpec PathSpec PathFacts NamingSpec NamingFacts.

Section outcome_facts.
Context {F : Type}.
Variable fmt : F → string.
Variable is_dir : string → bool.
Variable copy_ok : string → string → bool.
Variable subprocess_run : list string → result Z.
Variable tmp_name : nat → string.






(** Collecting the output, when the global name refers to the run *)
Lemma collect_output_run current_dir output_dir l r r0 keep cmd code tmpdir
    (st : state F) :
  heap st !! l = Some r0 → global_reneelrun st = Some l →
  collect_output fmt copy_ok current_dir output_dir l r keep cmd code tmpdir st
  = let st1 :=
      add_events
        (update_obj l (set_completed_process {| args := cmd; returncode := code |})
           st).1
        (events_of_collecting fmt output_dir tmpdir r code) in
    if copy_ok (partition_path tmpdir r) (output_partition_path fmt output_dir tmpdir r)
    then
      if keep && negb (copy_ok (results_path tmpdir r)
                         (output_results_path fmt output_dir tmpdir r))
      then (add_events st1 (events_of_keeping fmt output_dir tmpdir r keep),
            Raise FileNotFoundError)
      else (add_events st1 (events_of_keeping fmt output_dir tmpdir r keep
                            ++ [Chdir current_dir]),
            Ok (partition_path tmpdir r, results_path tmpdir r))
    else (st1, Raise FileNotFoundError).
Proof.
  intros Hheap Hglobal. unfold collect_output, events_of_collecting, events_of_keeping.
  rewrite bind_run. unfold update_obj at 1.
  rewrite bind_run. unfold lookup_global_reneelrun at 1. simpl. rewrite Hglobal.
  rewrite bind_run. unfold get_obj at 1. simpl.
  rewrite lookup_alter_eq, Hheap. simpl.
  rewrite bind_run. unfold lift at 1. simpl.
  rewrite bind_run, when_emit.
  rewrite bind_run. unfold emit at 1.
  rewrite bind_run, copy_run.
  rewrite !add_events_app, if_bool_decide.
  destruct (copy_ok (partition_path tmpdir r) _) eqn:Hcopy.
  - rewrite bind_run. destruct keep; simpl.
    + rewrite bind_run. unfold emit at 1. rewrite copy_run.
      destruct (copy_ok (results_path tmpdir r) _) eqn:Hcopy2; simpl.
      * rewrite bind_run. unfold emit, add_events. simpl. by rewrite <- !app_assoc.
      * unfold add_events. simpl. by rewrite <- !app_assoc.
    + rewrite bind_run. unfold emit, add_events. simpl. by rewrite <- !app_assoc.
  - unfold add_events. simpl. by rewrite <- ?app_assoc.
Qed.



(** X17: with no processor to run on the call raises [ZeroDivisionError]
    before it touches anything: no event, no temporary directory, the run
    as it was. *)
Theorem no_processor_raises current_dir exe output_dir l r keep test_mode
    (st : state F) :
  heap st !! l = Some r →
  run_reneel_and_collect_output fmt is_dir copy_ok subprocess_run tmp_name
    current_dir exe output_dir l keep test_mode 0 st
  = (st, Raise ZeroDivisionError).
Proof.
  intros Hheap. unfold run_reneel_and_collect_output.
  rewrite bind_run. unfold get_obj at 1. rewrite Hheap.
  rewrite bind_run. unfold lift at 1, ensemble_per_cpu at 1.
  by rewrite decide_True.
Qed.

End outcome_facts.

Section recorded_name.
Context {F : Type}.
Variable fmt : F → string.

(** X18: the path that a returning call stores in [partition_file] is not
    the path it copied the partition file to: the copy is named
    [partition_{base}_{seed}-{chi}-{tmp}.{ext}], the stored path ends in
    [partition_{base}.{ext}]. *)
Theorem recorded_partition_file_is_not_the_copy output_dir td keep cmd code
    (r : ReneelRun F) d base ext :
  edgelist_file r = PyStr.path_join d (base +:+ String "." ext) →
  plain_base base → plain_ext ext → td ≠ "" → is_name (PyStr.path_name td) →
  0 ≤ seed r → plain_chi (fmt (chi r)) →
  partition_file (finished_run output_dir td keep cmd code r)
  = Some (PyStr.path_join output_dir (("partition_" +:+ base) +:+ String "." ext))
  ∧ output_partition_path fmt output_dir td r
    = PyStr.path_join output_dir
        (partition_name fmt base ext (seed r) (chi r) (PyStr.path_name td))
  ∧ partition_file (finished_run output_dir td keep cmd code r)
    ≠ Some (output_partition_path fmt output_dir td r).
Proof.
  intros He Hbase Hext Htd Ht Hseed Hchi.
  destruct (output_partition_name fmt output_dir td r d base ext)
    as (Hout & _ & _); [done..|].
  pose proof Hbase as (Hb & Hbs). pose proof Hext as (Hx & Hxs & Hxd).
  assert (partition_file (finished_run output_dir td keep cmd code r)
          = Some (PyStr.path_join output_dir
                    (("partition_" +:+ base) +:+ String "." ext))) as Hrec.
  { unfold finished_run. cbn [partition_file set_output_files]. do 2 f_equal.
    rewrite (partition_path_name td r d base ext) by done.
    apply path_name_dir, is_name_app_dot; [done| |done].
    by rewrite without_app, Hbs. }
  split; [exact Hrec|]. split; [exact Hout|].
  rewrite Hrec, Hout. intros [= Heq%path_join_inj].
  unfold partition_name in Heq.
  rewrite !PyStrFacts.app_assoc in Heq.
  do 2 apply app_inv_head in Heq. done.
Qed.

End recorded_name.



Lemma no_processor_raises_witness :
  run_reneel_and_collect_output PyStr.str (λ _, true) (λ _ _, true) (λ _, Ok 1)
    (λ _, "tmpab12") "/work" "/bin/reneel" "/out" 0%nat false false 0 script_state
  = (script_state, Raise ZeroDivisionError).
Proof.
  apply (no_processor_raises PyStr.str (λ _, true) (λ _ _, true) (λ _, Ok 1)
           (λ _, "tmpab12") "/work" "/bin/reneel" "/out" 0%nat small_run).
  reflexivity.
Defined.

Lemma recorded_partition_file_is_not_the_copy_witness :
  partition_file (finished_run "/out" "/work/tmpab12" false small_command 1 small_run)
  = Some "/out/partition_edges.txt"
  ∧ output_partition_path PyStr.str "/out" "/work/tmpab12" small_run
    = "/out/partition_edges_17-0-tmpab12.txt"
  ∧ partition_file (finished_run "/out" "/work/tmpab12" false small_command 1
                      small_run)
    ≠ Some (output_partition_path PyStr.str "/out" "/work/tmpab12" small_run).
Proof.
  apply (recorded_partition_file_is_not_the_copy PyStr.str "/out" "/work/tmpab12"
           false small_command 1 small_run "/data" "edges" "txt");
    by repeat split.
Defined.

End OutcomeFacts.

(** ** Selecting runs *)

Module SelectionFacts.
Import PyStrFacts PathSpec PathFacts DataSpec DataFacts NamingSpec NamingFacts
  LoaderSpec SelectionSpec.

Lemma split_nonempty sep s : ∀ budget skip f, PyStr.split_sep_go sep budget skip f s ≠ [].
Proof.
  induction s as [|a s IH]; intros budget skip f; [done|].
  cbn [PyStr.split_sep_go]. destruct skip; [|apply IH].
  destruct (_ && _); [done|apply IH].
Qed.

(** Every field but the last is free of the separator. *)
Lemma split_fields_without c s :
  ∀ budget f l x,
    without c f = true →
    PyStr.split_sep_go (String c "") budget 0 f s = l ++ [x] →
    Forall (λ y, without c y = true) l.
Proof.
  induction s as [|a s IH]; intros budget f l x Hf Hs.
  { simpl in Hs. destruct l as [|y [|z l]]; [done|done|done]. }
  cbn [PyStr.split_sep_go] in Hs. rewrite prefix_char in Hs.
  destruct (decide (budget = Some 0%nat)) as [->|Hb].
  { rewrite bool_decide_eq_false_2 in Hs by (by intros []). simpl in Hs.
    rewrite split_no_budget in Hs. by destruct l as [|y [|z l]]. }
  rewrite (bool_decide_eq_true_2 (budget ≠ Some 0%nat)) in Hs by done.
  simpl andb in Hs. destruct (bool_decide (c = a)) eqn:Hca.
  - destruct l as [|y l].
    { injection Hs as _ Hs. by apply split_nonempty in Hs. }
    injection Hs as <- Hs. constructor; [done|].
    by eapply (IH _ ""), Hs.
  - apply (IH budget (f +:+ String a "") l x); [|done].
    rewrite without_app, Hf, without_cons. simpl.
    apply bool_decide_eq_false in Hca.
    rewrite bool_decide_eq_false_2 by congruence. done.
Qed.

Section selection_facts.
Context {F : Type} `{EqDecision F}.
Variable float_of : string → option F.
Variable float_eqb : F → F → bool.
Variable float_leb : F → F → bool.

Lemma parsed_name_without clustering_dir f (row : Data.clustering) :
  parses float_of clustering_dir f row → without "_" (Data.name row) = true.
Proof.
  intros (prefix & suffix & s & c & Hparts & _).
  unfold Data._get_filename_parts, PyStr.split_sep in Hparts.
  apply (split_fields_without "_" _ _ "" [prefix; Data.name row] suffix) in Hparts;
    [|done].
  apply Forall_cons in Hparts as [_ Hparts]. by apply Forall_cons in Hparts as [? _].
Qed.

(** X19: no row of the table of [get_available_clustering] has a name with
    an underscore, whatever the files are called: the name is the second of
    the parts that [split("_", maxsplit=2)] gives. *)
Theorem available_names_have_no_underscore clustering_dir listing rows row :
  Data.get_available_clustering float_of float_leb clustering_dir listing = Ok rows →
  row ∈ rows →
  without "_" (Data.name row) = true.
Proof.
  intros Hrows Hrow.
  destruct (available_rows float_of float_leb clustering_dir listing)
    as (rows' & Hrows' & Hiff).
  rewrite Hrows in Hrows'. injection Hrows' as <-.
  apply Hiff in Hrow as (f & _ & _ & Hparses).
  by eapply parsed_name_without.
Qed.

Lemma for_each_nothing {A B} (l : list A) :
  Py.for_each (λ _ : A, Ok ([] : list B)) l = Ok (replicate (length l) []).
Proof. induction l as [|a l IH]; [done|]. simpl. by rewrite IH. Qed.

Lemma load_selected_runs_no_match fs listing (sel : Data.selection)
    preprocessed_dir clustering_dir ext rows :
  Data.get_available_clustering float_of float_leb clustering_dir listing = Ok rows →
  (∀ run, run ∈ Data.runs sel →
     Data.matches float_eqb rows (Data.selected_name sel) run = []) →
  Data.load_selected_runs float_of float_eqb float_leb fs listing sel
    preprocessed_dir clustering_dir ext
  = Raise ValueError.
Proof.
  intros Hrows Hnone. unfold Data.load_selected_runs. rewrite Hrows. simpl.
  assert (∀ runs0,
            (∀ run, run ∈ runs0 →
               Data.matches float_eqb rows (Data.selected_name sel) run = []) →
            Py.for_each
              (λ run,
                 Py.for_each
                   (λ row,
                      Data.load_partition float_of fs
                        (PyStr.path_join preprocessed_dir
                           ("key_" +:+ Data.selected_name sel +:+ "." +:+ ext))
                        (Data.file row)
                        (bool_decide (1 < length (Data.run_seeds run))%nat))
                   (Data.matches float_eqb rows (Data.selected_name sel) run))
              runs0
            = Ok (replicate (length runs0) [])) as ->.
  { induction runs0 as [|run runs0 IH]; intros Hall; [done|].
    cbn [Py.for_each]. rewrite (Hall run) by by left. simpl.
    rewrite IH by (intros run' Hin; apply Hall; by right). done. }
  - simpl. assert (mjoin (replicate (length (Data.runs sel))
                            ([] : list (Pandas.DataFrame F))) = []) as ->; [|done].
    induction (length (Data.runs sel)); [done|]. simpl. done.
  - exact Hnone.
Qed.

(** X20: [load_selected_runs] raises [ValueError] when no listed file
    matches a selected run, in particular when no run is selected: there
    is nothing to concatenate.  The key file is not looked at. *)
Theorem load_selected_runs_nothing_selected fs listing (sel : Data.selection)
    preprocessed_dir clustering_dir ext :
  (∀ rows run,
     Data.get_available_clustering float_of float_leb clustering_dir listing = Ok rows →
     run ∈ Data.runs sel →
     Data.matches float_eqb rows (Data.selected_name sel) run = []) →
  Data.load_selected_runs float_of float_eqb float_leb fs listing sel
    preprocessed_dir clustering_dir ext
  = Raise ValueError.
Proof.
  intros Hnone.
  destruct (available_rows float_of float_leb clustering_dir listing)
    as (rows & Hrows & _).
  apply (load_selected_runs_no_match _ _ _ _ _ _ rows Hrows).
  intros run Hrun. by apply Hnone.
Qed.

(** X21: runs of data whose name has an underscore cannot be loaded:
    [load_selected_runs] raises [ValueError] for such a name, whatever the
    files and the listing are. *)
Theorem load_selected_runs_underscore_raises fs listing (sel : Data.selection)
    preprocessed_dir clustering_dir ext :
  without "_" (Data.selected_name sel) = false →
  Data.load_selected_runs float_of float_eqb float_leb fs listing sel
    preprocessed_dir clustering_dir ext
  = Raise ValueError.
Proof.
  intros Hname.
  destruct (available_rows float_of float_leb clustering_dir listing)
    as (rows & Hrows & Hiff).
  apply (load_selected_runs_no_match _ _ _ _ _ _ rows Hrows).
  intros run _. unfold Data.matches.
  assert (∀ l : list Data.clustering,
            Forall (λ row, without "_" (Data.name row) = true) l →
            List.filter
              (λ row, bool_decide (Data.name row = Data.selected_name sel)
                      && float_eqb (Data.chi row) (Data.run_chi run)
                      && bool_decide (Data.seed row ∈ Data.run_seeds run)) l = [])
    as Hfilter.
  { induction 1 as [|row l Hrow _ IH]; [done|]. simpl.
    rewrite bool_decide_eq_false_2; [done|]. intros Heq. congruence. }
  apply Hfilter, Forall_forall. intros row Hrow.
  apply Hiff in Hrow as (f & _ & _ & Hparses).
  by eapply parsed_name_without.
Qed.

End selection_facts.

Lemma available_names_have_no_underscore_witness :
  Data.get_available_clustering whole_float Z.leb "/out" numbered_listing
  = Ok [numbered_row]
  ∧ without "_" (Data.name numbered_row) = true.
Proof.
  split; [reflexivity|].
  apply (available_names_have_no_underscore whole_float Z.leb "/out"
           numbered_listing [numbered_row] numbered_row); [reflexivity|left].
Defined.

Lemma load_selected_runs_nothing_selected_witness :
  Data.load_selected_runs whole_float Z.eqb Z.leb run_files run_listing
    absent_selection "/pre" "/res" "txt"
  = Raise ValueError.
Proof.
  apply (load_selected_runs_nothing_selected whole_float Z.eqb Z.leb).
  intros rows run Hrows Hrun. vm_compute in Hrows. injection Hrows as <-.
  apply list_elem_of_singleton in Hrun as ->. reflexivity.
Defined.

Lemma load_selected_runs_underscore_raises_witness :
  Data.load_selected_runs whole_float Z.eqb Z.leb ∅ numbered_listing
    underscore_selection "/pre" "/out" "txt"
  = Raise ValueError.
Proof.
  apply (load_selected_runs_underscore_raises whole_float Z.eqb Z.leb).
  reflexivity.
Defined.

End SelectionFacts.

(** ** The names of the files of [format_for_reneel] *)

Module FormatNamesFacts.
Import FormatEdgelist RunReneel RunSpec PyStrFacts PathFacts FormatNamesSpec.

Lemma remove_nothing s : PyStr.remove "" s = s.
Proof.
  unfold PyStr.remove. induction s as [|c s IH]; [done|].
  simpl. by rewrite IH.
Qed.

Lemma endswith_app_underscore s : PyStr.endswith (s +:+ "_") "_" = true.
Proof.
  induction s as [|c s IH]; [done|].
  rewrite app_cons. cbn [PyStr.endswith]. rewrite IH. apply orb_true_r.
Qed.

Lemma endswith_nonempty s t : t ≠ "" → PyStr.endswith s t = true → s ≠ "".
Proof. intros Ht Hs ->. simpl in Hs. rewrite orb_false_r in Hs.
  apply bool_decide_eq_true in Hs. congruence. Qed.

(** X22: [add_underscore_to_prefix] and [add_underscore_to_suffix] change
    nothing when applied again; they keep the empty string, and give a
    string that ends, respectively starts, with an underscore otherwise. *)
Theorem add_underscore_idempotent s :
  add_underscore_to_prefix (add_underscore_to_prefix s) = add_underscore_to_prefix s
  ∧ add_underscore_to_suffix (add_underscore_to_suffix s) = add_underscore_to_suffix s
  ∧ (add_underscore_to_prefix s = "" ↔ s = "")
  ∧ (add_underscore_to_suffix s = "" ↔ s = "")
  ∧ (s ≠ "" → PyStr.endswith (add_underscore_to_prefix s) "_" = true
              ∧ PyStr.startswith (add_underscore_to_suffix s) "_" = true).
Proof.
  assert (s ≠ "" → PyStr.endswith (add_underscore_to_prefix s) "_" = true) as Hend.
  { intros Hs. unfold add_underscore_to_prefix.
    rewrite bool_decide_eq_true_2 by (destruct s; [done|simpl; lia]). simpl.
    destruct (PyStr.endswith s "_") eqn:He; simpl; [done|].
    apply endswith_app_underscore. }
  assert (s ≠ "" → PyStr.startswith (add_underscore_to_suffix s) "_" = true) as Hstart.
  { intros Hs. unfold add_underscore_to_suffix.
    rewrite bool_decide_eq_true_2 by (destruct s; [done|simpl; lia]). simpl.
    destruct (PyStr.startswith s "_") eqn:He; simpl; [done|].
    unfold PyStr.startswith. simpl. by destruct s. }
  split_and!.
  - destruct (decide (s = "")) as [->|Hs]; [done|].
    unfold add_underscore_to_prefix at 1. by rewrite (Hend Hs), andb_false_r.
  - destruct (decide (s = "")) as [->|Hs]; [done|].
    unfold add_underscore_to_suffix at 1. by rewrite (Hstart Hs), andb_false_r.
  - split; [|by intros ->]. unfold add_underscore_to_prefix.
    destruct (_ && _); [|done]. by destruct s.
  - split; [|by intros ->]. unfold add_underscore_to_suffix.
    destruct (_ && _); done.
  - intros Hs. split; [by apply Hend|by apply Hstart].
Qed.

Section names.
Context {F : Type}.
Variable exists_file : string → bool.

(** X23: called with the default [inprefix], [insuffix], [suffix] and
    output directory, [format_for_reneel] names its outputs as
    [ReneelRun] looks for them: making the run of the source file succeeds
    exactly when the source and the edge, degree and info files exist, and
    these three are its associated files; the key file is not asked for. *)
Theorem formatted_files_are_found prefix source ns seed0 (chi0 : F) rg rn rp :
  name_outputs "" "" prefix "" None source = Returned ns →
  new_ReneelRun exists_file source seed0 chi0 rg rn rp
  = if exists_file source && exists_file (output_file ns)
       && exists_file (degree_file ns) && exists_file (info_file ns)
    then Ok {| edgelist_file := source; seed := seed0; chi := chi0;
               rg_ensemble_size := rg; reneel_ensemble_size := rn;
               rg_parameter := rp; partition_file := None; results_file := None;
               associated_files := [output_file ns; degree_file ns; info_file ns];
               wall_time := None; completed_process := None |}
    else Raise FileNotFoundError.
Proof.
  unfold name_outputs, origin_name. case_bool_decide; [done|].
  intros [= <-]. cbn [output_file degree_file info_file].
  change (add_underscore_to_suffix "") with "".
  change (add_underscore_to_prefix "") with "".
  rewrite !remove_nothing, !app_nil_r.
  unfold new_ReneelRun. destruct (exists_file source); [|done]. simpl.
  destruct (exists_file (PyStr.with_stem source ("clean_" +:+ PyStr.stem source)));
    [|done]. simpl.
  destruct (exists_file (PyStr.with_stem source ("degree_" +:+ PyStr.stem source)));
    [|done]. simpl.
  by destruct (exists_file (PyStr.with_stem source ("info_" +:+ PyStr.stem source))).
Qed.

End names.

(** X24: the four outputs of one source file have four different names,
    and the names do not depend on the option [prefix], which is only
    compared with the reserved prefixes. *)
Theorem outputs_have_different_names inprefix insuffix prefix prefix' suffix
    outputdir source ns :
  name_outputs inprefix insuffix prefix suffix outputdir source = Returned ns →
  NoDup [output_file ns; key_file ns; info_file ns; degree_file ns]
  ∧ ∀ ns', name_outputs inprefix insuffix prefix' suffix outputdir source
           = Returned ns' → ns' = ns.
Proof.
  unfold name_outputs. case_bool_decide; [done|]. intros [= <-]. split.
  - cbn [output_file key_file info_file degree_file]. unfold PyStr.with_stem.
    set (head := String.substring _ _ _). set (tail := _ +:+ add_underscore_to_suffix _).
    set (ext := PyStr.suffix_of_name _).
    clearbody head tail ext. cbn [String.append].
    assert (∀ a b s t, a ≠ b →
              head +:+ String a s +:+ ext ≠ head +:+ String b t +:+ ext) as Hne.
    { intros a b s t Hab Heq%app_inv_head. rewrite !app_cons in Heq. congruence. }
    repeat constructor; rewrite ?elem_of_cons, ?elem_of_nil;
      intros Hin; decompose [or] Hin; try done;
      match goal with H : _ = _ |- _ => by apply Hne in H end.
  - intros ns'. case_bool_decide; [done|]. by intros [= <-].
Qed.

Lemma formatted_files_are_found_witness :
  name_outputs "" "" "" "" None "/data/edges.txt" = Returned edges_outputs
  ∧ new_ReneelRun (λ _, true) "/data/edges.txt" 17 0 3 8 2 = Ok small_run.
Proof.
  split; [reflexivity|].
  apply (formatted_files_are_found (λ _, true) "" "/data/edges.txt" edges_outputs
           17 0 3 8 2).
  reflexivity.
Defined.

Lemma outputs_have_different_names_witness :
  NoDup ["/data/clean_edges.txt"; "/data/key_edges.txt"; "/data/info_edges.txt";
         "/data/degree_edges.txt"]
  ∧ ∀ ns', name_outputs "" "" "new" "" None "/data/edges.txt" = Returned ns' →
           ns' = edges_outputs.
Proof.
  apply (outputs_have_different_names "" "" "" "new" "" None "/data/edges.txt"
           edges_outputs).
  reflexivity.
Defined.

End FormatNamesFacts.

(** ** Directed graphs *)

Module DirectedFacts.
Import FormatEdgelist EdgelistSpec GraphSpec DirectedSpec EdgelistFacts.

Section directed_facts.
Context {V : Type} `{Countable V}.
Variable node_lt : V → V → bool.

Lemma accepted_directed_weights a b (ts : list (V * V * Z)) :
  (filter (λ e, e.1 = (a, b)) (accepted node_lt true ts)).*2
  = directed_weights a b ts.
Proof.
  unfold directed_weights.
  induction ts as [|[[u v] w] ts IH]; [done|].
  rewrite accepted_cons, (filter_cons _ _ ts).
  change (canonical node_lt true u v) with (u, v).
  change ((u, v, w).1) with (u, v). cbn [fst snd].
  destruct (decide (u ≠ v)) as [Hne|Heq].
  - rewrite filter_cons. change ((u, v, w).1) with (u, v).
    destruct (decide ((u, v) = (a, b))) as [Hab|Hab].
    + rewrite decide_True; [|split; [done|]; by simplify_eq].
      by rewrite !fmap_cons, IH.
    + rewrite decide_False; [done|]. by intros [? ?].
  - rewrite decide_False; [done|]. intros [Hab Hne]. simplify_eq. done.
Qed.

(** X25: read with [directed=True], the weight stored for [(a, b)] is the
    sum of the weights of the lines from [a] to [b]; the lines from [b] to
    [a] are kept apart under [(b, a)], and a pair without a line is no
    key. *)
Theorem read_graph_directed_keeps_direction convert weight_convert sep skip
    u_col v_col w_col content log g a b :
  read_graph node_lt convert weight_convert sep skip true u_col v_col w_col
    content = (log, Returned g) →
  edges g !! (a, b)
  = match directed_weights a b
            (triples convert weight_convert sep u_col v_col w_col
               (PyStr.slice_from (PyStr.readlines content) skip)) with
    | [] => None
    | ws => Some (sum_list ws)
    end.
Proof.
  intros Hr. unfold read_graph in Hr.
  apply read_lines_returned in Hr as ->.
  rewrite edges_add_edges, accepted_directed_weights.
  unfold get0. simpl. rewrite lookup_empty. simpl.
  by destruct (directed_weights _ _ _).
Qed.

End directed_facts.

Lemma read_graph_directed_keeps_direction_witness :
  read_graph Z.ltb PyStr.int PyStr.int None 0 true 0 1 2 triangle_file
  = (triangle_log, Returned directed_triangle)
  ∧ edges directed_triangle !! (10, 20) = Some (3 + 0)
  ∧ edges directed_triangle !! (20, 10) = Some (1 + 0).
Proof.
  split; [reflexivity|]. split.
  - apply (read_graph_directed_keeps_direction Z.ltb PyStr.int PyStr.int None 0
             0 1 2 triangle_file triangle_log directed_triangle 10 20).
    reflexivity.
  - apply (read_graph_directed_keeps_direction Z.ltb PyStr.int PyStr.int None 0
             0 1 2 triangle_file triangle_log directed_triangle 20 10).
    reflexivity.
Defined.

End DirectedFacts.

(** ** Reading the edge file back *)

Module RereadFacts.
Import FormatEdgelist EdgelistSpec GraphSpec RereadSpec EdgelistFacts PyStrFacts
  KeyFacts GraphFacts OutputFacts.



Section reread.
Context {V : Type} `{Countable V}.





Section clean_file.
Variable node_lt : V → V → bool.
Variable convert : string → result V.
Variable weight_convert : string → result Z.
Variable sep : option string.
Variable skip : Z.
Variable directed : bool.
Variables u_col v_col w_col : Z.



End clean_file.
End reread.


End RereadFacts.

(** ** Weights that are floats *)

Module FloatFacts.
Import PrimFloat.
Import FormatEdgelist FloatSpec.

Section integer_weights.
Context {V : Type} `{Countable V}.
Variable node_lt : V → V → bool.
Variable convert : string → result V.
Variable weight_convert : string → result Z.
Variable sep : option string.
Variable skip : Z.
Variable directed : bool.
Variables u_col v_col w_col : Z.

(** With integers for the weights, the definitions for any type of weights
    are those of [FormatEdgelist]. *)
Lemma read_lines_integer lines :
  ∀ n log g,
    read_lines node_lt convert weight_convert sep skip directed u_col v_col w_col
      n lines log (integer_graph g)
    = (let r := WeightedEdgelist.read_lines Z.add 0 node_lt convert weight_convert
                  sep skip directed u_col v_col w_col n lines log g in
       (r.1, integer_outcome r.2)).
Proof.
  induction lines as [|line rest IH]; intros n log g; [done|].
  cbn [read_lines WeightedEdgelist.read_lines].
  unfold read_line, WeightedEdgelist.read_line.
  destruct (decide (PyStr.strip line = "")); [apply IH|].
  destruct (fields _ _ _ _ line) as [f|ex]; [|done].
  change (WeightedEdgelist.converted convert weight_convert f)
    with (converted convert weight_convert f).
  destruct (converted _ _ f) as [[[u v] w]|ex]; [|done].
  destruct (canonical node_lt directed u v) as [a b].
  destruct (decide (a ≠ b)); [|apply IH].
  apply (IH (n + 1) log (WeightedEdgelist.add_edge Z.add 0 g a b w)).
Qed.

Lemma read_graph_integer content :
  read_graph node_lt convert weight_convert sep skip directed u_col v_col w_col content
  = (let r := WeightedEdgelist.read_graph Z.add 0 node_lt convert weight_convert
                sep skip directed u_col v_col w_col content in
     (r.1, integer_outcome r.2)).
Proof. apply (read_lines_integer _ 1 _ WeightedEdgelist.empty_graph). Qed.

End integer_weights.

(** C9 as stated fails with [--wtype float]: the total of the nodes need
    not be twice the total of the edges.  The lines [1 2 0.1], [2 3 0.1], [1 2 0.4] give the nodes
    0.5, 0.6000000000000001 and 0.1 and the edges 0.5 and 0.1: in whatever
    order the values are added up, the nodes give 1.2000000000000002 and
    twice the edges 1.2. *)
Lemma float_totals_are_not_twice :
  read_float_graph float_file = ([Info_reading 0 None], Returned float_graph)
  ∧ ∀ node_values edge_values,
      node_values ≡ₚ (map_to_list (WeightedEdgelist.nodes float_graph)).*2 →
      edge_values ≡ₚ (map_to_list (WeightedEdgelist.edges float_graph)).*2 →
      float_sum node_values = 0x1.3333333333334p+0%float
      ∧ twice (float_sum edge_values) = 0x1.3333333333333p+0%float
      ∧ PrimFloat.eqb (float_sum node_values) (twice (float_sum edge_values)) = false.
Proof.
  split; [by vm_compute|].
  intros ns es Hns Hes.
  symmetry in Hns, Hes.
  apply permutations_Permutation in Hns, Hes.
  vm_compute in Hns, Hes.
  repeat (apply elem_of_cons in Hns as [->|Hns]);
    [..|by apply elem_of_nil in Hns];
    (repeat (apply elem_of_cons in Hes as [->|Hes]);
       [..|by apply elem_of_nil in Hes]);
    by vm_compute.
Qed.

(** With [--wtype float] the order of the lines matters: [(0.1 + 0.2) + 0.3]
    is 0.6000000000000001 and [(0.3 + 0.2) + 0.1] is 0.6. *)
Lemma float_line_order_matters :
  ∃ g g',
    read_float_graph ascending_file = ([Info_reading 0 None], Returned g)
    ∧ read_float_graph descending_file = ([Info_reading 0 None], Returned g')
    ∧ WeightedEdgelist.edges g !! (2, 1) = Some 0x1.3333333333334p-1%float
    ∧ WeightedEdgelist.edges g' !! (2, 1) = Some 0x1.3333333333333p-1%float
    ∧ PrimFloat.eqb 0x1.3333333333334p-1 0x1.3333333333333p-1 = false.
Proof.
  eexists _, _. split; [by vm_compute|]. split; [by vm_compute|].
  by vm_compute.
Qed.

End FloatFacts.

(** ** The run with resolved paths *)

Module ResolvedFacts.
Import RunReneel RunSpec RunFacts OutcomeSpec OutcomeFacts.

Section resolved_facts.
Context {F : Type}.
Variable fmt : F → string.
Variable is_dir : string → bool.
Variable copy_ok : string → string → bool.
Variable subprocess_run : list string → result Z.
Variable tmp_name : nat → string.
Variable resolve : string → string.

(** Without links and relative paths the two definitions are one. *)
Lemma resolve_identity current_dir exe output_dir l keep test_mode n_cpu :
  ResolvedRun.run_reneel_and_collect_output fmt is_dir copy_ok subprocess_run
    tmp_name (λ path, path) current_dir exe output_dir l keep test_mode n_cpu
  = run_reneel_and_collect_output fmt is_dir copy_ok subprocess_run tmp_name
      current_dir exe output_dir l keep test_mode n_cpu.
Proof. reflexivity. Qed.

(** The call up to the return of the executable *)
Lemma resolved_run_to_collect current_dir exe output_dir l r keep test_mode n_cpu
    code (st : state F) :
  let tmpdir := PyStr.path_join current_dir (tmp_name (tmp_count st)) in
  let cmd := command fmt (resolve exe) test_mode r
               (per_cpu (rg_ensemble_size r) n_cpu)
               (per_cpu (reneel_ensemble_size r) n_cpu) tmpdir in
  heap st !! l = Some r → n_cpu ≠ 0 → staged copy_ok tmpdir r →
  subprocess_run cmd = Ok code →
  ResolvedRun.run_reneel_and_collect_output fmt is_dir copy_ok subprocess_run
    tmp_name resolve current_dir exe output_dir l keep test_mode n_cpu st
  = (let '(st2, res) :=
       collect_output fmt copy_ok current_dir (resolve output_dir) l r keep cmd
         code tmpdir
         (add_events (count_temporary st)
            (events_before_run is_dir output_dir tmpdir r test_mode n_cpu cmd
             ++ [Run cmd])) in
     match res with
     | Ok files =>
         ((update_obj l
             (set_output_files (resolve output_dir) keep files.1 files.2)
             (add_events st2 [Cleanup tmpdir])).1, Ok ())
     | Raise e => (add_events st2 [Cleanup tmpdir], Raise e)
     end).
Proof.
  intros tmpdir cmd Hheap Hn Hstaged Hsub.
  unfold ResolvedRun.run_reneel_and_collect_output.
  rewrite bind_run. unfold get_obj at 1. rewrite Hheap.
  rewrite bind_run. unfold lift at 1, ensemble_per_cpu at 1.
  rewrite decide_False by done.
  rewrite bind_run, when_emit, if_bool_decide.
  rewrite bind_run. unfold lift at 1, ensemble_per_cpu at 1.
  rewrite decide_False by done.
  rewrite bind_run, when_emit, if_bool_decide.
  rewrite bind_run, when_two_emits.
  rewrite !add_events_app.
  fold (per_cpu (rg_ensemble_size r) n_cpu).
  fold (per_cpu (reneel_ensemble_size r) n_cpu).
  cbv zeta.
  rewrite bind_run. unfold with_temporary_directory, in_temporary_directory.
  change (tmp_count (add_events st ?e)) with (tmp_count st).
  fold tmpdir. fold cmd.
  rewrite bind_run, stage_and_run_spec by done. fold cmd. rewrite Hsub.
  match goal with
  | |- context [collect_output _ _ _ _ _ _ _ _ _ _ ?s] =>
      replace s with
        (add_events (count_temporary st)
           (events_before_run is_dir output_dir tmpdir r test_mode n_cpu cmd
            ++ [Run cmd]))
  end.
  - destruct (collect_output _ _ _ _ _ _ _ _ _ _ _) as [st2 [files|e]]; [|done].
    by rewrite bind_run.
  - unfold events_before_run, effective, add_events, count_temporary.
    cbn [trace heap global_reneelrun tmp_count]. f_equal.
    destruct (is_dir output_dir); cbn [negb]; rewrite <- ?app_assoc; reflexivity.
Qed.

(** X15: a call that stages its files, gets a return code and copies the
    outputs back returns.  The run then holds the command, which starts
    with the resolved path to the executable, and the return code;
    [partition_file] is the name of the partition file under the resolved
    output directory; [results_file] is set only with [keep_results]; the
    fields given to the constructor are as before and no other object is
    touched; the last two events are the change back to the starting
    directory and the removal of the temporary directory.  Nothing is said
    of [wall_time], the difference of two readings of the clock. *)
Theorem run_records_its_outputs current_dir exe output_dir l r keep test_mode
    n_cpu code (st : state F) :
  let tmpdir := PyStr.path_join current_dir (tmp_name (tmp_count st)) in
  let cmd := command fmt (resolve exe) test_mode r
               (per_cpu (rg_ensemble_size r) n_cpu)
               (per_cpu (reneel_ensemble_size r) n_cpu) tmpdir in
  heap st !! l = Some r → global_reneelrun st = Some l → n_cpu ≠ 0 →
  staged copy_ok tmpdir r → subprocess_run cmd = Ok code →
  copy_ok (partition_path tmpdir r)
    (output_partition_path fmt (resolve output_dir) tmpdir r) = true →
  (keep = true →
   copy_ok (results_path tmpdir r)
     (output_results_path fmt (resolve output_dir) tmpdir r) = true) →
  ∃ st' r',
    ResolvedRun.run_reneel_and_collect_output fmt is_dir copy_ok subprocess_run
      tmp_name resolve current_dir exe output_dir l keep test_mode n_cpu st
    = (st', Ok ())
    ∧ trace st'
      = trace st ++ events_before_run is_dir output_dir tmpdir r test_mode n_cpu cmd
          ++ [Run cmd] ++ events_of_collecting fmt (resolve output_dir) tmpdir r code
          ++ events_of_keeping fmt (resolve output_dir) tmpdir r keep
          ++ [Chdir current_dir; Cleanup tmpdir]
    ∧ heap st' !! l = Some r'
    ∧ (∀ l', l' ≠ l → heap st' !! l' = heap st !! l')
    ∧ completed_process r' = Some {| args := cmd; returncode := code |}
    ∧ partition_file r'
      = Some (PyStr.path_join (resolve output_dir)
                (PyStr.path_name (partition_path tmpdir r)))
    ∧ results_file r'
      = (if keep
         then Some (PyStr.path_join (resolve output_dir)
                      (PyStr.path_name (results_path tmpdir r)))
         else results_file r)
    ∧ edgelist_file r' = edgelist_file r
    ∧ associated_files r' = associated_files r
    ∧ seed r' = seed r ∧ chi r' = chi r
    ∧ rg_ensemble_size r' = rg_ensemble_size r
    ∧ reneel_ensemble_size r' = reneel_ensemble_size r
    ∧ rg_parameter r' = rg_parameter r
    ∧ tmp_count st' = S (tmp_count st).
Proof.
  intros tmpdir cmd Hheap Hglobal Hn Hstaged Hsub Hc1 Hc2.
  rewrite (resolved_run_to_collect current_dir exe output_dir l r keep test_mode
             n_cpu code) by done.
  fold tmpdir. fold cmd.
  rewrite (collect_output_run fmt copy_ok current_dir (resolve output_dir) l r r)
    by done.
  cbv zeta. rewrite Hc1.
  assert (keep && negb (copy_ok (results_path tmpdir r)
                          (output_results_path fmt (resolve output_dir) tmpdir r))
          = false) as ->.
  { destruct keep; [|done]. by rewrite Hc2. }
  eexists.
  exists (finished_run (resolve output_dir) tmpdir keep cmd code r).
  split; [reflexivity|]. split_and!; try done.
  - simpl. rewrite <- !app_assoc. reflexivity.
  - simpl. by rewrite !lookup_alter_eq, Hheap.
  - intros l' Hne. simpl. by rewrite !lookup_alter_ne.
Qed.

End resolved_facts.

Lemma run_records_its_outputs_witness :
  ∃ st' r',
    ResolvedRun.default_call script_state = (st', Ok ())
    ∧ heap st' !! 0%nat = Some r'
    ∧ completed_process r'
      = Some {| args := ResolvedRun.default_command; returncode := 1 |}
    ∧ partition_file r' = Some "/work/out/partition_edges.txt"
    ∧ results_file r' = None.
Proof.
  destruct (run_records_its_outputs PyStr.str (λ _, true) (λ _ _, true) (λ _, Ok 1)
              (λ _, "tmpab12") (ResolvedRun.resolve_under "/work") "/work" "a.out"
              "out" 0%nat small_run false false 8 1 script_state)
    as (st' & r' & Hrun & _ & Hheap & _ & Hcp & Hpart & Hres & _).
  - reflexivity.
  - reflexivity.
  - lia.
  - exact small_run_staged.
  - reflexivity.
  - reflexivity.
  - reflexivity.
  - exists st', r'. split; [exact Hrun|]. split; [exact Hheap|].
    split; [exact Hcp|]. split; [exact Hpart|exact Hres].
Defined.

End ResolvedFacts.
